(** * Chronomaly: forecast-versus-actual comparison and its filter pipeline

    A shallow embedding of
      - [chronomaly/infrastructure/comparators/forecast_actual.py]
        (class [ForecastActualComparator]),
      - [chronomaly/infrastructure/filters/pre/cumulative_threshold.py]
        (class [CumulativeThresholdFilter]),
      - [chronomaly/infrastructure/filters/post/anomaly_filter.py]
        (class [AnomalyFilter]),
      - [chronomaly/infrastructure/filters/post/deviation_filter.py]
        (class [DeviationFilter]),
      - [chronomaly/application/workflows/anomaly_detection_workflow.py]
        (class [AnomalyDetectionWorkflow]),
      - [chronomaly/application/workflows/notification_workflow.py]
        (class [NotificationWorkflow]),
      - the constructor of [BigQueryDataWriter],
    followed by the properties of these definitions.

    Numbers.  A finite Python [float] is modelled by the rational number
    it stands for, and [inf], [-inf] and [nan] by three special values.
    Every arithmetic operation rounds its exact result to the nearest
    number with a significand of 53 bits, ties to even, as binary64
    arithmetic does.  The range of the exponent is not bounded: overflow to
    [inf] and the loss of precision below 2^-1022 are not modelled, and
    [-0.0] is [0.0].  An [int] is an unbounded integer, also where pandas
    stores an [int64].
    Exceptions are values of an error type; a function that can raise
    returns a [result]. *)

From Stdlib Require Import ZArith QArith Qabs Qround Qpower Bool List String
  Ascii Lia Lqa Permutation Sorted.
Import ListNotations.
Local Open Scope Z_scope.

Set Implicit Arguments.

(* ===================================================================== *)
(** ** Exceptions and results *)
(* ===================================================================== *)

Inductive exn : Type :=
| ValueError (msg : string)
| TypeError (msg : string)
| OverflowError (msg : string)
| ZeroDivisionError (msg : string)
| KeyError (msg : string)
| FileNotFoundError (msg : string)
| PermissionError (msg : string).

Inductive result (A : Type) : Type :=
| Ok (a : A)
| Raise (e : exn).
Arguments Ok {A} a.
Arguments Raise {A} e.


(** [warnings.warn] of [_compare_metric]: fewer quantiles than expected. *)
Inductive warning : Type :=
| QuantileCountWarning (expected got : nat).

(** A computation that may raise and records the warnings issued before it
    returned or raised. *)
Definition py (A : Type) : Type := (result A * list warning)%type.

Definition ret {A : Type} (a : A) : py A := (Ok a, []).

Definition lift {A : Type} (c : result A) : py A := (c, []).

Definition warn (w : warning) : py unit := (Ok tt, [w]).

Definition bind {A B : Type} (c : py A) (k : A -> py B) : py B :=
  match c with
  | (Ok a, w) => let '(r, w') := k a in (r, w ++ w')
  | (Raise e, w) => (Raise e, w)
  end.

Declare Scope py_scope.
Delimit Scope py_scope with py.
Notation "x <- c ;; k" := (bind c (fun x => k))
  (at level 61, c at next level, right associativity) : py_scope.
Notation "c ;; k" := (bind c (fun _ => k))
  (at level 61, right associativity) : py_scope.

(** A [for] loop that appends one value per element. *)
Fixpoint mapM {A B : Type} (f : A -> py B) (l : list A) : py (list B) :=
  match l with
  | [] => ret []
  | x :: l' => bind (f x) (fun y => bind (mapM f l') (fun ys => ret (y :: ys)))
  end.

(* ===================================================================== *)
(** ** Python floats *)
(* ===================================================================== *)

Inductive pyfloat : Type :=
| Fin (q : Q)
| PosInf
| NegInf
| NaN.

Definition fzero : pyfloat := Fin 0.

Definition isna (x : pyfloat) : bool :=
  match x with NaN => true | _ => false end.

(** [x == y] on floats: false as soon as one side is [nan]. *)
Definition feqb (x y : pyfloat) : bool :=
  match x, y with
  | Fin a, Fin b => Qeq_bool a b
  | PosInf, PosInf => true
  | NegInf, NegInf => true
  | _, _ => false
  end.

(** [x != y] is the negation of [==], hence true on [nan]. *)
Definition fneb (x y : pyfloat) : bool := negb (feqb x y).

(** [x <= y]. *)
Definition fleb (x y : pyfloat) : bool :=
  match x, y with
  | NaN, _ | _, NaN => false
  | NegInf, _ => true
  | _, PosInf => true
  | Fin a, Fin b => Qle_bool a b
  | _, _ => false
  end.

(** [x < y]. *)
Definition fltb (x y : pyfloat) : bool :=
  match x, y with
  | NaN, _ | _, NaN => false
  | PosInf, _ => false
  | _, NegInf => false
  | Fin a, Fin b => negb (Qle_bool b a)
  | _, _ => true
  end.

Definition fneg (x : pyfloat) : pyfloat :=
  match x with
  | Fin a => Fin (- a)%Q
  | PosInf => NegInf
  | NegInf => PosInf
  | NaN => NaN
  end.

Definition fabs (x : pyfloat) : pyfloat :=
  match x with
  | Fin a => Fin (Qabs a)
  | PosInf | NegInf => PosInf
  | NaN => NaN
  end.

(** Nearest integer, ties to the even one. *)
Definition round_half_even (q : Q) : Z :=
  let f := Qfloor q in
  let r := (q - inject_Z f)%Q in
  if Qle_bool r (1 # 2)
  then if Qeq_bool r (1 # 2) then (if Z.even f then f else f + 1) else f
  else f + 1.

(** The binary exponent of a positive rational [q]: the [e] with
    [2^e <= q < 2^(e+1)]. *)
Definition exponent (q : Q) : Z :=
  let e := Z.log2 (Qnum q) - Z.log2 (Zpos (Qden q)) in
  if Qle_bool (2 ^ e) q then e else e - 1.

(** The rounding of binary64 arithmetic: the nearest number with a
    significand of 53 bits, the one with the even significand when two are
    as near.  The result is in lowest terms. *)
Definition binary64 (q : Q) : Q :=
  let q := Qred q in
  if Qeq_bool q 0 then 0%Q
  else
    let e := exponent (Qabs q) in
    Qred (inject_Z (round_half_even (q * 2 ^ (52 - e))) * 2 ^ (e - 52)).

Arguments binary64 q : simpl never.

(** The float nearest to a number. *)
Definition fround (x : pyfloat) : pyfloat :=
  match x with
  | Fin q => Fin (binary64 q)
  | _ => x
  end.

(** [x + y]. *)
Definition fadd (x y : pyfloat) : pyfloat :=
  match x, y with
  | NaN, _ | _, NaN => NaN
  | Fin a, Fin b => Fin (binary64 (a + b))
  | PosInf, NegInf | NegInf, PosInf => NaN
  | PosInf, _ | _, PosInf => PosInf
  | NegInf, _ | _, NegInf => NegInf
  end.

(** [x - y]. *)
Definition fsub (x y : pyfloat) : pyfloat := fadd x (fneg y).

(** Sign of a float that is not [nan]: [-1], [0] or [1]. *)
Definition fsgn (x : pyfloat) : Z :=
  match x with
  | Fin a => Z.sgn (Qnum a)
  | PosInf => 1
  | NegInf => -1
  | NaN => 0
  end.

Definition inf_of_sign (s : Z) : pyfloat :=
  if s =? 0 then NaN else if 0 <? s then PosInf else NegInf.

(** [x * y]. *)
Definition fmul (x y : pyfloat) : pyfloat :=
  match x, y with
  | NaN, _ | _, NaN => NaN
  | Fin a, Fin b => Fin (binary64 (a * b))
  | _, _ => inf_of_sign (fsgn x * fsgn y)
  end.

(** [x / y]; Python raises [ZeroDivisionError] on a zero divisor. *)
Definition fdiv (x y : pyfloat) : result pyfloat :=
  if feqb y fzero then Raise (ZeroDivisionError "float division by zero")
  else
    Ok match x, y with
       | NaN, _ | _, NaN => NaN
       | Fin a, Fin b => Fin (binary64 (a / b))
       | Fin _, _ => fzero
       | _, Fin _ => inf_of_sign (fsgn x * fsgn y)
       | _, _ => NaN
       end.

(** [round(x)]: an [int]; raises on [nan] and on the infinities. *)
Definition py_round (x : pyfloat) : result Z :=
  match x with
  | Fin q => Ok (round_half_even q)
  | NaN => Raise (ValueError "cannot convert float NaN to integer")
  | _ => Raise (OverflowError "cannot convert float infinity to integer")
  end.

(** Rounding of a float to two decimal places: the float nearest to the
    decimal number with two places that is nearest to it, ties between
    decimal numbers to the even one. *)
Definition round2 (q : Q) : Q :=
  binary64 (inject_Z (round_half_even (q * 100)) / 100).

(** [round(x, 2)]: a [float]; the special values are returned unchanged. *)
Definition py_round2 (x : pyfloat) : pyfloat :=
  match x with
  | Fin q => Fin (round2 q)
  | _ => x
  end.

(* ===================================================================== *)
(** ** Strings *)
(* ===================================================================== *)

(** [s.split(sep)] for a one-character separator. *)
Fixpoint split (sep : ascii) (s : string) : list string :=
  match s with
  | EmptyString => [EmptyString]
  | String c rest =>
      if Ascii.eqb c sep then EmptyString :: split sep rest
      else match split sep rest with
           | [] => [String c EmptyString]
           | h :: t => String c h :: t
           end
  end.

(** [sub in s]. *)
Fixpoint contains (sub s : string) : bool :=
  if String.prefix sub s then true
  else match s with
       | EmptyString => false
       | String _ rest => contains sub rest
       end.

(** A decimal reader for the strings of the examples below: the number
    denoted by an optional sign followed by [digits], [digits.digits],
    [digits.], [.digits], [nan], [inf] or [infinity].  [None] is a string
    that denotes no number.  The other forms that [float] accepts, an
    exponent or white space around the number, do not occur in the
    examples and are not read. *)
Definition digit_of (c : ascii) : option Z :=
  let n := nat_of_ascii c in
  if ((48 <=? n) && (n <=? 57))%nat then Some (Z.of_nat (n - 48)) else None.

Fixpoint read_digits (s : string) (acc : Z) (count : nat) : Z * nat * string :=
  match s with
  | EmptyString => (acc, count, s)
  | String c rest =>
      match digit_of c with
      | Some d => read_digits rest (acc * 10 + d) (S count)
      | None => (acc, count, s)
      end
  end.

Definition read_unsigned (s : string) : option pyfloat :=
  if String.eqb s "nan" then Some NaN
  else if String.eqb s "inf" || String.eqb s "infinity" then Some PosInf
  else
    let '(i, ni, rest) := read_digits s 0 0 in
    match rest with
    | EmptyString => if (0 <? ni)%nat then Some (Fin (inject_Z i)) else None
    | String c frac =>
        if Ascii.eqb c "."%char then
          let '(f, nf, rest') := read_digits frac 0 0 in
          match rest' with
          | EmptyString =>
              if (0 <? ni + nf)%nat
              then Some (Fin (Qred (Qmake (i * 10 ^ Z.of_nat nf + f)
                                          (Z.to_pos (10 ^ Z.of_nat nf)))))
              else None
          | _ => None
          end
        else None
    end.

Definition float_of_decimal (s : string) : option pyfloat :=
  match s with
  | String "-" rest => option_map fneg (read_unsigned rest)
  | String "+" rest => read_unsigned rest
  | _ => read_unsigned s
  end.


(* ===================================================================== *)
(** ** Cells and tables *)
(* ===================================================================== *)

(** The values found in table cells and index labels. *)
Inductive pyval : Type :=
| VNone
| VInt (z : Z)
| VFloat (f : pyfloat)
| VStr (s : string).

(** [a == b] on cell values. *)
Definition pyval_eqb (a b : pyval) : bool :=
  match a, b with
  | VNone, VNone => true
  | VInt x, VInt y => x =? y
  | VInt x, VFloat f | VFloat f, VInt x => feqb (Fin (inject_Z x)) f
  | VFloat f, VFloat g => feqb f g
  | VStr s, VStr t => String.eqb s t
  | _, _ => false
  end.

Definition in_list (c : string) (l : list string) : bool :=
  existsb (String.eqb c) l.

(** One row of a table: its index label and its cells by column name. *)
Record Row : Type := mkRow {
  label : pyval;
  cell : string -> pyval
}.

(** A [pandas.DataFrame]: the name of the index, [None] for an index
    without a name, the column names in order and the rows in order. *)
Record DataFrame : Type := mkDF {
  index_name : option string;
  columns : list string;
  rows : list Row
}.

(** [df.index]. *)
Definition index (df : DataFrame) : list pyval := map label (rows df).

(** [df.empty]: no row or no column. *)
Definition empty (df : DataFrame) : bool :=
  match rows df, columns df with
  | [], _ | _, [] => true
  | _, _ => false
  end.

(** [pd.DataFrame()]. *)
Definition empty_frame : DataFrame := mkDF None [] [].

(** [idx in df.index]. *)
Definition in_index (idx : pyval) (df : DataFrame) : bool :=
  existsb (pyval_eqb idx) (index df).

(** [df.loc[idx]] for a label of the index. *)
Definition loc (df : DataFrame) (idx : pyval) : option Row :=
  find (fun r => pyval_eqb (label r) idx) (rows df).


(** [range(n)] as index labels. *)
Definition range_index (n : nat) : list pyval :=
  map (fun k => VInt (Z.of_nat k)) (seq 0 n).

(** The name of the column that [reset_index] makes of the index: the
    name of the index, and for an index without a name ['index'], or
    ['level_0'] when the table has a column ['index'] already. *)
Definition index_column (df : DataFrame) : string :=
  match index_name df with
  | Some name => name
  | None => if in_list "index" (columns df) then "level_0" else "index"
  end.

(** [df.reset_index()]: the index becomes the first column, the new index
    has no name and labels the rows [0 .. n-1]; pandas refuses to insert a
    column that already exists. *)
Definition reset_index (df : DataFrame) : result DataFrame :=
  let name := index_column df in
  if in_list name (columns df)
  then Raise (ValueError ("cannot insert " ++ name ++ ", already exists"))
  else Ok (mkDF None
             (name :: columns df)
             (map (fun kr : nat * Row =>
                     mkRow (VInt (Z.of_nat (fst kr)))
                           (fun c => if String.eqb c name
                                     then label (snd kr)
                                     else cell (snd kr) c))
                  (combine (seq 0 (List.length (rows df))) (rows df)))).

(** The transformer that pivots the raw actual table.  Its module,
    [transformers/pivot.py], is not part of the sources at hand: the
    comparator only uses its [columns] attribute, which may be absent, a
    string or a list, and its [pivot_table] method. *)
Inductive str_or_list : Type :=
| One (s : string)
| Many (l : list string).

Record DataTransformer : Type := mkTransformer {
  transformer_columns : option str_or_list;
  pivot_table : DataFrame -> DataFrame
}.

(* ===================================================================== *)
(** ** Result rows *)
(* ===================================================================== *)

Inductive Status : Type := IN_RANGE | BELOW_P10 | ABOVE_P90 | NO_FORECAST.

(** The dictionary returned by [_compare_metric]; [date] is [None] when
    the key is absent. *)
Record result_row : Type := mkResult {
  date : option pyval;
  metric : string;
  actual : Z;
  forecast : Z;
  q10 : Z;
  q90 : Z;
  status : Status;
  deviation_pct : pyfloat
}.

(* ===================================================================== *)
(** ** Helpers on lists *)
(* ===================================================================== *)

Definition list_eqb (a b : list string) : bool :=
  if list_eq_dec string_dec a b then true else false.

(** [sorted(l)] on strings. *)
Fixpoint insert_str (x : string) (l : list string) : list string :=
  match l with
  | [] => [x]
  | y :: l' => if String.leb x y then x :: l else y :: insert_str x l'
  end.

Definition sorted_str (l : list string) : list string :=
  fold_right insert_str [] l.

(** Descending sort of integers. *)
Fixpoint insert_desc (x : Z) (l : list Z) : list Z :=
  match l with
  | [] => [x]
  | y :: l' => if y <=? x then x :: l else y :: insert_desc x l'
  end.

Definition sort_desc (l : list Z) : list Z := fold_right insert_desc [] l.

Definition sumZ (l : list Z) : Z := fold_right Z.add 0 l.

(** Running sums, [Series.cumsum]. *)
Fixpoint cumsum_from (acc : Z) (l : list Z) : list Z :=
  match l with
  | [] => []
  | x :: l' => (acc + x) :: cumsum_from (acc + x) l'
  end.

Definition cumsum (l : list Z) : list Z := cumsum_from 0 l.

(** [min] of a non-empty list, with a default for the empty one. *)
Definition minZ (d : Z) (l : list Z) : Z :=
  match l with
  | [] => d
  | x :: l' => fold_right Z.min x l'
  end.

(** Position of the first [true], [mask.idxmax()] when [mask.any()]. *)
Fixpoint first_true (mask : list bool) : option nat :=
  match mask with
  | [] => None
  | true :: _ => Some 0%nat
  | false :: m => option_map S (first_true m)
  end.

(* ===================================================================== *)
(** ** The comparator: [ForecastActualComparator] *)
(* ===================================================================== *)

Local Open Scope py_scope.

Module ForecastActualComparator.

Record t : Type := mkComparator {
  transformer : DataTransformer;
  date_column : string;
  exclude_columns : list string;
  dimension_names : option (list string);
  cumulative_threshold : option pyfloat;
  return_only_anomalies : bool;
  min_deviation_threshold : pyfloat;
  format_deviation_as_string : bool
}.

Definition QUANTILE_POINT_IDX : nat := 0.
Definition QUANTILE_Q10_IDX : nat := 1.
Definition QUANTILE_Q90_IDX : nat := 9.
Definition EXPECTED_QUANTILE_COUNT : nat := 10.

(** The three positions read by the [try] block of [_compare_metric]. *)
Definition read_indices : list nat :=
  [QUANTILE_POINT_IDX; QUANTILE_Q10_IDX; QUANTILE_Q90_IDX].

(** [_validate_dimension_names]. *)
Definition validate_dimension_names (self : t) (names : list string)
  : result unit :=
  match transformer_columns (transformer self) with
  | None => Ok tt
  | Some tc =>
      let transformer_columns :=
        match tc with One s => [s] | Many l => l end in
      if negb (list_eqb names transformer_columns)
      then Raise (ValueError
             "dimension_names must match transformer.columns in the same order.")
      else Ok tt
  end.

(** [__init__]; [exclude_columns or [date_column]] replaces [None] and
    the empty list. *)
Definition init (transformer : DataTransformer) (date_column : string)
    (exclude_columns : option (list string))
    (dimension_names : option (list string))
    (cumulative_threshold : option pyfloat)
    (return_only_anomalies : bool)
    (min_deviation_threshold : pyfloat)
    (format_deviation_as_string : bool) : result t :=
  let self :=
    {| transformer := transformer;
       date_column := date_column;
       exclude_columns :=
         match exclude_columns with
         | None | Some [] => [date_column]
         | Some l => l
         end;
       dimension_names := dimension_names;
       cumulative_threshold := cumulative_threshold;
       return_only_anomalies := return_only_anomalies;
       min_deviation_threshold := min_deviation_threshold;
       format_deviation_as_string := format_deviation_as_string |} in
  match dimension_names with
  | Some names =>
      match validate_dimension_names self names with
      | Ok _ => Ok self
      | Raise e => Raise e
      end
  | None => Ok self
  end.

(** [_validate_inputs]; [None] is an argument that is not a DataFrame. *)
Definition validate_inputs (forecast_df actual_df : option DataFrame)
  : result (DataFrame * DataFrame) :=
  match forecast_df with
  | None => Raise (TypeError
              "Expected pandas DataFrame for forecast_df, got NoneType")
  | Some f =>
      match actual_df with
      | None => Raise (TypeError
                  "Expected pandas DataFrame for actual_df, got NoneType")
      | Some a =>
          if empty f then Raise (ValueError "Forecast DataFrame is empty")
          else if empty a then Raise (ValueError "Actual DataFrame is empty")
          else Ok (f, a)
      end
  end.

(** [fillna(fill_value)]: [None] and [nan] cells are missing. *)
Definition fillna (fill_value v : pyval) : pyval :=
  match v with
  | VNone | VFloat NaN => fill_value
  | _ => v
  end.

(** [replace('None', fill_value)]. *)
Definition replace_None (fill_value v : pyval) : pyval :=
  match v with
  | VStr s => if String.eqb s "None" then fill_value else v
  | _ => v
  end.

(** The cells that [_standardize_columns] replaces by the fill value. *)
Definition is_missing (v : pyval) : bool :=
  match v with
  | VNone | VFloat NaN => true
  | VStr s => String.eqb s "None"
  | _ => false
  end.

(** [_standardize_columns]. *)
Definition standardize_columns (df : DataFrame) (column_list : list string)
    (fill_value : pyval) : DataFrame :=
  let missing_columns :=
    filter (fun col => negb (in_list col (columns df))) column_list in
  mkDF (index_name df)
       (columns df ++ missing_columns)
       (map (fun r =>
               mkRow (label r)
                 (fun c =>
                    let v := if in_list c missing_columns
                             then fill_value else cell r c in
                    if in_list c column_list
                    then replace_None fill_value (fillna fill_value v)
                    else v))
            (rows df)).

Definition standardize_forecast_columns (df : DataFrame)
    (column_list : list string) : DataFrame :=
  standardize_columns df column_list (VStr "0|0|0|0|0|0|0|0|0|0").

Definition standardize_actual_columns (df : DataFrame)
    (column_list : list string) : DataFrame :=
  standardize_columns df column_list (VFloat fzero).

(** [set(df.columns) - set(exclude)], as a list. *)
Definition metric_columns (self : t) (df : DataFrame) : list string :=
  filter (fun c => negb (in_list c (exclude_columns self))) (columns df).

(** [_prepare_data]. *)
Definition prepare_data (self : t) (forecast_df actual_df : DataFrame)
  : result (DataFrame * DataFrame * list string) :=
  match reset_index (pivot_table (transformer self) actual_df) with
  | Raise e => Raise e
  | Ok actual_pivot =>
      let forecast_cols := metric_columns self forecast_df in
      let actual_cols := metric_columns self actual_pivot in
      let all_columns :=
        sorted_str (nodup string_dec (forecast_cols ++ actual_cols)) in
      Ok (standardize_forecast_columns forecast_df all_columns,
          standardize_actual_columns actual_pivot all_columns,
          all_columns)
  end.

(** [_filter_cumulative_threshold] on the rows of the result table;
    [value_column] reads the ranking column, an integer column such as
    ['forecast']. *)
Definition filter_cumulative_threshold (df : list result_row)
    (value_column : result_row -> Z) (threshold_pct : pyfloat)
  : list result_row :=
  match df with
  | [] => df
  | _ =>
      let total_value := sumZ (map value_column df) in
      if total_value =? 0 then df
      else
        let sorted_values := sort_desc (map value_column df) in
        let cumulative_sum := cumsum sorted_values in
        let cumulative_pct :=
          map (fun c => Fin (inject_Z c / inject_Z total_value))
              cumulative_sum in
        let threshold_mask :=
          map (fun p => fleb threshold_pct p) cumulative_pct in
        let min_threshold :=
          match first_true threshold_mask with
          | Some threshold_idx =>
              minZ 0 (firstn (S threshold_idx) sorted_values)
          | None => minZ 0 sorted_values
          end in
        filter (fun r => min_threshold <=? value_column r) df
  end.

(** [df['status'].isin(['BELOW_P10', 'ABOVE_P90'])] on one row. *)
Definition status_is_anomaly (s : Status) : bool :=
  match s with
  | BELOW_P10 | ABOVE_P90 => true
  | _ => false
  end.

Definition status_in_range (s : Status) : bool :=
  match s with
  | IN_RANGE => true
  | _ => false
  end.

(** [_filter_anomalies] on the rows of the result table. *)
Definition filter_anomalies (self : t) (df : list result_row)
  : list result_row :=
  match df with
  | [] => df
  | _ =>
      let df1 :=
        if return_only_anomalies self
        then filter (fun r => status_is_anomaly (status r)) df
        else df in
      if fltb fzero (min_deviation_threshold self)
      then filter (fun r => status_in_range (status r)
                            || fleb (min_deviation_threshold self)
                                    (deviation_pct r))
                  df1
      else df1
  end.

(** [_split_metric_to_dimensions] on the rows of the result table: the
    assignments [df[dim_name] = ...] of every row, in order.  The split
    with [expand=True] has as many columns as the longest metric has
    parts; a row with fewer parts has [None] in the others. *)
Definition split_metric_to_dimensions (self : t) (df : list result_row)
  : list (result_row * list (string * option string)) :=
  match dimension_names self with
  | None | Some [] => map (fun r => (r, [])) df
  | Some names =>
      let metric_parts := map (fun r => split "_" (metric r)) df in
      let shape1 :=
        fold_right Nat.max 0%nat (map (@List.length string) metric_parts) in
      map (fun r =>
             (r,
              map (fun idn : nat * string =>
                     (snd idn,
                      if (fst idn <? shape1)%nat
                      then nth_error (split "_" (metric r)) (fst idn)
                      else None))
                  (combine (seq 0 (List.length names)) names)))
          df
  end.

Section Builtins.

(** Two built-ins of Python are left open: the reading of a string by
    [float], given by the number [py_float s] that the string denotes,
    where [None] stands for [ValueError], and [str(x)] on a number. *)
Variable py_float : string -> option pyfloat.
Variable str_number : pyval -> string.

(** [float(s)] on a string: the float nearest to the number read. *)
Definition float_of_str (s : string) : option pyfloat :=
  option_map fround (py_float s).

(** [float(v)]. *)
Definition float_of (v : pyval) : result pyfloat :=
  match v with
  | VNone => Raise (TypeError
               "float() argument must be a string or a real number")
  | VInt z => Ok (Fin (binary64 (inject_Z z)))
  | VFloat f => Ok f
  | VStr s =>
      match float_of_str s with
      | Some f => Ok f
      | None => Raise (ValueError "could not convert string to float")
      end
  end.

(** [str(v)]. *)
Definition py_str (v : pyval) : string :=
  match v with
  | VStr s => s
  | VNone => "None"
  | _ => str_number v
  end.

(** [float(forecast_parts[idx]) if len(forecast_parts) > idx else 0.0]. *)
Definition quantile_at (forecast_parts : list string) (idx : nat)
  : option pyfloat :=
  if (idx <? List.length forecast_parts)%nat
  then float_of_str (nth idx forecast_parts ""%string)
  else Some fzero.

(** Lines 383-402 of [_compare_metric]: the split and the [try] block.
    A [ValueError] of any of the three conversions leaves the block
    before the warning and sets the three values to [0.0]. *)
Definition parse_quantiles (forecast_value : pyval)
  : py (pyfloat * pyfloat * pyfloat) :=
  let forecast_parts := split "|" (py_str forecast_value) in
  match quantile_at forecast_parts QUANTILE_POINT_IDX,
        quantile_at forecast_parts QUANTILE_Q10_IDX,
        quantile_at forecast_parts QUANTILE_Q90_IDX with
  | Some point_forecast, Some q10, Some q90 =>
      (if (List.length forecast_parts <? EXPECTED_QUANTILE_COUNT)%nat
       then warn (QuantileCountWarning EXPECTED_QUANTILE_COUNT
                                       (List.length forecast_parts))
       else ret tt) ;;
      ret (point_forecast, q10, q90)
  | _, _, _ => ret (fzero, fzero, fzero)
  end.

(** Lines 404-408: [float(actual_value)], or [0.0] on [ValueError] and
    [TypeError]. *)
Definition parse_actual (actual_value : pyval) : pyfloat :=
  match float_of actual_value with
  | Ok f => f
  | Raise _ => fzero
  end.

(** Lines 410-442: status and deviation. *)
Definition classify (point_forecast q10 q90 actual : pyfloat)
  : py (Status * pyfloat) :=
  if isna q10 || isna q90 || isna point_forecast then
    ret (NO_FORECAST, fzero)
  else if feqb q10 fzero && feqb q90 fzero && feqb point_forecast fzero
  then
    ret (NO_FORECAST, fzero)
  else if fleb q10 actual && fleb actual q90 then
    ret (IN_RANGE, fzero)
  else if fltb actual q10 then
    deviation_pct <-
      (if fneb q10 fzero then
         d <- lift (fdiv (fsub q10 actual) q10) ;;
         ret (fmul d (Fin 100))
       else if fneb actual fzero then ret (fmul (fabs actual) (Fin 100))
       else ret fzero) ;;
    ret (BELOW_P10, deviation_pct)
  else if fltb q90 actual then
    deviation_pct <-
      (if fneb q90 fzero then
         d <- lift (fdiv (fsub actual q90) q90) ;;
         ret (fmul d (Fin 100))
       else if fneb actual fzero then ret (fmul (fabs actual) (Fin 100))
       else ret fzero) ;;
    ret (ABOVE_P90, deviation_pct)
  else
    ret (NO_FORECAST, fzero).

(** Lines 454-456: the ['date'] entry is added when [date_value] is not
    [None]. *)
Definition date_entry (date_value : pyval) : option pyval :=
  match date_value with
  | VNone => None
  | v => Some v
  end.

(** [_compare_metric]. *)
Definition compare_metric (column : string) (forecast_value : pyval)
    (actual_value : pyval) (date_value : pyval) : py result_row :=
  triple <- parse_quantiles forecast_value ;;
  let '(point_forecast, q10, q90) := triple in
  let actual := parse_actual actual_value in
  sd <- classify point_forecast q10 q90 actual ;;
  let '(status, deviation_pct) := sd in
  r_actual <- lift (py_round actual) ;;
  r_forecast <- lift (py_round point_forecast) ;;
  r_q10 <- lift (py_round q10) ;;
  r_q90 <- lift (py_round q90) ;;
  ret {| date := date_entry date_value;
         metric := column;
         actual := r_actual;
         forecast := r_forecast;
         q10 := r_q10;
         q90 := r_q90;
         status := status;
         deviation_pct := py_round2 deviation_pct |}.

(** [forecast_std.loc[idx, self.date_column] if self.date_column in
    forecast_std.columns else None]. *)
Definition date_value_of (self : t) (forecast_std : DataFrame)
    (forecast_row : Row) : pyval :=
  if in_list (date_column self) (columns forecast_std)
  then cell forecast_row (date_column self) else VNone.

(** The body of the outer loop of [_compare_all_metrics] for one index
    label of the forecast table. *)
Definition compare_row (self : t) (forecast_std actual_std : DataFrame)
    (all_columns : list string) (idx : pyval) : py (list result_row) :=
  match loc forecast_std idx with
  | None => lift (Raise (KeyError "label not in index"))
  | Some forecast_row =>
      let date_value := date_value_of self forecast_std forecast_row in
      let actual_row :=
        if in_index idx actual_std then loc actual_std idx else None in
      match actual_row with
      | None => ret []
      | Some actual_row =>
          mapM (fun column =>
                  compare_metric column
                    (cell forecast_row column)
                    (cell actual_row column)
                    date_value)
               all_columns
      end
  end.

(** [_compare_all_metrics]. *)
Definition compare_all_metrics (self : t)
    (forecast_std actual_std : DataFrame) (all_columns : list string)
  : py (list result_row) :=
  per_row <- mapM (compare_row self forecast_std actual_std all_columns)
                  (index forecast_std) ;;
  ret (List.concat per_row).

(** Steps 1 to 3 of [detect]: the list [results] the result table is
    built from.  With the constructor's defaults
    [_post_process_results] changes nothing, and [detect] returns
    [pd.DataFrame(results)], or the empty table when [results] is
    empty. *)
Definition detect_results (self : t)
    (forecast_df actual_df : option DataFrame) : py (list result_row) :=
  fa <- lift (validate_inputs forecast_df actual_df) ;;
  prepared <- lift (prepare_data self (fst fa) (snd fa)) ;;
  let '(forecast_std, actual_std, all_columns) := prepared in
  compare_all_metrics self forecast_std actual_std all_columns.

End Builtins.

End ForecastActualComparator.


(* ===================================================================== *)
(** ** The pre-filter: [CumulativeThresholdFilter] *)
(* ===================================================================== *)

(** [Series.sum()]: missing values are skipped.  The values are added one
    after the other; numpy adds a long series in blocks, in another order,
    which can change the last bits of the sum. *)
Definition series_sum (l : list pyfloat) : pyfloat :=
  fold_left fadd (filter (fun x => negb (isna x)) l) fzero.

(** [Series.cumsum()]: a missing value stays missing and is skipped. *)
Fixpoint series_cumsum_from (acc : pyfloat) (l : list pyfloat)
  : list pyfloat :=
  match l with
  | [] => []
  | x :: l' =>
      if isna x then NaN :: series_cumsum_from acc l'
      else fadd acc x :: series_cumsum_from (fadd acc x) l'
  end.

Definition series_cumsum (l : list pyfloat) : list pyfloat :=
  series_cumsum_from fzero l.

(** Element-wise division of numpy: no exception on a zero divisor. *)
Definition np_div (x y : pyfloat) : pyfloat :=
  match fdiv x y with
  | Ok v => v
  | Raise _ => inf_of_sign (fsgn x)
  end.

(** [Series.sort_values(ascending=False)] on a series labelled by strings:
    descending, missing values last.  Equal values are kept in their
    original order, which is what a stable sort gives; pandas promises no
    order among them, and its default sort may give another one.  What is
    proved of the metrics kept is therefore stated for every order of the
    series, see [metrics_under_threshold]. *)
Definition goes_before (x y : pyfloat) : bool :=
  if isna x then isna y else isna y || fleb y x.

Fixpoint insert_series (x : string * pyfloat) (l : list (string * pyfloat))
  : list (string * pyfloat) :=
  match l with
  | [] => [x]
  | y :: l' =>
      if goes_before (snd x) (snd y) then x :: l
      else y :: insert_series x l'
  end.

Definition sort_values_desc (l : list (string * pyfloat))
  : list (string * pyfloat) :=
  fold_right insert_series [] l.

(** All the values of a list of options, or [None] if one is missing. *)
Fixpoint all_some {A : Type} (l : list (option A)) : option (list A) :=
  match l with
  | [] => Some []
  | None :: _ => None
  | Some x :: l' => option_map (cons x) (all_some l')
  end.

(** Equality of two rows on the given columns, as [drop_duplicates] sees
    it: two missing values are the same value. *)
Definition same_cell (a b : pyval) : bool :=
  match a, b with
  | VFloat NaN, VFloat NaN => true
  | _, _ => pyval_eqb a b
  end.

Definition same_row (cols : list string) (r1 r2 : Row) : bool :=
  forallb (fun c => same_cell (cell r1 c) (cell r2 c)) cols.

(** [drop_duplicates()]: the first of equal rows is kept. *)
Fixpoint drop_duplicates_from (cols : list string) (seen rest : list Row)
  : list Row :=
  match rest with
  | [] => []
  | r :: rest' =>
      if existsb (same_row cols r) seen
      then drop_duplicates_from cols seen rest'
      else r :: drop_duplicates_from cols (seen ++ [r]) rest'
  end.

(** [pd.concat(frames, ignore_index=True)] on lists of rows. *)
Definition relabel (l : list Row) : list Row :=
  map (fun kr : nat * Row => mkRow (VInt (Z.of_nat (fst kr))) (cell (snd kr)))
      (combine (seq 0 (List.length l)) l).

Module CumulativeThresholdFilter.

Record t : Type := mkFilter {
  transformer : DataTransformer;
  threshold_pct : pyfloat;
  exclude_columns : list string
}.

(** [__init__]. *)
Definition init (transformer : DataTransformer) (threshold_pct : pyfloat)
    (exclude_columns : option (list string)) : result t :=
  if negb (fltb fzero threshold_pct && fleb threshold_pct (Fin 1))
  then Raise (ValueError "threshold_pct must be between 0 and 1")
  else Ok {| transformer := transformer;
             threshold_pct := threshold_pct;
             exclude_columns :=
               match exclude_columns with
               | None | Some [] => ["date"%string]
               | Some l => l
               end |}.

(** Lines 79-93 of [filter], given the sorted series and its sum: the
    metrics to keep; [None] stands for the early return on a zero
    total. *)
Definition metrics_under_threshold (self : t)
    (value_series : list (string * pyfloat)) (total_value : pyfloat)
  : option (list string) :=
  let cumulative_sum := series_cumsum (map snd value_series) in
  if feqb total_value fzero then None
  else
    let cumulative_pct := map (fun c => np_div c total_value) cumulative_sum in
    let threshold_mask :=
      map (fun p => fleb p (threshold_pct self)) cumulative_pct in
    let kept :=
      map (fun nm : string * bool => fst nm)
          (filter (fun nm : string * bool => snd nm)
                  (combine (map fst value_series) threshold_mask)) in
    match kept, value_series with
    | [], first :: _ => Some [fst first]
    | _, _ => Some kept
    end.

(** Lines 76-93 of [filter]: from the per-metric values to the metrics to
    keep. *)
Definition metrics_to_keep (self : t)
    (forecast_values : list (string * pyfloat)) : option (list string) :=
  let value_series := sort_values_desc forecast_values in
  metrics_under_threshold self value_series
    (series_sum (map snd value_series)).

(** [_filter_actual_by_metrics]. *)
Definition filter_actual_by_metrics (self : t) (tc : str_or_list)
    (actual_df : DataFrame) (metrics : list string) : DataFrame :=
  if empty actual_df then actual_df
  else
    let transformer_columns := match tc with One s => [s] | Many l => l end in
    let filtered_rows :=
      flat_map
        (fun metric =>
           let parts := split "_" metric in
           if (List.length parts =? List.length transformer_columns)%nat
           then
             [filter
                (fun r =>
                   forallb
                     (fun cp : string * string =>
                        if in_list (fst cp) (columns actual_df)
                        then pyval_eqb (cell r (fst cp)) (VStr (snd cp))
                        else true)
                     (combine transformer_columns parts))
                (rows actual_df)]
           else [])
        metrics in
    match filtered_rows with
    | [] => mkDF None (columns actual_df) []
    | _ => mkDF None
             (columns actual_df)
             (drop_duplicates_from (columns actual_df) []
                (relabel (List.concat filtered_rows)))
    end.

Section Builtins.

Variable py_float : string -> option pyfloat.
Variable str_number : pyval -> string.

(** [lambda x: float(str(x).split('|')[0])]; [None] is [ValueError]. *)
Definition point_forecast_of (x : pyval) : option pyfloat :=
  ForecastActualComparator.float_of_str py_float
    (hd ""%string
        (split "|" (ForecastActualComparator.py_str str_number x))).

(** Lines 62-70 of [filter]: the summed point forecast of every column
    that is not excluded, [0.0] for a column with a cell that does not
    convert. *)
Definition forecast_values (self : t) (forecast_df : DataFrame)
  : list (string * pyfloat) :=
  map (fun col =>
         (col,
          match all_some (map (fun r => point_forecast_of (cell r col))
                              (rows forecast_df)) with
          | Some values => series_sum values
          | None => fzero
          end))
      (filter (fun col => negb (in_list col (exclude_columns self)))
              (columns forecast_df)).

(** [filter]. *)
Definition filter (self : t) (forecast_df actual_df : DataFrame)
  : DataFrame * DataFrame :=
  if empty forecast_df || empty actual_df then (forecast_df, actual_df)
  else
    match forecast_values self forecast_df with
    | [] => (forecast_df, actual_df)
    | values =>
        match metrics_to_keep self values with
        | None => (forecast_df, actual_df)
        | Some metrics =>
            let columns_to_keep := exclude_columns self ++ metrics in
            let filtered_forecast :=
              mkDF (index_name forecast_df)
                   (List.filter
                      (fun col => in_list col (columns forecast_df))
                      columns_to_keep)
                   (rows forecast_df) in
            let filtered_actual :=
              match transformer_columns (transformer self) with
              | Some tc => filter_actual_by_metrics self tc actual_df metrics
              | None => actual_df
              end in
            (filtered_forecast, filtered_actual)
        end
    end.

End Builtins.

End CumulativeThresholdFilter.

(* ===================================================================== *)
(** ** The post-filter: [AnomalyFilter] *)
(* ===================================================================== *)

(** [Series.isin(values)] on one cell. *)
Definition isin (v : pyval) (values : list string) : bool :=
  match v with
  | VStr s => in_list s values
  | _ => false
  end.

(** The test of [process] on one row: its status is one of the two
    anomalous ones. *)
Definition is_anomaly (r : Row) : bool :=
  isin (cell r "status") ["BELOW_P10"; "ABOVE_P90"]%string.

Module AnomalyFilter.

Record t : Type := mkAnomalyFilter {
  exclude_no_forecast : bool
}.

(** [__init__]. *)
Definition init (exclude_no_forecast : bool) : t :=
  {| exclude_no_forecast := exclude_no_forecast |}.

(** [process]. *)
Definition process (self : t) (results_df : DataFrame) : DataFrame :=
  if empty results_df || negb (in_list "status" (columns results_df))
  then results_df
  else mkDF (index_name results_df)
            (columns results_df)
            (filter is_anomaly (rows results_df)).

End AnomalyFilter.

(* ===================================================================== *)
(** ** The post-filter: [DeviationFilter] *)
(* ===================================================================== *)

(** The rows of a list for which a test that may raise answers [True];
    the exception of a row, if any, is the outcome. *)
Fixpoint select_rows (test : Row -> result bool) (l : list Row)
  : result (list Row) :=
  match l with
  | [] => Ok []
  | r :: l' =>
      match test r with
      | Raise e => Raise e
      | Ok b =>
          match select_rows test l' with
          | Raise e => Raise e
          | Ok kept => Ok (if b then r :: kept else kept)
          end
      end
  end.

Module DeviationFilter.

Record t : Type := mkDeviationFilter {
  min_deviation_pct : pyfloat;
  keep_in_range : bool
}.

(** [__init__]. *)
Definition init (min_deviation_pct : pyfloat) (keep_in_range : bool)
  : result t :=
  if fltb min_deviation_pct fzero
  then Raise (ValueError "min_deviation_pct must be non-negative")
  else Ok {| min_deviation_pct := min_deviation_pct;
             keep_in_range := keep_in_range |}.

(** [cell >= self.min_deviation_pct] on one cell of the column: a missing
    value compares false, a string cannot be compared with a number. *)
Definition at_least (self : t) (v : pyval) : result bool :=
  match v with
  | VNone => Ok false
  | VInt z => Ok (fleb (min_deviation_pct self) (Fin (inject_Z z)))
  | VFloat f => Ok (fleb (min_deviation_pct self) f)
  | VStr _ => Raise (TypeError
                "'>=' not supported between instances of 'str' and 'float'")
  end.

(** The mask of [process] on one row. *)
Definition keeps (self : t) (with_status : bool) (r : Row) : result bool :=
  match at_least self (cell r "deviation_pct") with
  | Raise e => Raise e
  | Ok above =>
      Ok (if keep_in_range self && with_status
          then pyval_eqb (cell r "status") (VStr "IN_RANGE") || above
          else above)
  end.

(** [process]. *)
Definition process (self : t) (results_df : DataFrame) : result DataFrame :=
  if empty results_df || negb (in_list "deviation_pct" (columns results_df))
  then Ok results_df
  else
    match select_rows (keeps self (in_list "status" (columns results_df)))
                      (rows results_df) with
    | Raise e => Raise e
    | Ok kept => Ok (mkDF (index_name results_df) (columns results_df) kept)
    end.

End DeviationFilter.

(* ===================================================================== *)
(** ** The orchestrator: [AnomalyDetectionWorkflow] *)
(* ===================================================================== *)

Definition raise {A : Type} (e : exn) : py A := (Raise e, []).

Module AnomalyDetectionWorkflow.

(** The collaborators are given by what their single operation does: a
    reader by the outcome of [load()], where [None] is Python's [None]; a
    detector by [detect]; a writer by [write]; a pre-filter by [filter]
    and a post-filter by [process]. *)
Record t : Type := mkWorkflow {
  forecast_reader : py (option DataFrame);
  actual_reader : py (option DataFrame);
  anomaly_detector : DataFrame -> DataFrame -> py (option DataFrame);
  data_writer : DataFrame -> py unit;
  pre_filters : list (DataFrame -> DataFrame -> py (DataFrame * DataFrame));
  post_filters : list (DataFrame -> py DataFrame)
}.

(** [for pre_filter in self.pre_filters: ...]. *)
Fixpoint apply_pre_filters
    (fs : list (DataFrame -> DataFrame -> py (DataFrame * DataFrame)))
    (forecast_df actual_df : DataFrame) : py (DataFrame * DataFrame) :=
  match fs with
  | [] => ret (forecast_df, actual_df)
  | pre_filter :: fs' =>
      fa <- pre_filter forecast_df actual_df ;;
      apply_pre_filters fs' (fst fa) (snd fa)
  end.

(** [for post_filter in self.post_filters: ...]. *)
Fixpoint apply_post_filters (fs : list (DataFrame -> py DataFrame))
    (anomaly_df : DataFrame) : py DataFrame :=
  match fs with
  | [] => ret anomaly_df
  | post_filter :: fs' =>
      df <- post_filter anomaly_df ;;
      apply_post_filters fs' df
  end.

(** [df is None or df.empty]. *)
Definition none_or_empty (df : option DataFrame) : bool :=
  match df with
  | None => true
  | Some d => empty d
  end.

(** [_execute_detection]. *)
Definition execute_detection (self : t) : py DataFrame :=
  forecast_df <- forecast_reader self ;;
  match forecast_df with
  | Some forecast_df' =>
      if empty forecast_df' then
        raise (ValueError
          "Forecast reader returned empty dataset. Cannot proceed with anomaly detection.")
      else
        actual_df <- actual_reader self ;;
        match actual_df with
        | Some actual_df' =>
            if empty actual_df' then
              raise (ValueError
                "Actual reader returned empty dataset. Cannot proceed with anomaly detection.")
            else
              fa <- apply_pre_filters (pre_filters self)
                                      forecast_df' actual_df' ;;
              anomaly_df <- anomaly_detector self (fst fa) (snd fa) ;;
              match anomaly_df with
              | Some anomaly_df' =>
                  if empty anomaly_df' then
                    raise (ValueError
                      "Anomaly detector returned empty results. Check your data and configuration.")
                  else apply_post_filters (post_filters self) anomaly_df'
              | None =>
                  raise (ValueError
                    "Anomaly detector returned empty results. Check your data and configuration.")
              end
        | None =>
            raise (ValueError
              "Actual reader returned empty dataset. Cannot proceed with anomaly detection.")
        end
  | None =>
      raise (ValueError
        "Forecast reader returned empty dataset. Cannot proceed with anomaly detection.")
  end.

(** [run]. *)
Definition run (self : t) : py DataFrame :=
  anomaly_df <- execute_detection self ;;
  data_writer self anomaly_df ;;
  ret anomaly_df.

(** [run_without_output]. *)
Definition run_without_output (self : t) : py DataFrame :=
  execute_detection self.

End AnomalyDetectionWorkflow.

(* ===================================================================== *)
(** ** The orchestrator: [NotificationWorkflow] *)
(* ===================================================================== *)

Module NotificationWorkflow.

(** A notifier: the name of its class and what [notify] does with the
    anomalies of the payload, [Some msg] when it raises an exception [e]
    with [str(e) = msg]. *)
Record Notifier : Type := mkNotifier {
  class_name : string;
  notify : DataFrame -> option string
}.

Record t : Type := mkNotification {
  anomalies_data : DataFrame;
  notifiers : list Notifier
}.

(** The exception raised by [run]. *)
Inductive run_error : Type :=
| RuntimeError (msg : string).

(** [__init__]; [None] is an argument of another type: not a DataFrame,
    not a list, not a Notifier. *)
Definition init (anomalies_data : option DataFrame)
    (notifiers : option (list (option Notifier))) : result t :=
  match anomalies_data with
  | None => Raise (TypeError "anomalies_data must be a DataFrame")
  | Some data =>
      if empty data then Raise (ValueError "anomalies_data cannot be empty")
      else
        match notifiers with
        | None => Raise (TypeError "notifiers must be a list")
        | Some [] => Raise (ValueError "notifiers list cannot be empty")
        | Some items =>
            match all_some items with
            | None => Raise (TypeError "notifiers[i] must be a Notifier instance")
            | Some ns => Ok {| anomalies_data := data; notifiers := ns |}
            end
        end
  end.

(** The loop of [run]: the outcome and the class names of the notifiers
    whose [notify] was called, in order. *)
Fixpoint notify_all (payload : DataFrame) (ns : list Notifier)
  : option run_error * list string :=
  match ns with
  | [] => (None, [])
  | notifier :: ns' =>
      match notify notifier payload with
      | Some msg =>
          (Some (RuntimeError
                   ("Failed to send notification via "
                    ++ class_name notifier ++ ": " ++ msg)),
           [class_name notifier])
      | None =>
          let '(outcome, called) := notify_all payload ns' in
          (outcome, class_name notifier :: called)
      end
  end.

(** [run]. *)
Definition run (self : t) : option run_error * list string :=
  notify_all (anomalies_data self) (notifiers self).

End NotificationWorkflow.

(** The two inputs of the detection and what it means for the message
    of an exception to name one of them. *)
Inductive stage : Type := ForecastStage | ActualStage.

Definition exn_message (e : exn) : string :=
  match e with
  | ValueError m | TypeError m | OverflowError m | ZeroDivisionError m
  | KeyError m | FileNotFoundError m | PermissionError m => m
  end.

Definition names_stage (st : stage) (e : exn) : bool :=
  match st with
  | ForecastStage =>
      contains "Forecast" (exn_message e) || contains "forecast" (exn_message e)
  | ActualStage =>
      contains "Actual" (exn_message e) || contains "actual" (exn_message e)
  end.

Definition other_stage (st : stage) : stage :=
  match st with
  | ForecastStage => ActualStage
  | ActualStage => ForecastStage
  end.

(* ===================================================================== *)
(** ** The sink: the constructor of [BigQueryDataWriter] *)
(* ===================================================================== *)

(** [s.endswith(suffix)]. *)
Definition endswith (s suffix : string) : bool :=
  let n := String.length s in
  let k := String.length suffix in
  (k <=? n)%nat && String.eqb (String.substring (n - k) k s) suffix.

(** Python's ASCII white space. *)
Definition is_space (c : ascii) : bool :=
  let n := nat_of_ascii c in
  ((9 <=? n) && (n <=? 13))%nat || (n =? 32)%nat
  || ((28 <=? n) && (n <=? 31))%nat.

(** [not s.strip()]. *)
Fixpoint is_blank (s : string) : bool :=
  match s with
  | EmptyString => true
  | String c rest => is_space c && is_blank rest
  end.

Module BigQueryDataWriter.


Definition VALID_CREATE_DISPOSITIONS : list string :=
  ["CREATE_IF_NEEDED"; "CREATE_NEVER"]%string.
Definition VALID_WRITE_DISPOSITIONS : list string :=
  ["WRITE_TRUNCATE"; "WRITE_APPEND"; "WRITE_EMPTY"]%string.

Record t : Type := mkWriter {
  service_account_file : option string;
  project : option string;
  dataset : string;
  table : string;
  create_disposition : string;
  write_disposition : string
}.



Section FileSystem.

(** [os.path.abspath], [os.path.isfile] and [os.access(_, os.R_OK)]. *)
Variable abspath : string -> string.
Variable isfile : string -> bool.
Variable readable : string -> bool.

(** [__init__]. *)
Definition init (service_account_file project dataset table : option string)
    (create_disposition write_disposition : string) : result t :=
  match dataset with
  | None => Raise (ValueError "dataset parameter is required")
  | Some dataset' =>
  match table with
  | None => Raise (ValueError "table parameter is required")
  | Some table' =>
  if negb (in_list create_disposition VALID_CREATE_DISPOSITIONS)
  then Raise (ValueError "Invalid create_disposition")
  else if negb (in_list write_disposition VALID_WRITE_DISPOSITIONS)
  then Raise (ValueError "Invalid write_disposition")
  else
    let finish (file : option string) : result t :=
      Ok {| service_account_file := file;
            project := project;
            dataset := dataset';
            table := table';
            create_disposition := create_disposition;
            write_disposition := write_disposition |} in
    match service_account_file with
    | None | Some EmptyString => finish service_account_file
    | Some file =>
        if is_blank file
        then Raise (ValueError "service_account_file cannot be empty")
        else
          let abs_path := abspath file in
          if negb (isfile abs_path)
          then Raise (FileNotFoundError "Service account file not found")
          else if negb (readable abs_path)
          then Raise (PermissionError "Service account file is not readable")
          else if negb (endswith abs_path ".json")
          then Raise (ValueError
                 "Service account file must be a JSON file (.json extension)")
          else finish (Some abs_path)
    end
  end
  end.

End FileSystem.

End BigQueryDataWriter.

(* ===================================================================== *)
(** ** A pivot and tables for the examples *)
(* ===================================================================== *)

(** Lower case of an ASCII letter. *)
Definition lower (c : ascii) : ascii :=
  let n := nat_of_ascii c in
  if ((65 <=? n) && (n <=? 90))%nat then ascii_of_nat (n + 32) else c.

Definition is_alnum (c : ascii) : bool :=
  let n := nat_of_ascii c in
  ((48 <=? n) && (n <=? 57))%nat || ((65 <=? n) && (n <=? 90))%nat
  || ((97 <=? n) && (n <=? 122))%nat.

(** Modelled from the spec: the sanitization of a dimension value by the
    pivot of [transformers/pivot.py], a module that is not among the
    sources.  It lower-cases the value and strips what is not
    alphanumeric. *)
Fixpoint sanitize (s : string) : string :=
  match s with
  | EmptyString => EmptyString
  | String c rest =>
      if is_alnum c then String (lower c) (sanitize rest) else sanitize rest
  end.

(** The first occurrence of every value of a list. *)
Fixpoint distinct_from (seen rest : list pyval) : list pyval :=
  match rest with
  | [] => []
  | v :: rest' =>
      if existsb (pyval_eqb v) seen then distinct_from seen rest'
      else v :: distinct_from (seen ++ [v]) rest'
  end.

(** Modelled from the spec: the pivot of [transformers/pivot.py], a module
    that is not among the sources.  It groups the long table by the time
    key and produces one column per combination of the dimension columns,
    named by the sanitized dimension values joined with an underscore.
    The spec fixes neither the order of the groups nor the aggregate of
    the values of one group: the order of first occurrence and the sum are
    taken here, and a combination that a group lacks is a missing value.
    Only the examples use this definition; the general statements hold for
    every pivot. *)
Definition spec_pivot (time_key : string) (dimension_columns : list string)
    (value_column : string) (long_table : DataFrame) : DataFrame :=
  let key_of (r : Row) : string :=
    String.concat "_"
      (map (fun d => match cell r d with
                     | VStr s => sanitize s
                     | _ => EmptyString
                     end)
           dimension_columns) in
  let number_of (v : pyval) : pyfloat :=
    match v with
    | VInt z => Fin (inject_Z z)
    | VFloat f => f
    | _ => NaN
    end in
  let metrics := nodup string_dec (map key_of (rows long_table)) in
  let times :=
    distinct_from [] (map (fun r => cell r time_key) (rows long_table)) in
  mkDF (Some time_key) metrics
    (map (fun time =>
            mkRow time
              (fun c =>
                 match filter (fun r => pyval_eqb (cell r time_key) time
                                        && String.eqb (key_of r) c)
                              (rows long_table) with
                 | [] => VFloat NaN
                 | group =>
                     VFloat (series_sum
                               (map (fun r => number_of (cell r value_column))
                                    group))
                 end))
         times).

(** A table given by its column names and its rows of cells, labelled
    [0 .. n-1]. *)
Fixpoint lookup (cols : list string) (vals : list pyval) (c : string)
  : pyval :=
  match cols, vals with
  | col :: cols', v :: vals' =>
      if String.eqb c col then v else lookup cols' vals' c
  | _, _ => VNone
  end.

Definition table_of (cols : list string) (data : list (list pyval))
  : DataFrame :=
  mkDF None cols
    (map (fun kv : nat * list pyval =>
            mkRow (VInt (Z.of_nat (fst kv))) (lookup cols (snd kv)))
         (combine (seq 0 (List.length data)) data)).

(** The transformer of the examples: one dimension, [platform]. *)
Definition example_transformer : DataTransformer :=
  mkTransformer (Some (One "platform"%string))
                (spec_pivot "date" ["platform"%string] "sessions").

Definition example_comparator : ForecastActualComparator.t :=
  ForecastActualComparator.mkComparator
    example_transformer "date" ["date"%string] None None false fzero false.

(** The forecast cell of the scenarios of the specification. *)
Definition scenario_cell : string :=
  "1000|900|920|950|975|1000|1025|1050|1080|1100".

(** Two forecast days for one metric, and the observation of the second
    day only. *)
Definition two_day_forecast : DataFrame :=
  table_of ["date"; "a"]%string
    [[VStr "2024-01-01"; VStr scenario_cell];
     [VStr "2024-01-02"; VStr scenario_cell]].

Definition second_day_actual : DataFrame :=
  table_of ["date"; "platform"; "sessions"]%string
    [[VStr "2024-01-02"; VStr "a"; VInt 600]].

(** Forecast volumes [a:5000, b:3000, c:100, d:50] on one day. *)
Definition volume_forecast : DataFrame :=
  table_of ["date"; "a"; "b"; "c"; "d"]%string
    [[VStr "2024-01-01";
      VStr "5000|4500|4600|4750|4875|5000|5125|5250|5400|5500";
      VStr "3000|2700|2775|2850|2925|3000|3075|3150|3240|3300";
      VStr "100|90|92|95|97|100|102|105|108|110";
      VStr "50|45|46|48|49|50|51|52|54|55"]].

Definition volume_actual : DataFrame :=
  table_of ["date"; "platform"; "sessions"]%string
    [[VStr "2024-01-01"; VStr "a"; VInt 4800];
     [VStr "2024-01-01"; VStr "b"; VInt 3500];
     [VStr "2024-01-01"; VStr "c"; VInt 105];
     [VStr "2024-01-01"; VStr "d"; VInt 52]].

(** The cells converted by [str] in the examples are strings: what [str]
    gives on a number is never consulted there. *)
Definition no_str (_ : pyval) : string := EmptyString.

(** The two tables of the first example after [_prepare_data]. *)
Definition two_day_forecast_std : DataFrame :=
  ForecastActualComparator.standardize_forecast_columns
    two_day_forecast ["a"%string].

Definition second_day_actual_pivot : DataFrame :=
  match reset_index (pivot_table example_transformer second_day_actual) with
  | Ok df => df
  | Raise _ => empty_frame
  end.

Definition second_day_actual_std : DataFrame :=
  ForecastActualComparator.standardize_actual_columns
    second_day_actual_pivot ["a"%string].

(** A result table with the four statuses. *)
Definition four_status_results : DataFrame :=
  table_of ["metric"; "status"]%string
    [[VStr "a"; VStr "IN_RANGE"];
     [VStr "b"; VStr "ABOVE_P90"];
     [VStr "c"; VStr "NO_FORECAST"];
     [VStr "d"; VStr "BELOW_P10"]].

(* ===================================================================== *)
(** ** The result table: [pd.DataFrame(results)] *)
(* ===================================================================== *)

(** The string of a status, as [_compare_metric] writes it. *)
Definition status_name (s : Status) : string :=
  match s with
  | IN_RANGE => "IN_RANGE"
  | BELOW_P10 => "BELOW_P10"
  | ABOVE_P90 => "ABOVE_P90"
  | NO_FORECAST => "NO_FORECAST"
  end.

(** The keys every dictionary of [results] has, in their order. *)
Definition RESULT_KEYS : list string :=
  ["metric"; "actual"; "forecast"; "q10"; "q90"; "status";
   "deviation_pct"]%string.

Definition has_date (r : result_row) : bool :=
  match date r with
  | Some _ => true
  | None => false
  end.

(** The columns of the table built from a list of dictionaries: their
    keys in the order of first appearance. *)
Definition result_columns (results : list result_row) : list string :=
  match results with
  | [] => []
  | r :: rest =>
      if has_date r then "date"%string :: RESULT_KEYS
      else if existsb has_date rest then RESULT_KEYS ++ ["date"%string]
      else RESULT_KEYS
  end.

(** The cells of the row built from one dictionary; a key the dictionary
    lacks is a missing value. *)
Definition result_cells (r : result_row) (c : string) : pyval :=
  if String.eqb c "date" then
    match date r with
    | Some d => d
    | None => VFloat NaN
    end
  else if String.eqb c "metric" then VStr (metric r)
  else if String.eqb c "actual" then VInt (actual r)
  else if String.eqb c "forecast" then VInt (forecast r)
  else if String.eqb c "q10" then VInt (q10 r)
  else if String.eqb c "q90" then VInt (q90 r)
  else if String.eqb c "status" then VStr (status_name (status r))
  else if String.eqb c "deviation_pct" then VFloat (deviation_pct r)
  else VNone.

(** [pd.DataFrame(results)]: one row per dictionary, labelled
    [0 .. n-1]. *)
Definition result_frame (results : list result_row) : DataFrame :=
  mkDF None (result_columns results)
    (map (fun kr : nat * result_row =>
            mkRow (VInt (Z.of_nat (fst kr))) (result_cells (snd kr)))
         (combine (seq 0 (List.length results)) results)).

(** ** Rows and tables for the examples of the further properties *)

(** Result rows of single comparisons: the scenario cell against 950 and
    against 600, and a forecast of zeros against 7. *)
Definition in_range_row : result_row :=
  mkResult None "m" 950 1000 900 1100 IN_RANGE (Fin 0).


Definition no_forecast_row : result_row :=
  mkResult None "n" 7 0 0 0 NO_FORECAST (Fin 0).

(** The result rows of the volumes [a:5000, b:3000, c:100, d:50]. *)
Definition volume_rows : list result_row :=
  [mkResult None "a" 4800 5000 4500 5500 IN_RANGE (Fin 0);
   mkResult None "b" 3500 3000 2700 3300 ABOVE_P90
     (fround (Fin (606 # 100)));
   mkResult None "c" 105 100 90 110 IN_RANGE (Fin 0);
   mkResult None "d" 52 50 45 55 IN_RANGE (Fin 0)].

(** A comparator with a minimum deviation of 5, and one with two
    dimension names on a transformer that exposes no columns. *)
Definition strict_comparator : ForecastActualComparator.t :=
  ForecastActualComparator.mkComparator
    example_transformer "date" ["date"%string] None None false (Fin 5) false.

Definition dimension_comparator : ForecastActualComparator.t :=
  ForecastActualComparator.mkComparator
    (mkTransformer None (pivot_table example_transformer))
    "date" ["date"%string] (Some ["platform"; "channel"]%string)
    None false fzero false.

(** A result table with the four statuses and their deviations. *)
Definition deviation_results : DataFrame :=
  table_of ["metric"; "status"; "deviation_pct"]%string
    [[VStr "a"; VStr "IN_RANGE"; VFloat (Fin 0)];
     [VStr "b"; VStr "ABOVE_P90"; VFloat (Fin 12)];
     [VStr "c"; VStr "NO_FORECAST"; VFloat (Fin 0)];
     [VStr "d"; VStr "BELOW_P10"; VFloat (Fin 3)]].

Definition five_percent_filter : DeviationFilter.t :=
  DeviationFilter.mkDeviationFilter (Fin 5) true.

Definition deviation_results_filtered : DataFrame :=
  match DeviationFilter.process five_percent_filter deviation_results with
  | Ok df => df
  | Raise _ => empty_frame
  end.

(** The pre-filter of the examples. *)
Definition example_pre_filter : CumulativeThresholdFilter.t :=
  CumulativeThresholdFilter.mkFilter
    example_transformer (Fin (95 # 100)) ["date"%string].

(** A writer with a key file, on a file system where every path is an
    absolute path of a readable file. *)
Definition example_writer : BigQueryDataWriter.t :=
  BigQueryDataWriter.mkWriter
    (Some "/keys/account.json"%string) None "analytics" "anomalies"
    "CREATE_IF_NEEDED" "WRITE_APPEND".

Definition volume_values : list (string * pyfloat) :=
  [("a", Fin 5000); ("b", Fin 3000); ("c", Fin 100); ("d", Fin 50)]%string.

(** A series sorted by value in which the two metrics of equal value come
    in the reverse of their alphabetic order, as a sort that is not stable
    can leave them, and a pre-filter with the threshold 0.5. *)
Definition tied_series : list (string * pyfloat) :=
  [("d", Fin 5); ("c", Fin 5); ("b", Fin 2); ("a", Fin 1)]%string.

Definition half_pre_filter : CumulativeThresholdFilter.t :=
  CumulativeThresholdFilter.mkFilter
    example_transformer (Fin (1 # 2)) ["date"%string].

(** A workflow whose detector returns the table of the four statuses and
    whose only post-filter is the status filter. *)
Definition example_workflow : AnomalyDetectionWorkflow.t :=
  AnomalyDetectionWorkflow.mkWorkflow
    (ret (Some two_day_forecast)) (ret (Some second_day_actual))
    (fun _ _ => ret (Some four_status_results))
    (fun _ => ret tt)
    []
    [fun df => ret (AnomalyFilter.process (AnomalyFilter.init true) df)].

(* ===================================================================== *)
(** * Properties *)
(* ===================================================================== *)

Import ForecastActualComparator.

(** ** Comparisons of rationals *)

Lemma Qle_bool_false (x y : Q) : Qle_bool x y = false -> (y < x)%Q.
Proof.
  intro H. apply Qnot_le_lt. intro Hle.
  apply Qle_bool_iff in Hle. congruence.
Qed.

Lemma Qeq_bool_neq_false (x y : Q) : ~ (x == y)%Q -> Qeq_bool x y = false.
Proof.
  intro H. destruct (Qeq_bool x y) eqn:E; [ | reflexivity ].
  apply Qeq_bool_iff in E. contradiction.
Qed.

(** ** The monad *)

Lemma fst_bind_ok {A B : Type} (c : py A) (k : A -> py B) (a : A) :
  fst c = Ok a -> fst (bind c k) = fst (k a).
Proof.
  destruct c as [r w]; simpl; intros ->. destruct (k a); reflexivity.
Qed.

Lemma fst_bind_inv {A B : Type} (c : py A) (k : A -> py B) (b : B) :
  fst (bind c k) = Ok b -> exists a, fst c = Ok a /\ fst (k a) = Ok b.
Proof.
  destruct c as [[a | e] w]; simpl; [ | discriminate ].
  destruct (k a) as [r w'] eqn:E; simpl. intros ->.
  exists a. rewrite E. split; reflexivity.
Qed.




(** ** Labels and rows *)





Lemma index_standardize_columns (df : DataFrame) (cols : list string)
    (fill : pyval) :
  index (standardize_columns df cols fill) = index df.
Proof.
  unfold index, standardize_columns. simpl. rewrite map_map. reflexivity.
Qed.


Section ComparatorProperties.

Variable py_float : string -> option pyfloat.
Variable str_number : pyval -> string.

Local Abbreviation parse_quantiles := (parse_quantiles py_float str_number).
Local Abbreviation parse_actual := (parse_actual py_float).
Local Abbreviation compare_metric := (compare_metric py_float str_number).

(** The row built from four finite values. *)
Lemma compare_metric_finite (column : string) (fv av dv : pyval)
    (p l u a : Q) :
  fst (parse_quantiles fv) = Ok (Fin p, Fin l, Fin u) ->
  parse_actual av = Fin a ->
  forall s d, fst (classify (Fin p) (Fin l) (Fin u) (Fin a)) = Ok (s, d) ->
  fst (compare_metric column fv av dv) =
  Ok {| date := date_entry dv;
        metric := column;
        actual := round_half_even a;
        forecast := round_half_even p;
        q10 := round_half_even l;
        q90 := round_half_even u;
        status := s;
        deviation_pct := py_round2 d |}.
Proof.
  intros Hq Ha s d Hc. unfold ForecastActualComparator.compare_metric.
  rewrite (fst_bind_ok _ _ Hq). rewrite Ha.
  rewrite (fst_bind_ok _ _ Hc). reflexivity.
Qed.

(** On finite values, status and deviation as the tests of
    [_compare_metric] decide them. *)
Lemma classify_finite (p l u a : Q) :
  classify (Fin p) (Fin l) (Fin u) (Fin a) =
  ret (if Qeq_bool l 0 && Qeq_bool u 0 && Qeq_bool p 0
       then (NO_FORECAST, fzero)
       else if Qle_bool l a && Qle_bool a u then (IN_RANGE, fzero)
       else if negb (Qle_bool l a) then
         (BELOW_P10,
          if negb (Qeq_bool l 0)
          then Fin (binary64 (binary64 (binary64 (l - a) / l) * 100))
          else if negb (Qeq_bool a 0) then Fin (binary64 (Qabs a * 100))
          else fzero)
       else if negb (Qle_bool a u) then
         (ABOVE_P90,
          if negb (Qeq_bool u 0)
          then Fin (binary64 (binary64 (binary64 (a - u) / u) * 100))
          else if negb (Qeq_bool a 0) then Fin (binary64 (Qabs a * 100))
          else fzero)
       else (NO_FORECAST, fzero)).
Proof.
  unfold classify, fneb, fdiv, fsub. simpl.
  destruct (Qeq_bool l 0) eqn:El, (Qeq_bool u 0) eqn:Eu,
    (Qeq_bool p 0) eqn:Ep, (Qle_bool l a) eqn:Ela, (Qle_bool a u) eqn:Eau,
    (Qeq_bool a 0) eqn:Ea; reflexivity.
Qed.


(** The [try] block never raises. *)
Lemma parse_quantiles_ok (fv : pyval) :
  exists t, fst (parse_quantiles fv) = Ok t.
Proof.
  unfold ForecastActualComparator.parse_quantiles. cbv zeta.
  generalize (split "|" (py_str str_number fv)). intro parts.
  destruct (quantile_at py_float parts QUANTILE_POINT_IDX);
    destruct (quantile_at py_float parts QUANTILE_Q10_IDX);
    destruct (quantile_at py_float parts QUANTILE_Q90_IDX);
    try (eexists; reflexivity).
  destruct (List.length parts <? EXPECTED_QUANTILE_COUNT)%nat;
    eexists; reflexivity.
Qed.

(** A row is returned exactly when the four numbers are finite. *)
Lemma compare_metric_ok_finite (column : string) (fv av dv : pyval)
    (r : result_row) :
  fst (compare_metric column fv av dv) = Ok r ->
  exists p l u a,
    fst (parse_quantiles fv) = Ok (Fin p, Fin l, Fin u) /\
    parse_actual av = Fin a.
Proof.
  unfold ForecastActualComparator.compare_metric. intro H.
  apply fst_bind_inv in H. destruct H as [[[p l] u] [Hq H]].
  apply fst_bind_inv in H. destruct H as [[s d] [_ H]].
  apply fst_bind_inv in H. destruct H as [ra [Ha H]].
  apply fst_bind_inv in H. destruct H as [rp [Hp H]].
  apply fst_bind_inv in H. destruct H as [rl [Hl H]].
  apply fst_bind_inv in H. destruct H as [ru [Hu _]].
  simpl in Ha, Hp, Hl, Hu.
  destruct (ForecastActualComparator.parse_actual py_float av) as [a | | | ];
    try discriminate.
  destruct p as [p | | | ]; try discriminate.
  destruct l as [l | | | ]; try discriminate.
  destruct u as [u | | | ]; try discriminate.
  exists p, l, u, a. split; [ assumption | reflexivity ].
Qed.

(** Every row that is returned has status NO_FORECAST exactly when the
    three parsed forecast values are zero. *)
Lemma returned_row_no_forecast_iff (column : string) (fv av dv : pyval)
    (r : result_row) (p l u : pyfloat) :
  fst (compare_metric column fv av dv) = Ok r ->
  fst (parse_quantiles fv) = Ok (p, l, u) ->
  status r = NO_FORECAST <->
  feqb l fzero && feqb u fzero && feqb p fzero = true.
Proof.
  intros Hr Hq.
  destruct (compare_metric_ok_finite _ _ _ _ Hr)
    as (p' & l' & u' & a & Hq' & Ha).
  rewrite Hq in Hq'. injection Hq' as -> -> ->.
  pose proof (classify_finite p' l' u' a) as Hc. simpl.
  destruct (Qeq_bool l' 0 && Qeq_bool u' 0 && Qeq_bool p' 0) eqn:Hz.
  - erewrite compare_metric_finite in Hr;
      [ | eassumption | eassumption | rewrite Hc; reflexivity ].
    injection Hr as <-. simpl. split; reflexivity.
  - destruct (Qle_bool l' a) eqn:Ela, (Qle_bool a u') eqn:Eau;
      simpl in Hc;
      (erewrite compare_metric_finite in Hr;
       [ | eassumption | eassumption | rewrite Hc; reflexivity ]);
      injection Hr as <-; simpl; split; discriminate.
Qed.

(** C2, evaluated on the code.  A parsed forecast value that is not a number
    makes the comparison raise: [round] refuses the value when the row is
    built, and no row with status NO_FORECAST is returned. *)
Theorem compare_metric_nan_raises (column : string) (fv av dv : pyval)
    (p l u : pyfloat) :
  fst (parse_quantiles fv) = Ok (p, l, u) ->
  isna l || isna u || isna p = true ->
  exists e, fst (compare_metric column fv av dv) = Raise e.
Proof.
  intros Hq Hn.
  destruct (fst (compare_metric column fv av dv)) as [r | e] eqn:E;
    [ | exists e; reflexivity ].
  destruct (compare_metric_ok_finite _ _ _ _ E)
    as (p' & l' & u' & a & Hq' & _).
  rewrite Hq in Hq'. injection Hq' as -> -> ->. discriminate.
Qed.

(** What [quantile_at] reads, in terms of [float] on one element. *)
Lemma split_length (sep : ascii) (s : string) :
  (0 < List.length (split sep s))%nat.
Proof.
  induction s as [ | c rest IH]; simpl; [ lia | ].
  destruct (Ascii.eqb c sep); simpl; [ lia | ].
  destruct (split sep rest); simpl; lia.
Qed.

Lemma quantile_at_converted (parts : list string) (idx : nat) (v : pyfloat) :
  (idx < List.length parts)%nat ->
  float_of py_float (VStr (nth idx parts ""%string)) = Ok v ->
  quantile_at py_float parts idx = Some v.
Proof.
  intros Hlt H. unfold quantile_at. apply Nat.ltb_lt in Hlt. rewrite Hlt.
  unfold float_of in H.
  destruct (float_of_str py_float (nth idx parts ""%string));
    [ injection H as ->; reflexivity | discriminate ].
Qed.

Lemma quantile_at_beyond (parts : list string) (idx : nat) :
  (List.length parts <= idx)%nat ->
  quantile_at py_float parts idx = Some fzero.
Proof.
  intro Hle. unfold quantile_at. apply Nat.ltb_ge in Hle. rewrite Hle.
  reflexivity.
Qed.

Lemma quantile_at_rejected (parts : list string) (idx : nat) (e : exn) :
  (idx < List.length parts)%nat ->
  float_of py_float (VStr (nth idx parts ""%string)) = Raise e ->
  quantile_at py_float parts idx = None.
Proof.
  intros Hlt H. unfold quantile_at. apply Nat.ltb_lt in Hlt. rewrite Hlt.
  unfold float_of in H.
  destruct (float_of_str py_float (nth idx parts ""%string));
    [ discriminate | reflexivity ].
Qed.

(** C5, amended.  Parsing a forecast cell never raises, and only the
    elements at the positions 0, 1 and 9 of the pipe-split sequence are
    converted.  Whatever the other elements are: when the element at
    position 0 converts to p, the element at position 1 converts to l or
    the sequence has no position 1 and l is 0.0, and the element at
    position 9 converts to u or the sequence has no position 9 and u is
    0.0, the values parsed are p, l and u, with one warning when the
    sequence has fewer than ten elements and none otherwise.  When an
    element at one of the three positions does not convert, the three
    values are 0.0, no warning is recorded, and for a finite actual value
    the comparison returns a row with status NO_FORECAST. *)
Theorem parse_quantiles_degrades (fv : pyval) :
  let parts := split "|" (py_str str_number fv) in
  let n := List.length parts in
  (exists t, fst (parse_quantiles fv) = Ok t) /\
  (forall p l u : pyfloat,
     float_of py_float (VStr (nth QUANTILE_POINT_IDX parts ""%string))
       = Ok p ->
     ((QUANTILE_Q10_IDX < n)%nat ->
      float_of py_float (VStr (nth QUANTILE_Q10_IDX parts ""%string))
        = Ok l) ->
     ((n <= QUANTILE_Q10_IDX)%nat -> l = fzero) ->
     ((QUANTILE_Q90_IDX < n)%nat ->
      float_of py_float (VStr (nth QUANTILE_Q90_IDX parts ""%string))
        = Ok u) ->
     ((n <= QUANTILE_Q90_IDX)%nat -> u = fzero) ->
     fst (parse_quantiles fv) = Ok (p, l, u) /\
     ((n < EXPECTED_QUANTILE_COUNT)%nat ->
      snd (parse_quantiles fv)
      = [QuantileCountWarning EXPECTED_QUANTILE_COUNT n]) /\
     ((EXPECTED_QUANTILE_COUNT <= n)%nat ->
      snd (parse_quantiles fv) = [])) /\
  ((exists idx e, In idx read_indices /\ (idx < n)%nat /\
                  float_of py_float (VStr (nth idx parts ""%string))
                  = Raise e) ->
   parse_quantiles fv = (Ok (fzero, fzero, fzero), []) /\
   forall column av dv a,
     parse_actual av = Fin a ->
     exists r, fst (compare_metric column fv av dv) = Ok r /\
               status r = NO_FORECAST).
Proof.
  intros parts n. split; [ apply parse_quantiles_ok | ]. split.
  - intros p l u Hp Hl Hl0 Hu Hu0.
    assert (Hn : (0 < n)%nat) by apply split_length.
    assert (Ep : quantile_at py_float parts QUANTILE_POINT_IDX = Some p).
    { apply quantile_at_converted; [ exact Hn | exact Hp ]. }
    assert (El : quantile_at py_float parts QUANTILE_Q10_IDX = Some l).
    { destruct (Nat.lt_ge_cases QUANTILE_Q10_IDX n) as [H | H].
      - apply quantile_at_converted; [ exact H | exact (Hl H) ].
      - rewrite (Hl0 H). apply quantile_at_beyond. exact H. }
    assert (Eu : quantile_at py_float parts QUANTILE_Q90_IDX = Some u).
    { destruct (Nat.lt_ge_cases QUANTILE_Q90_IDX n) as [H | H].
      - apply quantile_at_converted; [ exact H | exact (Hu H) ].
      - rewrite (Hu0 H). apply quantile_at_beyond. exact H. }
    unfold ForecastActualComparator.parse_quantiles. fold parts.
    rewrite Ep, El, Eu. fold n.
    destruct (n <? EXPECTED_QUANTILE_COUNT)%nat eqn:E; simpl;
      [ apply Nat.ltb_lt in E | apply Nat.ltb_ge in E ];
      (split; [ reflexivity | ]); split; intro H;
      try reflexivity; exfalso; lia.
  - intros (idx & e & Hin & Hlt & Hraise).
    assert (Hq : ForecastActualComparator.parse_quantiles
                   py_float str_number fv = ret (fzero, fzero, fzero)).
    { assert (Hidx : quantile_at py_float parts idx = None).
      { apply quantile_at_rejected with (e := e); assumption. }
      unfold ForecastActualComparator.parse_quantiles. fold parts.
      simpl in Hin. destruct Hin as [<- | [<- | [<- | []]]];
        rewrite Hidx;
        repeat match goal with
               | |- context [quantile_at py_float parts ?i] =>
                   destruct (quantile_at py_float parts i)
               end; reflexivity. }
    split; [ exact Hq | ].
    intros column av dv a Ha.
    eexists. split.
    + eapply compare_metric_finite;
        [ rewrite Hq; reflexivity | exact Ha | ].
      rewrite classify_finite. reflexivity.
    + reflexivity.
Qed.

(** ** The detection engine *)



(** [_prepare_data] returns as soon as the column that [reset_index] makes
    of the pivot's index is not one of its columns already. *)
Lemma prepare_data_ok (self : ForecastActualComparator.t)
    (forecast_df actual_df : DataFrame) :
  in_list (index_column (pivot_table (transformer self) actual_df))
          (columns (pivot_table (transformer self) actual_df)) = false ->
  exists forecast_std actual_std all_columns,
    prepare_data self forecast_df actual_df
    = Ok (forecast_std, actual_std, all_columns).
Proof.
  intro H. unfold prepare_data, reset_index. cbv zeta. rewrite H.
  eexists. eexists. eexists. reflexivity.
Qed.


End ComparatorProperties.

(** ** Empty and missing inputs *)

Import AnomalyDetectionWorkflow.

(** C7.  An empty or missing forecast or actual table makes the detection
    raise at once, before anything is computed, and the message of the
    exception names an input that is indeed empty or missing, and only that
    one: this holds for [_validate_inputs], hence for [detect], and for the
    workflow, which checks each table as soon as its reader returned.  In
    particular an empty forecast table passed to the detection raises
    "Forecast DataFrame is empty". *)
Theorem empty_input_names_stage :
  (forall forecast_df actual_df : option DataFrame,
     none_or_empty forecast_df = true \/ none_or_empty actual_df = true ->
     exists e st,
       validate_inputs forecast_df actual_df = Raise e /\
       names_stage st e = true /\ names_stage (other_stage st) e = false /\
       none_or_empty (match st with
                      | ForecastStage => forecast_df
                      | ActualStage => actual_df
                      end) = true) /\
  (forall py_float str_number self (forecast_df actual_df : option DataFrame)
          e,
     validate_inputs forecast_df actual_df = Raise e ->
     detect_results py_float str_number self forecast_df actual_df
     = (Raise e, [])) /\
  (forall (self : AnomalyDetectionWorkflow.t) forecast_df w,
     forecast_reader self = (Ok forecast_df, w) ->
     none_or_empty forecast_df = true ->
     exists e,
       execute_detection self = (Raise e, w) /\
       names_stage ForecastStage e = true /\
       names_stage ActualStage e = false) /\
  (forall (self : AnomalyDetectionWorkflow.t) forecast_df actual_df w w',
     forecast_reader self = (Ok forecast_df, w) ->
     none_or_empty forecast_df = false ->
     actual_reader self = (Ok actual_df, w') ->
     none_or_empty actual_df = true ->
     exists e,
       execute_detection self = (Raise e, w ++ w') /\
       names_stage ActualStage e = true /\
       names_stage ForecastStage e = false) /\
  (forall forecast_df actual_df : DataFrame,
     empty forecast_df = true ->
     validate_inputs (Some forecast_df) (Some actual_df)
     = Raise (ValueError "Forecast DataFrame is empty")).
Proof.
  split; [ | split; [ | split; [ | split ] ] ].
  - intros [f | ] [a | ] H; simpl in H; unfold validate_inputs.
    + destruct (empty f) eqn:Ef.
      * eexists; exists ForecastStage.
        repeat split; try reflexivity. exact Ef.
      * destruct H as [H | H]; [ discriminate | ].
        eexists; exists ActualStage. rewrite H.
        repeat split; try reflexivity. exact H.
    + eexists; exists ActualStage. repeat split; reflexivity.
    + eexists; exists ForecastStage. repeat split; reflexivity.
    + eexists; exists ForecastStage. repeat split; reflexivity.
  - intros py_float str_number self f a e H.
    unfold detect_results. rewrite H. reflexivity.
  - intros self f w Hr Hne. unfold execute_detection. rewrite Hr.
    destruct f as [f | ]; simpl in Hne.
    + eexists. unfold bind. rewrite Hne. simpl. rewrite app_nil_r.
      repeat split; reflexivity.
    + eexists. unfold bind. simpl. rewrite app_nil_r.
      repeat split; reflexivity.
  - intros self f a w w' Hr Hne Hr' Hne'. unfold execute_detection.
    rewrite Hr. destruct f as [f | ]; simpl in Hne; [ | discriminate ].
    unfold bind at 1. rewrite Hne. rewrite Hr'.
    destruct a as [a | ]; simpl in Hne'.
    + eexists. unfold bind. rewrite Hne'. simpl. rewrite app_nil_r.
      repeat split; reflexivity.
    + eexists. unfold bind. simpl. rewrite app_nil_r.
      repeat split; reflexivity.
  - intros f a H. unfold validate_inputs. rewrite H. reflexivity.
Qed.

(** ** Configuration checked by the constructors *)

Lemma in_list_true (c : string) (l : list string) :
  in_list c l = true <-> In c l.
Proof.
  unfold in_list. rewrite existsb_exists. split.
  - intros (x & Hin & Heq). apply String.eqb_eq in Heq. subst. exact Hin.
  - intro Hin. exists c. split; [ exact Hin | apply String.eqb_refl ].
Qed.


(** ** The status filter *)

Import AnomalyFilter.

Lemma filter_idempotent {A : Type} (f : A -> bool) (l : list A) :
  filter f (filter f l) = filter f l.
Proof.
  induction l as [ | x l IH]; [ reflexivity | ]. simpl.
  destruct (f x) eqn:E; simpl; [ rewrite E, IH | rewrite IH ]; reflexivity.
Qed.

(** C9.  Applying the status filter twice gives the same table as applying
    it once. *)
Theorem process_idempotent (self : AnomalyFilter.t) (results_df : DataFrame) :
  process self (process self results_df) = process self results_df.
Proof.
  unfold process.
  destruct (empty results_df || negb (in_list "status" (columns results_df)))
    eqn:E.
  - rewrite E. reflexivity.
  - cbn [columns rows index_name].
    match goal with
    | |- (if ?c then _ else _) = _ => destruct c
    end; [ reflexivity | ].
    rewrite filter_idempotent. reflexivity.
Qed.


(** ** The cumulative selection of the comparator *)

Lemma insert_desc_perm (x : Z) (l : list Z) :
  Permutation (insert_desc x l) (x :: l).
Proof.
  induction l as [ | y l IH]; simpl; [ reflexivity | ].
  destruct (y <=? x); [ reflexivity | ].
  rewrite IH. apply perm_swap.
Qed.

Lemma sort_desc_perm (l : list Z) : Permutation (sort_desc l) l.
Proof.
  induction l as [ | x l IH]; simpl; [ reflexivity | ].
  rewrite insert_desc_perm. apply perm_skip. exact IH.
Qed.

Lemma sumZ_app (l l' : list Z) : sumZ (l ++ l') = sumZ l + sumZ l'.
Proof. induction l as [ | x l IH]; simpl; [ reflexivity | lia ]. Qed.

Lemma sumZ_perm (l l' : list Z) : Permutation l l' -> sumZ l = sumZ l'.
Proof. induction 1; simpl; lia. Qed.

Lemma filter_perm (f : Z -> bool) (l l' : list Z) :
  Permutation l l' -> Permutation (filter f l) (filter f l').
Proof.
  induction 1 as [ | x l l' _ IH | x y l | l l' l'' _ IH1 _ IH2]; simpl.
  - reflexivity.
  - destruct (f x); [ apply perm_skip | ]; exact IH.
  - destruct (f x), (f y); try reflexivity. apply perm_swap.
  - rewrite IH1. exact IH2.
Qed.

Lemma map_filter_value (A : Type) (v : A -> Z) (f : Z -> bool) (l : list A) :
  map v (filter (fun r => f (v r)) l) = filter f (map v l).
Proof.
  induction l as [ | x l IH]; simpl; [ reflexivity | ].
  destruct (f (v x)); simpl; rewrite IH; reflexivity.
Qed.

Lemma fold_min_le (y : Z) (l : list Z) :
  fold_right Z.min y l <= y /\
  forall x, In x l -> fold_right Z.min y l <= x.
Proof.
  induction l as [ | z l [IH1 IH2]]; simpl.
  - split; [ lia | intros x [] ].
  - split; [ lia | ]. intros x [Hx | Hx].
    + subst z. lia.
    + specialize (IH2 x Hx). lia.
Qed.

Lemma minZ_le (d : Z) (l : list Z) (x : Z) : In x l -> minZ d l <= x.
Proof.
  destruct l as [ | y l]; [ contradiction | ]. simpl.
  destruct (fold_min_le y l) as [H1 H2].
  intros [Hx | Hx]; [ subst y; exact H1 | apply H2; exact Hx ].
Qed.

Lemma filter_all (f : Z -> bool) (l : list Z) :
  (forall x, In x l -> f x = true) -> filter f l = l.
Proof.
  induction l as [ | x l IH]; intro H; simpl; [ reflexivity | ].
  rewrite (H x (or_introl eq_refl)). rewrite IH; [ reflexivity | ].
  intros y Hy. apply H. right. exact Hy.
Qed.

Lemma sumZ_filter_nonneg (m : Z) (l : list Z) :
  0 <= m -> 0 <= sumZ (filter (fun x => m <=? x) l).
Proof.
  intro Hm. induction l as [ | x l IH]; simpl; [ lia | ].
  destruct (m <=? x) eqn:E; simpl; [ apply Z.leb_le in E | ]; lia.
Qed.

Lemma sumZ_filter_negative (m : Z) (l : list Z) :
  m < 0 -> sumZ l <= sumZ (filter (fun x => m <=? x) l).
Proof.
  intro Hm. induction l as [ | x l IH]; simpl; [ lia | ].
  destruct (m <=? x) eqn:E; simpl; [ | apply Z.leb_gt in E ]; lia.
Qed.

Lemma nth_error_cumsum_from (acc : Z) (l : list Z) (k : nat) (c : Z) :
  nth_error (cumsum_from acc l) k = Some c ->
  c = acc + sumZ (firstn (S k) l) /\ (k < List.length l)%nat.
Proof.
  revert acc k. induction l as [ | x l IH]; intros acc k H.
  - destruct k; discriminate.
  - destruct k as [ | k]; simpl in H.
    + injection H as <-. split; [ | simpl; lia ].
      simpl. destruct l; simpl; lia.
    + apply IH in H. destruct H as [-> Hlt]. split; [ | simpl; lia ].
      change (firstn (S (S k)) (x :: l)) with (x :: firstn (S k) l).
      simpl sumZ. unfold sumZ. simpl. lia.
Qed.

Lemma first_true_map (A : Type) (g : A -> bool) (l : list A) (k : nat) :
  first_true (map g l) = Some k ->
  exists c, nth_error l k = Some c /\ g c = true.
Proof.
  revert k. induction l as [ | x l IH]; intros k H; [ discriminate | ].
  simpl in H. destruct (g x) eqn:E.
  - injection H as <-. exists x. split; [ reflexivity | exact E ].
  - destruct (first_true (map g l)) as [k' | ]; [ | discriminate ].
    injection H as <-. destruct (IH k' eq_refl) as (c & Hc & Hg).
    exists c. split; assumption.
Qed.

(** The threshold value splits the sorted values into a non-empty part that
    reaches the share and the rest. *)
Lemma min_threshold_prefix (vs : list Z) (t : Q) :
  vs <> [] -> 0 < sumZ vs -> (0 < t)%Q -> (t <= 1)%Q ->
  let sorted_values := sort_desc vs in
  let mask :=
    map (fun p => fleb (Fin t) p)
        (map (fun c => Fin (inject_Z c / inject_Z (sumZ vs)))
             (cumsum sorted_values)) in
  exists prefix rest,
    sorted_values = prefix ++ rest /\ prefix <> [] /\
    match first_true mask with
    | Some threshold_idx => minZ 0 (firstn (S threshold_idx) sorted_values)
    | None => minZ 0 sorted_values
    end = minZ 0 prefix /\
    (t * inject_Z (sumZ vs) <= inject_Z (sumZ prefix))%Q.
Proof.
  intros Hne Htot Ht0 Ht1 sorted_values mask.
  assert (Hperm : Permutation sorted_values vs) by apply sort_desc_perm.
  assert (Hs : sorted_values <> []).
  { intro E. rewrite E in Hperm. apply Permutation_nil in Hperm.
    contradiction. }
  assert (HtotQ : (0 < inject_Z (sumZ vs))%Q).
  { change 0%Q with (inject_Z 0). rewrite <- Zlt_Qlt. exact Htot. }
  destruct (first_true mask) as [k | ] eqn:Ek.
  - unfold mask in Ek. rewrite map_map in Ek.
    apply first_true_map in Ek. destruct Ek as (c & Hc & Hg).
    apply nth_error_cumsum_from in Hc. destruct Hc as [Hc Hk].
    exists (firstn (S k) sorted_values), (skipn (S k) sorted_values).
    split; [ symmetry; apply firstn_skipn | ].
    split.
    { destruct sorted_values; [ contradiction | discriminate ]. }
    split; [ reflexivity | ].
    simpl in Hg. apply Qle_bool_iff in Hg.
    rewrite Z.add_0_l in Hc. rewrite <- Hc.
    apply (Qmult_le_compat_r _ _ (inject_Z (sumZ vs))) in Hg;
      [ | apply Qlt_le_weak; exact HtotQ ].
    eapply Qle_trans; [ exact Hg | ].
    rewrite Qmult_comm. rewrite Qmult_div_r; [ apply Qle_refl | ].
    intro E. rewrite E in HtotQ. discriminate HtotQ.
  - exists sorted_values, []. split; [ symmetry; apply app_nil_r | ].
    split; [ exact Hs | ]. split; [ reflexivity | ].
    rewrite (sumZ_perm Hperm).
    apply (Qmult_le_compat_r _ _ (inject_Z (sumZ vs))) in Ht1;
      [ | apply Qlt_le_weak; exact HtotQ ].
    rewrite Qmult_1_l in Ht1. exact Ht1.
Qed.

(** The filter on a table with at least one row. *)
Lemma filter_cumulative_threshold_body (df : list result_row)
    (value_column : result_row -> Z) (threshold_pct : pyfloat) :
  df <> [] ->
  filter_cumulative_threshold df value_column threshold_pct =
  if sumZ (map value_column df) =? 0 then df
  else
    filter
      (fun r =>
         match
           first_true
             (map (fun p => fleb threshold_pct p)
                (map (fun c =>
                        Fin (inject_Z c
                             / inject_Z (sumZ (map value_column df))))
                     (cumsum (sort_desc (map value_column df)))))
         with
         | Some threshold_idx =>
             minZ 0 (firstn (S threshold_idx)
                        (sort_desc (map value_column df)))
         | None => minZ 0 (sort_desc (map value_column df))
         end <=? value_column r)
      df.
Proof. destruct df; [ contradiction | reflexivity ]. Qed.

(** The share claimed of the cumulative selection holds for the filter of
    the comparator.  For a non-empty table of positive total
    and a threshold in (0, 1], the rows kept by
    [_filter_cumulative_threshold] are not empty and the sum of their
    ranking values is at least the threshold times the total. *)
Lemma filter_cumulative_threshold_share (df : list result_row)
    (value_column : result_row -> Z) (t : Q) :
  df <> [] ->
  0 < sumZ (map value_column df) ->
  (0 < t)%Q -> (t <= 1)%Q ->
  let kept := filter_cumulative_threshold df value_column (Fin t) in
  kept <> [] /\
  (t * inject_Z (sumZ (map value_column df))
   <= inject_Z (sumZ (map value_column kept)))%Q.
Proof.
  intros Hne Htot Ht0 Ht1.
  set (vs := map value_column df) in *.
  assert (Hvs : vs <> []).
  { destruct df; [ contradiction | discriminate ]. }
  destruct (min_threshold_prefix Hvs Htot Ht0 Ht1)
    as (prefix & rest & Hsplit & Hpre & Hmin & Hshare).
  rewrite (filter_cumulative_threshold_body value_column (Fin t) Hne).
  fold vs.
  assert (E0 : (sumZ vs =? 0) = false) by (apply Z.eqb_neq; lia).
  rewrite E0. rewrite Hmin.
  set (m := minZ 0 prefix) in *.
  set (kept := filter (fun r => m <=? value_column r) df).
  assert (Hkept : Permutation (map value_column kept)
                    (prefix ++ filter (fun x => m <=? x) rest)).
  { unfold kept.
    rewrite (map_filter_value value_column (fun x => m <=? x) df).
    fold vs.
    rewrite <- (filter_perm (fun x => m <=? x) (sort_desc_perm vs)).
    rewrite Hsplit, filter_app.
    rewrite (filter_all (fun x => m <=? x) prefix); [ reflexivity | ].
    intros x Hx. apply Z.leb_le. apply minZ_le. exact Hx. }
  split.
  - intro E. rewrite E in Hkept. simpl in Hkept.
    apply Permutation_nil in Hkept.
    destruct prefix; [ contradiction | discriminate ].
  - destruct (Z_lt_le_dec m 0) as [Hneg | Hpos].
    + (* what is dropped is negative: the rows kept sum to the total at
         least *)
      pose proof (sumZ_filter_negative rest Hneg) as Hrest.
      assert (Hall : sumZ vs = sumZ prefix + sumZ rest).
      { rewrite <- (sumZ_perm (sort_desc_perm vs)), Hsplit.
        apply sumZ_app. }
      apply Qle_trans with (inject_Z (sumZ vs)).
      * assert (HtotQ : (0 <= inject_Z (sumZ vs))%Q).
        { change 0%Q with (inject_Z 0). rewrite <- Zle_Qle. lia. }
        apply (Qmult_le_compat_r _ _ _ Ht1) in HtotQ.
        rewrite Qmult_1_l in HtotQ. exact HtotQ.
      * rewrite <- Zle_Qle. rewrite (sumZ_perm Hkept), sumZ_app. lia.
    + (* what is kept beyond the prefix is not negative *)
      eapply Qle_trans; [ exact Hshare | ].
      rewrite <- Zle_Qle. rewrite (sumZ_perm Hkept), sumZ_app.
      pose proof (sumZ_filter_nonneg rest Hpos). lia.
Qed.

(* ===================================================================== *)
(** * The statements on the scenarios of the specification *)
(* ===================================================================== *)

(** ** Single comparisons *)


(** The three scenarios of the specification on the cell
    1000|900|920|950|975|1000|1025|1050|1080|1100; the deviations are 0
    and the floats nearest to 33.33 and to 4.55. *)
Example scenario_in_range :
  fst (compare_metric float_of_decimal no_str "m" (VStr scenario_cell)
         (VInt 950) VNone)
  = Ok (mkResult None "m" 950 1000 900 1100 IN_RANGE (Fin 0)).
Proof. reflexivity. Qed.

Example scenario_below :
  fst (compare_metric float_of_decimal no_str "m" (VStr scenario_cell)
         (VInt 600) VNone)
  = Ok (mkResult None "m" 600 1000 900 1100 BELOW_P10
          (fround (Fin (3333 # 100)))).
Proof. reflexivity. Qed.

Example scenario_above :
  fst (compare_metric float_of_decimal no_str "m" (VStr scenario_cell)
         (VInt 1150) VNone)
  = Ok (mkResult None "m" 1150 1000 900 1100 ABOVE_P90
          (fround (Fin (455 # 100)))).
Proof. reflexivity. Qed.

(** The rounding of each operation shows in the result.  With the lower
    bound 160 and the actual value 67 the quotient 93 / 160 is not a float,
    the product is a little more than 58.125 and the deviation is 58.13,
    where exact arithmetic gives 58.125 and 58.12.  With a lower bound of
    zero and the actual value -73.46535 the product is a little less than
    7346.535 and the deviation is 7346.53. *)
Example deviation_in_double_precision :
  fst (compare_metric float_of_decimal no_str "m"
         (VStr "160|160|170|175|180|185|190|195|198|200") (VInt 67) VNone)
  = Ok (mkResult None "m" 67 160 160 200 BELOW_P10
          (fround (Fin (5813 # 100)))) /\
  (58125 # 1000 < binary64 (binary64 (binary64 (160 - 67) / 160) * 100))%Q /\
  round_half_even ((160 - 67) / 160 * 100 * 100) = 5812 /\
  fst (compare_metric float_of_decimal no_str "m"
         (VStr "5|0|0|0|0|0|0|0|0|10") (VStr "-73.46535") VNone)
  = Ok (mkResult None "m" (-73) 5 0 10 BELOW_P10
          (fround (Fin (734653 # 100)))).
Proof.
  split; [ vm_compute; reflexivity | ].
  split; [ vm_compute; reflexivity | ].
  split; vm_compute; reflexivity.
Qed.


Lemma compare_metric_nan_raises_witness :
  fst (parse_quantiles float_of_decimal no_str
         (VStr "nan|nan|nan|nan|nan|nan|nan|nan|nan|nan"))
    = Ok (NaN, NaN, NaN) /\
  isna NaN || isna NaN || isna NaN = true /\
  exists e,
    fst (compare_metric float_of_decimal no_str "m"
           (VStr "nan|nan|nan|nan|nan|nan|nan|nan|nan|nan")
           (VInt 950) VNone) = Raise e.
Proof.
  split; [ reflexivity | ]. split; [ reflexivity | ].
  exact (compare_metric_nan_raises float_of_decimal no_str "m"
           (VStr "nan|nan|nan|nan|nan|nan|nan|nan|nan|nan")
           (VInt 950) VNone eq_refl eq_refl).
Defined.

(** The failing input of C2: the forecast cell nan|...|nan with the actual
    value 950 raises [ValueError] where a NO_FORECAST row is expected. *)
Example nan_forecast_raises :
  compare_metric float_of_decimal no_str "m"
    (VStr "nan|nan|nan|nan|nan|nan|nan|nan|nan|nan") (VInt 950) VNone
  = (Raise (ValueError "cannot convert float NaN to integer"), []).
Proof. reflexivity. Qed.

Lemma parse_quantiles_degrades_witness :
  (float_of float_of_decimal (VStr (nth 0 (split "|" "1000|900") ""%string))
     = Ok (Fin 1000) /\
   float_of float_of_decimal (VStr (nth 1 (split "|" "1000|900") ""%string))
     = Ok (Fin 900) /\
   (List.length (split "|" "1000|900") <= 9)%nat /\
   fst (parse_quantiles float_of_decimal no_str (VStr "1000|900"))
     = Ok (Fin 1000, Fin 900, fzero) /\
   snd (parse_quantiles float_of_decimal no_str (VStr "1000|900"))
     = [QuantileCountWarning 10 2]) /\
  (exists idx e,
     In idx read_indices /\
     (idx < List.length (split "|" "1000|abc"))%nat /\
     float_of float_of_decimal (VStr (nth idx (split "|" "1000|abc") ""%string))
     = Raise e) /\
  parse_quantiles float_of_decimal no_str (VStr "1000|abc")
    = (Ok (fzero, fzero, fzero), []) /\
  exists r,
    fst (compare_metric float_of_decimal no_str "m" (VStr "1000|abc")
           (VInt 950) VNone) = Ok r /\
    status r = NO_FORECAST.
Proof.
  assert (Hlen : (List.length (split "|" "1000|900") <= 9)%nat)
    by (vm_compute; lia).
  assert (H2 : exists idx e,
            In idx read_indices /\
            (idx < List.length (split "|" "1000|abc"))%nat /\
            float_of float_of_decimal
              (VStr (nth idx (split "|" "1000|abc") ""%string)) = Raise e).
  { exists 1%nat. eexists. split; [ simpl; auto | ].
    split; [ vm_compute; lia | reflexivity ]. }
  destruct (parse_quantiles_degrades float_of_decimal no_str
              (VStr "1000|900")) as (_ & Hgood & _).
  destruct (parse_quantiles_degrades float_of_decimal no_str
              (VStr "1000|abc")) as (_ & _ & Hbad).
  destruct (Hgood (Fin 1000) (Fin 900) fzero eq_refl
              (fun _ => eq_refl)
              (fun H : (2 <= 1)%nat =>
                 False_ind _ (Nat.nle_succ_diag_l 1 H))
              (fun H : (9 < 2)%nat =>
                 False_ind _ (Nat.nlt_0_r 7
                   (proj2 (Nat.succ_lt_mono 7 0)
                      (proj2 (Nat.succ_lt_mono 8 1) H))))
              (fun _ => eq_refl))
    as (Hq & Hw & _).
  destruct (Hbad H2) as (Hzero & Hrow).
  split.
  - split; [ reflexivity | ]. split; [ reflexivity | ].
    split; [ exact Hlen | ]. split; [ exact Hq | ].
    apply Hw. vm_compute. lia.
  - split; [ exact H2 | ]. split; [ exact Hzero | ].
    exact (Hrow "m"%string (VInt 950) VNone 950%Q eq_refl).
Defined.

(** C5 as stated fails.  The element at position 2 of the cell does not
    convert, and the three values read are 1000, 900 and 1100, not 0.0: the
    status is IN_RANGE, not NO_FORECAST. *)
Lemma unread_element_not_parsed :
  float_of_decimal
    (nth 2 (split "|" "1000|900|abc|950|975|1000|1025|1050|1080|1100")
         ""%string) = None /\
  fst (parse_quantiles float_of_decimal no_str
         (VStr "1000|900|abc|950|975|1000|1025|1050|1080|1100"))
    = Ok (Fin 1000, Fin 900, Fin 1100) /\
  fst (compare_metric float_of_decimal no_str "m"
         (VStr "1000|900|abc|950|975|1000|1025|1050|1080|1100")
         (VInt 950) VNone)
    = Ok (mkResult None "m" 950 1000 900 1100 IN_RANGE (Fin 0)).
Proof. split; [ reflexivity | ]. split; reflexivity. Qed.

(** ** The detection engine on two forecast days *)




(** ** The cumulative selection on the volumes a:5000, b:3000, c:100, d:50 *)

(** C3, evaluated on the code.  The pre-filter constructed with the threshold
    0.95 reads the volumes 5000, 3000, 100 and 50, of total 8150, and keeps
    the metric a alone: the share of what it keeps, 5000 / 8150, is below
    the threshold, and b, which the scenario keeps, is dropped. *)
Theorem pre_filter_share_below_threshold :
  exists self,
    CumulativeThresholdFilter.init example_transformer (Fin (95 # 100)) None
      = Ok self /\
    CumulativeThresholdFilter.forecast_values float_of_decimal no_str self
      volume_forecast
      = [("a", Fin 5000); ("b", Fin 3000); ("c", Fin 100); ("d", Fin 50)]
        %string /\
    CumulativeThresholdFilter.metrics_to_keep self
      [("a", Fin 5000); ("b", Fin 3000); ("c", Fin 100); ("d", Fin 50)]
      %string
      = Some ["a"%string] /\
    columns (fst (CumulativeThresholdFilter.filter float_of_decimal no_str
                    self volume_forecast volume_actual))
      = ["date"; "a"]%string /\
    (5000 / (5000 + 3000 + 100 + 50) < 95 # 100)%Q.
Proof.
  eexists. split; [ reflexivity | ].
  split; [ vm_compute; reflexivity | ].
  split; [ vm_compute; reflexivity | ].
  split; vm_compute; reflexivity.
Qed.

(** C4, evaluated on the code.  On the same forecast table and the threshold
    0.95 the two selections differ: the pre-filter keeps the metric a, and
    the filter of the comparator, applied to the rows detected on that
    table, whose ranking values are the same 5000, 3000, 100 and 50, keeps
    the metrics a and b. *)
Theorem pre_and_post_selection_differ :
  exists self results,
    CumulativeThresholdFilter.init example_transformer (Fin (95 # 100)) None
      = Ok self /\
    columns (fst (CumulativeThresholdFilter.filter float_of_decimal no_str
                    self volume_forecast volume_actual))
      = ["date"; "a"]%string /\
    fst (detect_results float_of_decimal no_str example_comparator
           (Some volume_forecast) (Some volume_actual)) = Ok results /\
    map (fun r => (metric r, forecast r)) results
      = [("a", 5000); ("b", 3000); ("c", 100); ("d", 50)]%string /\
    map metric (filter_cumulative_threshold results forecast
                  (Fin (95 # 100)))
      = ["a"; "b"]%string.
Proof.
  eexists. eexists. split; [ reflexivity | ].
  split; [ vm_compute; reflexivity | ].
  split; [ vm_compute; reflexivity | ].
  split; vm_compute; reflexivity.
Qed.

(** ** Empty inputs, constructors and the status filter *)

Lemma empty_input_names_stage_witness :
  empty empty_frame = true /\
  validate_inputs (Some empty_frame) (Some second_day_actual)
  = Raise (ValueError "Forecast DataFrame is empty").
Proof.
  split; [ reflexivity | ].
  exact (proj2 (proj2 (proj2 (proj2 empty_input_names_stage)))
           empty_frame second_day_actual eq_refl).
Defined.




(** With the flag off, the rows b and d of the four are returned. *)
Example four_status_filtered :
  map (fun r => cell r "metric")
      (rows (process (init false) four_status_results))
  = [VStr "b"; VStr "d"].
Proof. reflexivity. Qed.

(* ===================================================================== *)
(** * Further properties of the comparison of one metric *)
(* ===================================================================== *)

(** ** Rounding *)

Lemma round_half_even_comp (q q' : Q) :
  (q == q')%Q -> round_half_even q = round_half_even q'.
Proof.
  intro H. unfold round_half_even. rewrite (Qfloor_comp _ _ H).
  assert (Hr : (q - inject_Z (Qfloor q') == q' - inject_Z (Qfloor q'))%Q)
    by (rewrite H; reflexivity).
  assert (Hle : Qle_bool (q - inject_Z (Qfloor q')) (1 # 2)
                = Qle_bool (q' - inject_Z (Qfloor q')) (1 # 2))
    by (rewrite Hr; reflexivity).
  assert (Heq : Qeq_bool (q - inject_Z (Qfloor q')) (1 # 2)
                = Qeq_bool (q' - inject_Z (Qfloor q')) (1 # 2))
    by (rewrite Hr; reflexivity).
  rewrite Hle, Heq. reflexivity.
Qed.

Lemma round_half_even_nonneg (q : Q) : (0 <= q)%Q -> 0 <= round_half_even q.
Proof.
  intro H. apply Qfloor_resp_le in H. change (Qfloor 0) with 0 in H.
  unfold round_half_even.
  destruct (Qle_bool _ _); [ destruct (Qeq_bool _ _);
                             [ destruct (Z.even _) | ] | ]; lia.
Qed.

Lemma round_half_even_nonpos (q : Q) : (q <= 0)%Q -> round_half_even q <= 0.
Proof.
  intro H. pose proof (Qfloor_resp_le _ _ H) as Hf.
  change (Qfloor 0) with 0 in Hf. pose proof (Qfloor_le q) as Hq.
  unfold round_half_even.
  destruct (Z.eq_dec (Qfloor q) 0) as [E | E].
  - assert (Hr : (q - inject_Z (Qfloor q) <= 0)%Q).
    { rewrite E. change (inject_Z 0) with 0%Q. lra. }
    assert (Hle : Qle_bool (q - inject_Z (Qfloor q)) (1 # 2) = true).
    { apply Qle_bool_iff. lra. }
    assert (Hne : Qeq_bool (q - inject_Z (Qfloor q)) (1 # 2) = false).
    { apply Qeq_bool_neq_false. intro Heq. lra. }
    rewrite Hle, Hne. lia.
  - destruct (Qle_bool _ _); [ destruct (Qeq_bool _ _);
                               [ destruct (Z.even _) | ] | ]; lia.
Qed.

(** ** Rounding to the nearest integer *)

Lemma round_half_even_Z (z : Z) : round_half_even (inject_Z z) = z.
Proof.
  unfold round_half_even. rewrite Qfloor_Z.
  assert (Hr : (inject_Z z - inject_Z z == 0)%Q) by ring.
  assert (Hle : Qle_bool (inject_Z z - inject_Z z) (1 # 2) = true).
  { apply Qle_bool_iff. rewrite Hr. discriminate. }
  assert (Hne : Qeq_bool (inject_Z z - inject_Z z) (1 # 2) = false).
  { apply Qeq_bool_neq_false. rewrite Hr. discriminate. }
  rewrite Hle, Hne. reflexivity.
Qed.

Lemma round_half_even_bounds (q : Q) :
  Qfloor q <= round_half_even q <= Qfloor q + 1.
Proof.
  unfold round_half_even.
  destruct (Qle_bool _ _); [ destruct (Qeq_bool _ _);
                             [ destruct (Z.even _) | ] | ]; lia.
Qed.

Lemma round_half_even_mono (q q' : Q) :
  (q <= q')%Q -> round_half_even q <= round_half_even q'.
Proof.
  intro H. pose proof (Qfloor_resp_le _ _ H) as Hf.
  destruct (Z.eq_dec (Qfloor q) (Qfloor q')) as [E | E].
  - unfold round_half_even. rewrite <- E.
    set (f := Qfloor q).
    destruct (Qle_bool (q - inject_Z f) (1 # 2)) eqn:E1,
      (Qle_bool (q' - inject_Z f) (1 # 2)) eqn:E2,
      (Qeq_bool (q - inject_Z f) (1 # 2)) eqn:E3,
      (Qeq_bool (q' - inject_Z f) (1 # 2)) eqn:E4;
      try (destruct (Z.even f)); try lia;
      repeat match goal with
             | H : Qeq_bool _ _ = true |- _ => apply Qeq_bool_iff in H
             | H : Qeq_bool _ _ = false |- _ => apply Qeq_bool_neq in H
             | H : Qle_bool _ _ = true |- _ => apply Qle_bool_iff in H
             | H : Qle_bool _ _ = false |- _ => apply Qle_bool_false in H
             end; exfalso; lra.
  - pose proof (round_half_even_bounds q).
    pose proof (round_half_even_bounds q').
    lia.
Qed.

Lemma round_half_even_ge (n : Z) (q : Q) :
  (inject_Z n <= q)%Q -> n <= round_half_even q.
Proof.
  intro H. rewrite <- (round_half_even_Z n). apply round_half_even_mono, H.
Qed.

Lemma round_half_even_le (n : Z) (q : Q) :
  (q <= inject_Z n)%Q -> round_half_even q <= n.
Proof.
  intro H. rewrite <- (round_half_even_Z n). apply round_half_even_mono, H.
Qed.

(** ** Powers of two *)

Lemma two_power_pos (e : Z) : (0 < 2 ^ e)%Q.
Proof. apply Qpower_0_lt. reflexivity. Qed.

Lemma two_power_plus (n m : Z) : (2 ^ (n + m) == 2 ^ n * 2 ^ m)%Q.
Proof. apply Qpower_plus. discriminate. Qed.

Lemma two_power_cancel (e : Z) : (2 ^ (52 - e) * 2 ^ (e - 52) == 1)%Q.
Proof.
  rewrite <- two_power_plus. replace (52 - e + (e - 52)) with 0 by lia.
  reflexivity.
Qed.

Lemma two_power_succ (e : Z) : (2 ^ (e + 1) == 2 * 2 ^ e)%Q.
Proof. rewrite two_power_plus. change (2 ^ 1)%Q with 2%Q. ring. Qed.

Lemma two_power_Z (n : Z) : 0 <= n -> (inject_Z (2 ^ n) == 2 ^ n)%Q.
Proof. intro H. rewrite Zpower_Qpower by exact H. reflexivity. Qed.

(** ** The binary exponent *)

Lemma exponent_spec (q : Q) :
  (0 < q)%Q -> (2 ^ exponent q <= q)%Q /\ (q < 2 ^ (exponent q + 1))%Q.
Proof.
  intro Hq. destruct q as [n d].
  assert (Hn : 0 < n).
  { unfold Qlt in Hq. simpl in Hq. lia. }
  unfold exponent. cbn [Qnum Qden].
  set (ln := Z.log2 n). set (ld := Z.log2 (Z.pos d)).
  pose proof (Z.log2_spec n Hn) as [Hn1 Hn2]. fold ln in Hn1, Hn2.
  pose proof (Z.log2_spec (Z.pos d) (Pos2Z.is_pos d)) as [Hd1 Hd2].
  fold ld in Hd1, Hd2.
  assert (Hln : 0 <= ln) by apply Z.log2_nonneg.
  assert (Hld : 0 <= ld) by apply Z.log2_nonneg.
  assert (Hq' : (n # d == inject_Z n / inject_Z (Z.pos d))%Q).
  { rewrite Qmake_Qdiv. reflexivity. }
  assert (Hdpos : (0 < inject_Z (Z.pos d))%Q).
  { change 0%Q with (inject_Z 0). rewrite <- Zlt_Qlt. lia. }
  (* bounds on numerator and denominator as rationals *)
  assert (Qn1 : (2 ^ ln <= inject_Z n)%Q).
  { rewrite <- two_power_Z by lia. rewrite <- Zle_Qle. exact Hn1. }
  assert (Qn2 : (inject_Z n < 2 ^ (ln + 1))%Q).
  { rewrite <- two_power_Z by lia. rewrite <- Zlt_Qlt. exact Hn2. }
  assert (Qd1 : (2 ^ ld <= inject_Z (Z.pos d))%Q).
  { rewrite <- two_power_Z by lia. rewrite <- Zle_Qle. exact Hd1. }
  assert (Qd2 : (inject_Z (Z.pos d) < 2 ^ (ld + 1))%Q).
  { rewrite <- two_power_Z by lia. rewrite <- Zlt_Qlt. exact Hd2. }
  (* q is between 2^(e-1) and 2^(e+1) *)
  assert (Hlow : (2 ^ (ln - ld - 1) <= n # d)%Q).
  { rewrite Hq'. apply Qle_shift_div_l; [ exact Hdpos | ].
    apply Qle_trans with (2 ^ (ln - ld - 1) * 2 ^ (ld + 1))%Q.
    - apply Qmult_le_l; [ apply two_power_pos | apply Qlt_le_weak, Qd2 ].
    - rewrite <- two_power_plus.
      replace (ln - ld - 1 + (ld + 1)) with ln by lia. exact Qn1. }
  assert (Hhigh : (n # d < 2 ^ (ln - ld + 1))%Q).
  { rewrite Hq'. apply Qlt_shift_div_r; [ exact Hdpos | ].
    apply Qlt_le_trans with (2 ^ (ln + 1))%Q; [ exact Qn2 | ].
    replace (ln + 1) with (ln - ld + 1 + ld) by lia.
    rewrite two_power_plus.
    apply Qmult_le_l; [ apply two_power_pos | exact Qd1 ]. }
  destruct (Qle_bool (2 ^ (ln - ld)) (n # d)) eqn:E.
  - apply Qle_bool_iff in E. split; assumption.
  - apply Qle_bool_false in E. split; [ exact Hlow | ].
    replace (ln - ld - 1 + 1) with (ln - ld) by lia. exact E.
Qed.

Lemma exponent_unique (q : Q) (e : Z) :
  (2 ^ e <= q)%Q -> (q < 2 ^ (e + 1))%Q -> exponent q = e.
Proof.
  intros H1 H2.
  assert (Hq : (0 < q)%Q).
  { eapply Qlt_le_trans; [ apply (two_power_pos e) | exact H1 ]. }
  destruct (exponent_spec Hq) as [H3 H4].
  assert (Ha : exponent q < e + 1).
  { apply Qpower_lt_compat_l_inv with (q := 2%Q); [ | reflexivity ].
    eapply Qle_lt_trans; eassumption. }
  assert (Hb : e < exponent q + 1).
  { apply Qpower_lt_compat_l_inv with (q := 2%Q); [ | reflexivity ].
    eapply Qle_lt_trans; eassumption. }
  lia.
Qed.

Lemma exponent_comp (q q' : Q) :
  (0 < q)%Q -> (q == q')%Q -> exponent q' = exponent q.
Proof.
  intros Hq E. destruct (exponent_spec Hq) as [H1 H2].
  apply exponent_unique; rewrite <- E; assumption.
Qed.

Lemma exponent_mono (q q' : Q) :
  (0 < q)%Q -> (q <= q')%Q -> exponent q <= exponent q'.
Proof.
  intros Hq Hle.
  assert (Hq' : (0 < q')%Q) by lra.
  destruct (exponent_spec Hq) as [H1 _].
  destruct (exponent_spec Hq') as [_ H2].
  assert (exponent q < exponent q' + 1); [ | lia ].
  apply Qpower_lt_compat_l_inv with (q := 2%Q); [ | reflexivity ].
  lra.
Qed.

(** ** Rounding to binary64 *)

Lemma binary64_comp (q q' : Q) : (q == q')%Q -> binary64 q = binary64 q'.
Proof.
  intro H. unfold binary64. rewrite (Qred_complete _ _ H). reflexivity.
Qed.

Lemma Qred_idem (q : Q) : Qred (Qred q) = Qred q.
Proof. apply Qred_complete, Qred_correct. Qed.

Lemma binary64_canon (q : Q) : Qred (binary64 q) = binary64 q.
Proof.
  unfold binary64. destruct (Qeq_bool (Qred q) 0); [ reflexivity | ].
  apply Qred_idem.
Qed.

Lemma binary64_zero (q : Q) : (q == 0)%Q -> binary64 q = 0%Q.
Proof. intro H. rewrite (binary64_comp H). reflexivity. Qed.

(** The value of a rounding: a significand times a power of two. *)
Lemma binary64_eq (q : Q) :
  ~ (q == 0)%Q ->
  (binary64 q ==
   inject_Z (round_half_even (q * 2 ^ (52 - exponent (Qabs q))))
   * 2 ^ (exponent (Qabs q) - 52))%Q.
Proof.
  intro Hq. unfold binary64.
  assert (Hr : ~ (Qred q == 0)%Q) by (rewrite Qred_correct; exact Hq).
  rewrite (Qeq_bool_neq_false Hr). cbv zeta. rewrite Qred_correct.
  assert (Habs : (0 < Qabs q)%Q).
  { destruct (Qlt_le_dec 0 (Qabs q)) as [H | H]; [ exact H | ].
    exfalso. apply Hq. pose proof (Qabs_nonneg q).
    apply Qabs_Qle_condition in H. lra. }
  assert (He : exponent (Qabs (Qred q)) = exponent (Qabs q)).
  { apply exponent_comp; [ exact Habs | ]. rewrite Qred_correct. reflexivity. }
  rewrite He.
  rewrite (@round_half_even_comp (Qred q * 2 ^ (52 - exponent (Qabs q)))%Q
             (q * 2 ^ (52 - exponent (Qabs q)))%Q);
    [ reflexivity | rewrite Qred_correct; reflexivity ].
Qed.

Lemma binary64_nonneg (q : Q) : (0 <= q)%Q -> (0 <= binary64 q)%Q.
Proof.
  intro H. destruct (Qeq_dec q 0) as [E | E].
  - rewrite (binary64_zero E). apply Qle_refl.
  - rewrite (binary64_eq E).
    apply Qmult_le_0_compat; [ | apply Qlt_le_weak, two_power_pos ].
    change 0%Q with (inject_Z 0). rewrite <- Zle_Qle.
    apply round_half_even_nonneg.
    apply Qmult_le_0_compat; [ exact H | apply Qlt_le_weak, two_power_pos ].
Qed.

Lemma binary64_nonpos (q : Q) : (q <= 0)%Q -> (binary64 q <= 0)%Q.
Proof.
  intro H. destruct (Qeq_dec q 0) as [E | E].
  - rewrite (binary64_zero E). apply Qle_refl.
  - rewrite (binary64_eq E).
    set (e := exponent (Qabs q)).
    pose proof (two_power_pos (e - 52)) as Hp.
    pose proof (two_power_pos (52 - e)) as Hp'.
    assert (Hm : round_half_even (q * 2 ^ (52 - e)) <= 0).
    { apply round_half_even_nonpos. nra. }
    rewrite Zle_Qle in Hm. change (inject_Z 0) with 0%Q in Hm.
    nra.
Qed.

(** A positive number rounds into its binade. *)
Lemma binary64_binade (q : Q) :
  (0 < q)%Q ->
  let e := exponent q in
  let m := round_half_even (q * 2 ^ (52 - e)) in
  (binary64 q == inject_Z m * 2 ^ (e - 52))%Q /\
  2 ^ 52 <= m <= 2 ^ 53.
Proof.
  intros Hq e m.
  assert (Hne : ~ (q == 0)%Q) by (intro E; rewrite E in Hq; discriminate Hq).
  assert (Habs : (Qabs q == q)%Q) by (apply Qabs_pos; lra).
  assert (He : exponent (Qabs q) = e).
  { apply exponent_comp; [ exact Hq | symmetry; exact Habs ]. }
  split.
  - rewrite (binary64_eq Hne), He. reflexivity.
  - destruct (exponent_spec Hq) as [H1 H2]. fold e in H1, H2.
    pose proof (two_power_pos (52 - e)) as Hp.
    assert (Hs1 : (2 ^ e * 2 ^ (52 - e) == inject_Z (2 ^ 52))%Q).
    { rewrite <- two_power_plus. replace (e + (52 - e)) with 52 by lia.
      reflexivity. }
    assert (Hs2 : (2 ^ (e + 1) * 2 ^ (52 - e) == inject_Z (2 ^ 53))%Q).
    { rewrite <- two_power_plus. replace (e + 1 + (52 - e)) with 53 by lia.
      reflexivity. }
    split.
    + apply round_half_even_ge. rewrite <- Hs1.
      apply Qmult_le_compat_r; [ exact H1 | lra ].
    + apply round_half_even_le. rewrite <- Hs2.
      apply Qmult_le_compat_r; [ lra | lra ].
Qed.

Lemma binary64_pos (q : Q) : (0 < q)%Q -> (0 < binary64 q)%Q.
Proof.
  intro Hq. destruct (binary64_binade Hq) as [E [Hm _]]. rewrite E.
  apply Qmult_lt_0_compat; [ | apply two_power_pos ].
  change 0%Q with (inject_Z 0). rewrite <- Zlt_Qlt. lia.
Qed.

Lemma binary64_bounds (q : Q) :
  (0 < q)%Q ->
  (2 ^ exponent q <= binary64 q)%Q /\ (binary64 q <= 2 ^ (exponent q + 1))%Q.
Proof.
  intro Hq. destruct (binary64_binade Hq) as [E [Hm1 Hm2]]. rewrite E.
  set (e := exponent q) in *. set (m := round_half_even _) in *.
  pose proof (two_power_pos (e - 52)) as Hp.
  assert (Hs1 : (2 ^ e == inject_Z (2 ^ 52) * 2 ^ (e - 52))%Q).
  { change (inject_Z (2 ^ 52)) with (2 ^ 52)%Q. rewrite <- two_power_plus.
    replace (52 + (e - 52)) with e by lia. reflexivity. }
  assert (Hs2 : (2 ^ (e + 1) == inject_Z (2 ^ 53) * 2 ^ (e - 52))%Q).
  { change (inject_Z (2 ^ 53)) with (2 ^ 53)%Q. rewrite <- two_power_plus.
    replace (53 + (e - 52)) with (e + 1) by lia. reflexivity. }
  split.
  - rewrite Hs1. apply Qmult_le_compat_r; [ | lra ].
    rewrite <- Zle_Qle. exact Hm1.
  - rewrite Hs2. apply Qmult_le_compat_r; [ | lra ].
    rewrite <- Zle_Qle. exact Hm2.
Qed.

(** A significand of at most 53 bits times a power of two is not
    changed. *)
Lemma binary64_significand (m e : Z) :
  2 ^ 52 <= m <= 2 ^ 53 ->
  (binary64 (inject_Z m * 2 ^ (e - 52)) == inject_Z m * 2 ^ (e - 52))%Q.
Proof.
  intros [Hm1 Hm2].
  set (x := (inject_Z m * 2 ^ (e - 52))%Q).
  pose proof (two_power_pos (e - 52)) as Hp.
  assert (Hmq : (inject_Z (2 ^ 52) <= inject_Z m)%Q)
    by (rewrite <- Zle_Qle; exact Hm1).
  assert (Hx : (0 < x)%Q).
  { unfold x. apply Qmult_lt_0_compat; [ | exact Hp ].
    change 0%Q with (inject_Z 0). rewrite <- Zlt_Qlt. lia. }
  assert (Hs1 : (2 ^ e == inject_Z (2 ^ 52) * 2 ^ (e - 52))%Q).
  { change (inject_Z (2 ^ 52)) with (2 ^ 52)%Q. rewrite <- two_power_plus.
    replace (52 + (e - 52)) with e by lia. reflexivity. }
  assert (Hs2 : (2 ^ (e + 1) == inject_Z (2 ^ 53) * 2 ^ (e - 52))%Q).
  { change (inject_Z (2 ^ 53)) with (2 ^ 53)%Q. rewrite <- two_power_plus.
    replace (53 + (e - 52)) with (e + 1) by lia. reflexivity. }
  destruct (Z.eq_dec m (2 ^ 53)) as [Em | Em].
  - (* the next power of two *)
    assert (Hx2 : (x == 2 ^ (e + 1))%Q).
    { unfold x. rewrite Em, Hs2. reflexivity. }
    assert (He : exponent x = e + 1).
    { apply exponent_unique.
      - rewrite Hx2. apply Qle_refl.
      - rewrite Hx2. apply Qpower_lt_compat_l; [ lia | reflexivity ]. }
    destruct (binary64_binade Hx) as [E _]. rewrite E, He.
    assert (Hi : (x * 2 ^ (52 - (e + 1)) == inject_Z (2 ^ 52))%Q).
    { rewrite Hx2, <- two_power_plus.
      replace (e + 1 + (52 - (e + 1))) with 52 by lia. reflexivity. }
    rewrite (round_half_even_comp Hi), round_half_even_Z.
    change (inject_Z (2 ^ 52)) with (2 ^ 52)%Q. rewrite <- two_power_plus.
    replace (52 + (e + 1 - 52)) with (e + 1) by lia.
    symmetry. exact Hx2.
  - assert (He : exponent x = e).
    { apply exponent_unique.
      - rewrite Hs1. unfold x. apply Qmult_le_compat_r; [ exact Hmq | lra ].
      - rewrite Hs2. unfold x. apply Qmult_lt_compat_r; [ exact Hp | ].
        rewrite <- Zlt_Qlt. lia. }
    destruct (binary64_binade Hx) as [E _]. rewrite E, He.
    assert (Hi : (x * 2 ^ (52 - e) == inject_Z m)%Q).
    { unfold x. rewrite <- Qmult_assoc.
      rewrite (Qmult_comm (2 ^ (e - 52))), two_power_cancel. ring. }
    rewrite (round_half_even_comp Hi), round_half_even_Z. reflexivity.
Qed.

Lemma Qfloor_unique (q : Q) (n : Z) :
  (inject_Z n <= q)%Q -> (q < inject_Z (n + 1))%Q -> Qfloor q = n.
Proof.
  intros H1 H2. pose proof (Qfloor_le q) as H3. pose proof (Qlt_floor q) as H4.
  assert (Ha : (inject_Z n < inject_Z (Qfloor q + 1))%Q) by lra.
  assert (Hb : (inject_Z (Qfloor q) < inject_Z (n + 1))%Q) by lra.
  rewrite <- Zlt_Qlt in Ha, Hb. lia.
Qed.

Lemma round_half_even_opp (q : Q) :
  round_half_even (- q) = - round_half_even q.
Proof.
  pose proof (Qfloor_le q) as H1. pose proof (Qlt_floor q) as H2.
  set (f := Qfloor q) in *.
  rewrite inject_Z_plus in H2. change (inject_Z 1) with 1%Q in H2.
  destruct (Qeq_dec q (inject_Z f)) as [E | E].
  - rewrite (round_half_even_comp E), round_half_even_Z.
    assert (E' : (- q == inject_Z (- f))%Q).
    { rewrite E, inject_Z_opp. reflexivity. }
    rewrite (round_half_even_comp E'), round_half_even_Z. reflexivity.
  - assert (Hlt : (inject_Z f < q)%Q).
    { destruct (Qlt_le_dec (inject_Z f) q) as [H | H]; [ exact H | ].
      exfalso. apply E. lra. }
    assert (Hf : Qfloor (- q) = - f - 1).
    { apply Qfloor_unique.
      - unfold Z.sub. rewrite inject_Z_plus, inject_Z_opp.
        change (inject_Z (- (1))) with (- (1))%Q. lra.
      - replace (- f - 1 + 1) with (- f) by lia. rewrite inject_Z_opp. lra. }
    assert (Hev : Z.even (- f - 1) = negb (Z.even f)).
    { replace (- f - 1) with (- (Z.succ f)) by lia.
      rewrite Z.even_opp, Z.even_succ. symmetry. apply Z.negb_even. }
    unfold round_half_even. rewrite Hf. fold f. rewrite Hev.
    assert (Hi : (inject_Z (- f - 1) == - inject_Z f - 1)%Q).
    { unfold Z.sub. rewrite inject_Z_plus, inject_Z_opp.
      change (inject_Z (- (1))) with (- (1))%Q. ring. }
    destruct (Qle_bool (- q - inject_Z (- f - 1)) (1 # 2)) eqn:E1,
      (Qle_bool (q - inject_Z f) (1 # 2)) eqn:E2,
      (Qeq_bool (- q - inject_Z (- f - 1)) (1 # 2)) eqn:E3,
      (Qeq_bool (q - inject_Z f) (1 # 2)) eqn:E4;
      try (destruct (Z.even f); simpl; lia); try lia;
      repeat match goal with
             | H : Qeq_bool _ _ = true |- _ => apply Qeq_bool_iff in H
             | H : Qeq_bool _ _ = false |- _ => apply Qeq_bool_neq in H
             | H : Qle_bool _ _ = true |- _ => apply Qle_bool_iff in H
             | H : Qle_bool _ _ = false |- _ => apply Qle_bool_false in H
             end; exfalso; rewrite ?Hi in *; lra.
Qed.

Lemma binary64_opp (q : Q) : binary64 (- q) = (- binary64 q)%Q.
Proof.
  unfold binary64. rewrite Qred_opp.
  set (r := Qred q).
  assert (H0 : Qeq_bool (- r) 0 = Qeq_bool r 0).
  { destruct (Qeq_bool r 0) eqn:E.
    - apply Qeq_bool_iff in E. apply Qeq_bool_iff. rewrite E. reflexivity.
    - apply Qeq_bool_neq in E. apply Qeq_bool_neq_false. intro E'. apply E.
      lra. }
  rewrite H0. destruct (Qeq_bool r 0); [ reflexivity | ]. cbv zeta.
  assert (Ha : Qabs (- r) = Qabs r).
  { destruct r as [[ | n | n] d]; reflexivity. }
  rewrite Ha. set (e := exponent (Qabs r)).
  assert (Hm : (- r * 2 ^ (52 - e) == - (r * 2 ^ (52 - e)))%Q) by ring.
  rewrite (round_half_even_comp Hm), round_half_even_opp.
  rewrite <- Qred_opp. apply Qred_complete.
  rewrite inject_Z_opp. ring.
Qed.


Lemma binary64_idem_pos (q : Q) :
  (0 < q)%Q -> (binary64 (binary64 q) == binary64 q)%Q.
Proof.
  intro Hq. destruct (binary64_binade Hq) as [E Hm].
  rewrite (binary64_comp E). rewrite E. apply binary64_significand. exact Hm.
Qed.

Lemma binary64_mono_nonneg (q q' : Q) :
  (0 <= q)%Q -> (q <= q')%Q -> (binary64 q <= binary64 q')%Q.
Proof.
  intros Hq Hle.
  destruct (Qeq_dec q 0) as [E0 | E0].
  - rewrite (binary64_zero E0). apply binary64_nonneg. lra.
  - assert (Hq0 : (0 < q)%Q).
    { destruct (Qlt_le_dec 0 q) as [H | H]; [ exact H | ].
      exfalso. apply E0. lra. }
    assert (Hq'0 : (0 < q')%Q) by lra.
    pose proof (exponent_mono Hq0 Hle) as He.
    destruct (Z.eq_dec (exponent q) (exponent q')) as [Ee | Ee].
    + destruct (binary64_binade Hq0) as [E _].
      destruct (binary64_binade Hq'0) as [E' _].
      rewrite E, E', <- Ee.
      pose proof (two_power_pos (exponent q - 52)) as Hp.
      pose proof (two_power_pos (52 - exponent q)) as Hp'.
      apply Qmult_le_compat_r; [ | lra ].
      rewrite <- Zle_Qle. apply round_half_even_mono.
      apply Qmult_le_compat_r; [ exact Hle | lra ].
    + destruct (binary64_bounds Hq0) as [_ H1].
      destruct (binary64_bounds Hq'0) as [H2 _].
      apply Qle_trans with (2 ^ (exponent q + 1))%Q; [ exact H1 | ].
      apply Qle_trans with (2 ^ exponent q')%Q; [ | exact H2 ].
      apply Qpower_le_compat_l; [ lia | discriminate ].
Qed.

Lemma binary64_idem_eq (q : Q) : (binary64 (binary64 q) == binary64 q)%Q.
Proof.
  destruct (Q_dec q 0) as [[Hneg | Hpos] | E].
  - assert (Hq : (q == - - q)%Q) by ring.
    rewrite (binary64_comp Hq). rewrite (binary64_opp (- q)).
    rewrite (binary64_opp (binary64 (- q))).
    rewrite binary64_idem_pos; [ reflexivity | lra ].
  - apply binary64_idem_pos. exact Hpos.
  - rewrite (binary64_zero E). reflexivity.
Qed.

Lemma binary64_idem (q : Q) : binary64 (binary64 q) = binary64 q.
Proof.
  transitivity (Qred (binary64 (binary64 q)));
    [ symmetry; apply binary64_canon | ].
  transitivity (Qred (binary64 q)); [ | apply binary64_canon ].
  apply Qred_complete, binary64_idem_eq.
Qed.


Lemma binary64_mono (q q' : Q) :
  (q <= q')%Q -> (binary64 q <= binary64 q')%Q.
Proof.
  intro H. destruct (Qlt_le_dec q 0) as [Hq | Hq].
  - destruct (Qlt_le_dec q' 0) as [Hq' | Hq'].
    + assert (E : (q == - - q)%Q) by ring.
      assert (E' : (q' == - - q')%Q) by ring.
      rewrite (binary64_comp E), (binary64_comp E').
      rewrite (binary64_opp (- q)), (binary64_opp (- q')).
      apply Qopp_le_compat. apply binary64_mono_nonneg; lra.
    + apply Qle_trans with 0%Q;
        [ apply binary64_nonpos; lra | apply binary64_nonneg; exact Hq' ].
  - apply binary64_mono_nonneg; assumption.
Qed.

(** ** Rounding to two decimal places *)

Lemma round2_comp (q q' : Q) : (q == q')%Q -> round2 q = round2 q'.
Proof.
  intro H. unfold round2.
  rewrite (@round_half_even_comp (q * 100)%Q (q' * 100)%Q);
    [ reflexivity | rewrite H; reflexivity ].
Qed.





Section MoreComparatorProperties.

Variable py_float : string -> option pyfloat.
Variable str_number : pyval -> string.

Local Abbreviation parse_quantiles := (parse_quantiles py_float str_number).
Local Abbreviation parse_actual := (parse_actual py_float).
Local Abbreviation compare_metric := (compare_metric py_float str_number).

(** The row built from four finite values, with the status and the
    deviation the tests decide. *)
Lemma compare_metric_finite_row (column : string) (fv av dv : pyval)
    (p l u a : Q) :
  fst (parse_quantiles fv) = Ok (Fin p, Fin l, Fin u) ->
  parse_actual av = Fin a ->
  exists s d,
    fst (classify (Fin p) (Fin l) (Fin u) (Fin a)) = Ok (s, d) /\
    fst (compare_metric column fv av dv)
    = Ok (mkResult (date_entry dv) column (round_half_even a)
            (round_half_even p) (round_half_even l) (round_half_even u)
            s (py_round2 d)).
Proof.
  intros Hq Ha.
  destruct (fst (classify (Fin p) (Fin l) (Fin u) (Fin a)))
    as [[s d] | e] eqn:Hc.
  - exists s, d. split; [ reflexivity | ].
    apply compare_metric_finite with (1 := Hq) (2 := Ha) (3 := Hc).
  - rewrite classify_finite in Hc. discriminate Hc.
Qed.

(** X1.  The comparison of one metric returns a row exactly when the three
    parsed forecast values and the converted actual value are finite; with
    an infinite or not-a-number value among them it raises. *)
Theorem compare_metric_returns_iff_finite (column : string)
    (fv av dv : pyval) :
  (exists r, fst (compare_metric column fv av dv) = Ok r) <->
  (exists p l u a,
     fst (parse_quantiles fv) = Ok (Fin p, Fin l, Fin u) /\
     parse_actual av = Fin a).
Proof.
  split.
  - intros (r & Hr). exact (compare_metric_ok_finite _ _ _ _ _ _ Hr).
  - intros (p & l & u & a & Hq & Ha).
    destruct (compare_metric_finite_row column fv av dv Hq Ha)
      as (s & d & _ & Hrow).
    eexists. exact Hrow.
Qed.


(** X3.  A returned row that is not an anomaly has deviation 0: the
    deviation of a row with status IN_RANGE or NO_FORECAST is 0. *)
Theorem deviation_zero_unless_anomaly (column : string) (fv av dv : pyval)
    (r : result_row) :
  fst (compare_metric column fv av dv) = Ok r ->
  status r = IN_RANGE \/ status r = NO_FORECAST ->
  deviation_pct r = Fin 0.
Proof.
  intros Hr Hs.
  destruct (compare_metric_ok_finite _ _ _ _ _ _ Hr)
    as (p & l & u & a & Hq & Ha).
  pose proof (classify_finite p l u a) as Hc.
  destruct (Qeq_bool l 0 && Qeq_bool u 0 && Qeq_bool p 0);
    [ | destruct (Qle_bool l a) eqn:Ela, (Qle_bool a u) eqn:Eau ];
    simpl in Hc;
    (erewrite compare_metric_finite in Hr;
     [ | eassumption | eassumption | rewrite Hc; reflexivity ]);
    injection Hr as <-; simpl in *;
    try reflexivity; destruct Hs; discriminate.
Qed.






(** The values parsed from a forecast cell are floats: rounding them again
    changes nothing. *)
Lemma quantile_at_float (parts : list string) (idx : nat) (q : Q) :
  quantile_at py_float parts idx = Some (Fin q) -> binary64 q = q.
Proof.
  unfold quantile_at, float_of_str.
  destruct (idx <? List.length parts)%nat.
  - destruct (py_float (nth idx parts ""%string)) as [[x | | | ] | ];
      simpl; intro H; try discriminate H.
    injection H as <-. apply binary64_idem.
  - intro H. injection H as <-. reflexivity.
Qed.

Lemma parse_quantiles_floats (fv : pyval) (p l u : Q) :
  fst (parse_quantiles fv) = Ok (Fin p, Fin l, Fin u) ->
  binary64 p = p /\ binary64 l = l /\ binary64 u = u.
Proof.
  unfold ForecastActualComparator.parse_quantiles. cbv zeta.
  set (parts := split "|" (py_str str_number fv)).
  destruct (quantile_at py_float parts QUANTILE_POINT_IDX) as [p' | ] eqn:Ep;
    [ destruct (quantile_at py_float parts QUANTILE_Q10_IDX)
        as [l' | ] eqn:El;
      [ destruct (quantile_at py_float parts QUANTILE_Q90_IDX)
          as [u' | ] eqn:Eu | ] | ].
  - destruct (List.length parts <? EXPECTED_QUANTILE_COUNT)%nat; simpl;
      intro H; injection H as -> -> ->;
      repeat split; eapply quantile_at_float; eassumption.
  - simpl. intro H. injection H as <- <- <-. repeat split.
  - simpl. intro H. injection H as <- <- <-. repeat split.
  - simpl. intro H. injection H as <- <- <-. repeat split.
Qed.

(** An actual value of 0.0 under a positive lower bound. *)
Lemma zero_actual_below (column : string) (fv av dv : pyval) (p l u : Q) :
  fst (parse_quantiles fv) = Ok (Fin p, Fin l, Fin u) ->
  parse_actual av = fzero ->
  (0 < l)%Q ->
  fst (compare_metric column fv av dv)
  = Ok (mkResult (date_entry dv) column 0 (round_half_even p)
          (round_half_even l) (round_half_even u) BELOW_P10 (Fin 100)).
Proof.
  intros Hq Ha Hl.
  assert (Hc : fst (classify (Fin p) (Fin l) (Fin u) (Fin 0))
               = Ok (BELOW_P10,
                     Fin (binary64 (binary64 (binary64 (l - 0) / l) * 100)))).
  { rewrite classify_finite.
    assert (El : Qeq_bool l 0 = false)
      by (apply Qeq_bool_neq_false; intro; lra).
    assert (Ela : Qle_bool l 0 = false).
    { destruct (Qle_bool l 0) eqn:E; [ | reflexivity ].
      apply Qle_bool_iff in E. lra. }
    rewrite El, Ela. reflexivity. }
  rewrite (compare_metric_finite py_float str_number column fv av dv
             Hq Ha Hc).
  simpl. f_equal. f_equal. f_equal.
  destruct (parse_quantiles_floats fv Hq) as (_ & Hfl & _).
  assert (H1 : binary64 (l - 0) = l).
  { rewrite <- Hfl at 2. apply binary64_comp. ring. }
  assert (H2 : binary64 (l / l) = 1%Q).
  { transitivity (binary64 1); [ apply binary64_comp; field; lra | ].
    vm_compute. reflexivity. }
  rewrite H1, H2. vm_compute. reflexivity.
Qed.

(** X5.  An actual value that is missing or not numeric counts as 0.0: with
    a finite forecast whose lower bound is positive, the row has actual 0,
    status BELOW_P10 and deviation 100. *)
Theorem non_numeric_actual_is_full_drop (column : string) (fv av dv : pyval)
    (p l u : Q) :
  fst (parse_quantiles fv) = Ok (Fin p, Fin l, Fin u) ->
  av = VNone \/ (exists s, av = VStr s /\ py_float s = None) ->
  (0 < l)%Q ->
  exists r,
    fst (compare_metric column fv av dv) = Ok r /\
    actual r = 0 /\ status r = BELOW_P10 /\ deviation_pct r = Fin 100.
Proof.
  intros Hq Hav Hl.
  assert (Ha : parse_actual av = fzero).
  { destruct Hav as [-> | (s & -> & Hs)];
      unfold ForecastActualComparator.parse_actual, float_of, float_of_str;
      [ reflexivity | rewrite Hs; reflexivity ]. }
  eexists. split; [ apply zero_actual_below; eassumption | ].
  repeat split.
Qed.

End MoreComparatorProperties.

(* ===================================================================== *)
(** * Further properties of the preparation of the tables *)
(* ===================================================================== *)

Lemma in_list_false (c : string) (l : list string) :
  in_list c l = false <-> ~ In c l.
Proof.
  rewrite <- in_list_true. destruct (in_list c l); split; intro H;
    try reflexivity; try discriminate; try (intro; discriminate).
  exfalso. apply H. reflexivity.
Qed.

Lemma standardize_columns_cell (df : DataFrame) (cols : list string)
    (fill : pyval) (r : Row) (c : string) :
  In r (rows (standardize_columns df cols fill)) ->
  In c cols ->
  exists r0,
    In r0 (rows df) /\ label r = label r0 /\
    cell r c =
    replace_None fill
      (fillna fill (if in_list c (columns df) then cell r0 c else fill)).
Proof.
  unfold standardize_columns. simpl. intros Hr Hc.
  apply in_map_iff in Hr. destruct Hr as (r0 & <- & Hr0).
  exists r0. split; [ exact Hr0 | ]. split; [ reflexivity | ]. simpl.
  assert (Hin : in_list c cols = true) by (apply in_list_true; exact Hc).
  rewrite Hin.
  destruct (in_list c (columns df)) eqn:E.
  - assert (Hm : in_list c (filter (fun col => negb (in_list col (columns df)))
                              cols) = false).
    { apply in_list_false. intro H. apply filter_In in H.
      destruct H as [_ H]. rewrite E in H. discriminate H. }
    rewrite Hm. reflexivity.
  - assert (Hm : in_list c (filter (fun col => negb (in_list col (columns df)))
                              cols) = true).
    { apply in_list_true. apply filter_In. split; [ exact Hc | ].
      rewrite E. reflexivity. }
    rewrite Hm. reflexivity.
Qed.

Lemma replaced_not_missing (fill v : pyval) :
  is_missing fill = false ->
  is_missing (replace_None fill (fillna fill v)) = false.
Proof.
  intro Hf.
  assert (Hfill : replace_None fill fill = fill).
  { destruct fill as [ | z | f | s]; try reflexivity.
    simpl in *. rewrite Hf. reflexivity. }
  destruct v as [ | z | [q | | | ] | s]; simpl; try rewrite Hfill;
    try exact Hf; try reflexivity.
  destruct (String.eqb s "None") eqn:E; [ exact Hf | simpl; exact E ].
Qed.

Lemma standardize_columns_columns (df : DataFrame) (cols : list string)
    (fill : pyval) (c : string) :
  In c cols \/ In c (columns df) ->
  In c (columns (standardize_columns df cols fill)).
Proof.
  unfold standardize_columns. simpl. intro H. apply in_or_app.
  destruct (in_list c (columns df)) eqn:E.
  - left. apply in_list_true. exact E.
  - destruct H as [H | H].
    + right. apply filter_In. split; [ exact H | ]. rewrite E. reflexivity.
    + apply in_list_true in H. congruence.
Qed.

(** X6.  After [_standardize_columns], with the fill value of the forecast
    table as with that of the actual table, the rows keep their labels,
    every listed column and every column of the table is a column of the
    result, and no cell of a listed column is missing: none is [None],
    not-a-number or the string 'None'. *)
Theorem standardized_columns_have_no_missing_cell (df : DataFrame)
    (cols : list string) :
  let f := standardize_forecast_columns df cols in
  let a := standardize_actual_columns df cols in
  (index f = index df /\ index a = index df) /\
  (forall c, In c cols \/ In c (columns df) ->
             In c (columns f) /\ In c (columns a)) /\
  (forall r c, In c cols -> In r (rows f) \/ In r (rows a) ->
               is_missing (cell r c) = false).
Proof.
  intros f a. split; [ | split ].
  - split; apply index_standardize_columns.
  - intros c H. split; apply standardize_columns_columns; exact H.
  - intros r c Hc [Hr | Hr];
      destruct (standardize_columns_cell _ _ _ _ _ Hr Hc)
        as (r0 & _ & _ & ->);
      apply replaced_not_missing; reflexivity.
Qed.

(** ** The column union *)

Lemma insert_str_in (x y : string) (l : list string) :
  In y (insert_str x l) <-> y = x \/ In y l.
Proof.
  induction l as [ | z l IH]; simpl.
  - split; intros [H | H]; auto.
  - destruct (String.leb x z); simpl; [ | rewrite IH ];
      split; intro H; intuition auto.
Qed.

Lemma sorted_str_in (y : string) (l : list string) :
  In y (sorted_str l) <-> In y l.
Proof.
  induction l as [ | x l IH]; simpl; [ reflexivity | ].
  rewrite insert_str_in, IH. split; intros [H | H]; auto.
Qed.

Lemma insert_str_nodup (x : string) (l : list string) :
  ~ In x l -> NoDup l -> NoDup (insert_str x l).
Proof.
  induction l as [ | z l IH]; simpl; intros Hx Hl.
  - constructor; [ intros [] | constructor ].
  - destruct (String.leb x z).
    + constructor; [ exact Hx | exact Hl ].
    + inversion Hl as [ | z' l' Hz Hl' ]; subst.
      constructor.
      * rewrite insert_str_in. intros [-> | H]; [ | contradiction ].
        apply Hx. left. reflexivity.
      * apply IH; [ | exact Hl' ]. intro H. apply Hx. right. exact H.
Qed.

Lemma sorted_str_nodup (l : list string) : NoDup l -> NoDup (sorted_str l).
Proof.
  induction 1 as [ | x l Hx Hl IH]; simpl; [ constructor | ].
  apply insert_str_nodup; [ | exact IH ].
  rewrite sorted_str_in. exact Hx.
Qed.

Lemma insert_str_sorted (x : string) (l : list string) :
  Sorted (fun a b => String.leb a b = true) l ->
  Sorted (fun a b => String.leb a b = true) (insert_str x l).
Proof.
  induction 1 as [ | z l Hl IH Hz]; simpl.
  - constructor; constructor.
  - destruct (String.leb x z) eqn:E.
    + constructor; [ constructor; assumption | constructor; exact E ].
    + constructor; [ exact IH | ].
      assert (Hzx : String.leb z x = true).
      { destruct (String.leb_total x z) as [H | H]; [ congruence | exact H ]. }
      destruct l as [ | w l]; simpl.
      * constructor. exact Hzx.
      * destruct (String.leb x w); constructor; [ exact Hzx | ].
        inversion Hz; assumption.
Qed.

Lemma sorted_str_sorted (l : list string) :
  Sorted (fun a b => String.leb a b = true) (sorted_str l).
Proof.
  induction l as [ | x l IH]; simpl; [ constructor | ].
  apply insert_str_sorted. exact IH.
Qed.

(** X7.  The columns compared by the detection are sorted, without
    repetition, and are exactly the columns of the forecast table or of the
    pivoted actual table after [reset_index] that are not excluded; each of
    them is a column of both standardized tables.  The column that
    [reset_index] adds bears the name of the pivot's index, and for an
    index without a name it is 'index', or 'level_0' when the pivot has a
    column 'index'. *)
Theorem all_columns_sorted_union (self : ForecastActualComparator.t)
    (forecast_df actual_df forecast_std actual_std : DataFrame)
    (all_columns : list string) :
  prepare_data self forecast_df actual_df
    = Ok (forecast_std, actual_std, all_columns) ->
  let pivot := pivot_table (transformer self) actual_df in
  NoDup all_columns /\
  Sorted (fun a b => String.leb a b = true) all_columns /\
  (forall c,
     In c all_columns <->
     (In c (columns forecast_df) \/ c = index_column pivot \/
      In c (columns pivot)) /\
     ~ In c (exclude_columns self)) /\
  (forall c, In c all_columns ->
             In c (columns forecast_std) /\ In c (columns actual_std)) /\
  ~ In (index_column pivot) (columns pivot) /\
  (forall name, index_name pivot = Some name -> index_column pivot = name) /\
  (index_name pivot = None ->
   (~ In "index"%string (columns pivot) /\
    index_column pivot = "index"%string) \/
   (In "index"%string (columns pivot) /\
    index_column pivot = "level_0"%string)).
Proof.
  intros H pivot. unfold prepare_data, reset_index in H. cbv zeta in H.
  fold pivot in H.
  destruct (in_list (index_column pivot) (columns pivot)) eqn:Hfresh;
    [ discriminate | ].
  injection H as <- <- <-.
  split; [ apply sorted_str_nodup; apply NoDup_nodup | ].
  split; [ apply sorted_str_sorted | ]. split; [ | split; [ | split ] ].
  - intro c. rewrite sorted_str_in, nodup_In, in_app_iff.
    unfold metric_columns. rewrite !filter_In. simpl.
    rewrite negb_true_iff, in_list_false.
    split; intro H; intuition (auto; congruence).
  - intros c Hc. split; apply standardize_columns_columns; left; exact Hc.
  - apply in_list_false. exact Hfresh.
  - split.
    + intros name Hname. unfold index_column. rewrite Hname. reflexivity.
    + intro Hnone. unfold index_column. rewrite Hnone.
      destruct (in_list "index" (columns pivot)) eqn:E.
      * right. split; [ apply in_list_true; exact E | reflexivity ].
      * left. split; [ apply in_list_false; exact E | reflexivity ].
Qed.

(** ** Metrics seen on one side only *)

Section OneSidedMetrics.

Variable py_float : string -> option pyfloat.
Variable str_number : pyval -> string.

Local Abbreviation parse_quantiles := (parse_quantiles py_float str_number).
Local Abbreviation parse_actual := (parse_actual py_float).
Local Abbreviation compare_metric := (compare_metric py_float str_number).

Lemma standardize_columns_absent (df : DataFrame) (cols : list string)
    (fill : pyval) (r : Row) (c : string) :
  is_missing fill = false ->
  In r (rows (standardize_columns df cols fill)) ->
  In c cols -> ~ In c (columns df) ->
  cell r c = fill.
Proof.
  intros Hfill Hr Hc Hn.
  destruct (standardize_columns_cell _ _ _ _ _ Hr Hc) as (r0 & _ & _ & ->).
  apply in_list_false in Hn. rewrite Hn.
  destruct fill as [ | z | [q | | | ] | s]; try discriminate; try reflexivity.
  simpl in *. rewrite Hfill. reflexivity.
Qed.

(** X8.  A metric that the forecast table lacks is reported NO_FORECAST:
    its standardized forecast cell is the string of ten zeros, and, the
    string "0" converting to 0.0, the comparison with any finite actual
    value returns a row with forecast and bounds 0, status NO_FORECAST and
    deviation 0. *)
Theorem metric_without_forecast_is_no_forecast (df : DataFrame)
    (cols : list string) (r : Row) (c : string) (av dv : pyval) (a : Q) :
  py_float "0" = Some fzero ->
  In r (rows (standardize_forecast_columns df cols)) ->
  In c cols -> ~ In c (columns df) ->
  parse_actual av = Fin a ->
  cell r c = VStr "0|0|0|0|0|0|0|0|0|0" /\
  fst (compare_metric c (cell r c) av dv)
  = Ok (mkResult (date_entry dv) c (round_half_even a) 0 0 0
          NO_FORECAST (Fin 0)).
Proof.
  intros H0 Hr Hc Hn Ha.
  assert (Hcell : cell r c = VStr "0|0|0|0|0|0|0|0|0|0").
  { apply (standardize_columns_absent df cols); auto. }
  split; [ exact Hcell | ]. rewrite Hcell.
  assert (Hq : fst (parse_quantiles (VStr "0|0|0|0|0|0|0|0|0|0"))
               = Ok (Fin 0, Fin 0, Fin 0)).
  { unfold ForecastActualComparator.parse_quantiles, quantile_at,
      float_of_str. simpl.
    rewrite H0. reflexivity. }
  rewrite (compare_metric_finite py_float str_number c _ av dv Hq Ha
             (s := NO_FORECAST) (d := fzero));
    [ reflexivity | rewrite classify_finite; reflexivity ].
Qed.

(** X9.  A metric that the pivoted actual table lacks is compared with the
    actual value 0.0: against a finite forecast with a positive lower bound
    the row has actual 0, status BELOW_P10 and deviation 100. *)
Theorem metric_without_actual_is_full_drop (df : DataFrame)
    (cols : list string) (r : Row) (c : string) (fv dv : pyval)
    (p l u : Q) :
  In r (rows (standardize_actual_columns df cols)) ->
  In c cols -> ~ In c (columns df) ->
  fst (parse_quantiles fv) = Ok (Fin p, Fin l, Fin u) ->
  (0 < l)%Q ->
  cell r c = VFloat fzero /\
  fst (compare_metric c fv (cell r c) dv)
  = Ok (mkResult (date_entry dv) c 0 (round_half_even p)
          (round_half_even l) (round_half_even u) BELOW_P10 (Fin 100)).
Proof.
  intros Hr Hc Hn Hq Hl.
  assert (Hcell : cell r c = VFloat fzero).
  { apply (standardize_columns_absent df cols); auto. }
  split; [ exact Hcell | ]. rewrite Hcell.
  apply zero_actual_below; [ exact Hq | reflexivity | exact Hl ].
Qed.

End OneSidedMetrics.

(* ===================================================================== *)
(** * Further properties of the post-processing of the result rows *)
(* ===================================================================== *)

(** ** The status and deviation filter of the comparator *)

Lemma positive_not_below_zero (x : pyfloat) :
  fltb fzero x = true -> fleb x fzero = false.
Proof.
  destruct x as [q | | | ]; simpl; try discriminate; try reflexivity.
  destruct (Qle_bool q 0); [ discriminate | reflexivity ].
Qed.

Lemma filter_anomalies_body (self : ForecastActualComparator.t)
    (df : list result_row) :
  filter_anomalies self df =
  let df1 :=
    if return_only_anomalies self
    then filter (fun r => status_is_anomaly (status r)) df
    else df in
  if fltb fzero (min_deviation_threshold self)
  then filter (fun r => status_in_range (status r)
                        || fleb (min_deviation_threshold self)
                                (deviation_pct r))
              df1
  else df1.
Proof.
  destruct df as [ | r df]; [ | reflexivity ].
  cbv zeta. unfold filter_anomalies.
  destruct (return_only_anomalies self),
    (fltb fzero (min_deviation_threshold self)); reflexivity.
Qed.

Section ResultFilters.

Variable py_float : string -> option pyfloat.
Variable str_number : pyval -> string.

Local Abbreviation compare_metric := (compare_metric py_float str_number).

(** X10.  With a positive minimum deviation, [_filter_anomalies] drops
    every row without forecast and, unless only anomalies are asked for,
    keeps every row in range: on rows returned by the comparison of one
    metric, whose deviation is 0 for both statuses, the test on the
    deviation fails and only the status IN_RANGE is exempt from it. *)
Theorem positive_minimum_drops_no_forecast
    (self : ForecastActualComparator.t) (df : list result_row) :
  fltb fzero (min_deviation_threshold self) = true ->
  (forall r, In r df ->
     exists c fv av dv, fst (compare_metric c fv av dv) = Ok r) ->
  forall r, In r df ->
    (status r = NO_FORECAST -> ~ In r (filter_anomalies self df)) /\
    (status r = IN_RANGE -> return_only_anomalies self = false ->
     In r (filter_anomalies self df)).
Proof.
  intros Hpos Hrows r Hr.
  rewrite filter_anomalies_body. cbv zeta. rewrite Hpos.
  split.
  - intros Hs Hin. apply filter_In in Hin. destruct Hin as [_ Hkeep].
    rewrite Hs in Hkeep. simpl in Hkeep.
    destruct (Hrows r Hr) as (c & fv & av & dv & Hrow).
    assert (Hdev : deviation_pct r = Fin 0).
    { destruct (compare_metric_ok_finite _ _ _ _ _ _ Hrow)
        as (p & l & u & a & Hq & Ha).
      pose proof (classify_finite p l u a) as Hc.
      destruct (Qeq_bool l 0 && Qeq_bool u 0 && Qeq_bool p 0);
        [ | destruct (Qle_bool l a) eqn:Ela, (Qle_bool a u) eqn:Eau ];
        simpl in Hc;
        (erewrite compare_metric_finite in Hrow;
         [ | eassumption | eassumption | rewrite Hc; reflexivity ]);
        injection Hrow as <-; simpl in *;
        try reflexivity; discriminate. }
    rewrite Hdev in Hkeep. change (Fin 0) with fzero in Hkeep.
    rewrite (positive_not_below_zero _ Hpos) in Hkeep. discriminate.
  - intros Hs Hall. rewrite Hall. apply filter_In.
    split; [ exact Hr | ]. rewrite Hs. reflexivity.
Qed.

End ResultFilters.

(** ** The split of a metric name into dimensions *)

Lemma contains_underscore_cons (c : ascii) (p : string) :
  contains "_" (String c p) = false ->
  Ascii.eqb c "_" = false /\ contains "_" p = false.
Proof.
  intro H.
  cbn [contains prefix] in H.
  destruct (ascii_dec "_" c) as [E | E].
  - destruct p; cbn [prefix] in H; discriminate H.
  - split; [ | exact H ].
    apply Ascii.eqb_neq. intro E'. apply E. symmetry. exact E'.
Qed.

Lemma split_no_underscore (p : string) :
  contains "_" p = false -> split "_" p = [p].
Proof.
  induction p as [ | c p IH]; intro H; [ reflexivity | ].
  apply contains_underscore_cons in H. destruct H as [Hc Hp].
  simpl. rewrite Hc, (IH Hp). reflexivity.
Qed.

Lemma split_append_underscore (p rest : string) :
  contains "_" p = false ->
  split "_" (p ++ String "_" rest) = p :: split "_" rest.
Proof.
  induction p as [ | c p IH]; intro H; [ reflexivity | ].
  apply contains_underscore_cons in H. destruct H as [Hc Hp].
  simpl. rewrite Hc, (IH Hp). reflexivity.
Qed.

(** Splitting what was joined with underscores gives the parts back. *)
Lemma split_concat (parts : list string) :
  parts <> [] ->
  Forall (fun p => contains "_" p = false) parts ->
  split "_" (String.concat "_" parts) = parts.
Proof.
  induction parts as [ | p parts IH]; intros Hne Hall; [ contradiction | ].
  inversion Hall as [ | p' parts' Hp Hparts]; subst.
  destruct parts as [ | q parts].
  - simpl. apply split_no_underscore. exact Hp.
  - change (String.concat "_" (p :: q :: parts))
      with (p ++ String "_" (String.concat "_" (q :: parts)))%string.
    rewrite (split_append_underscore p _ Hp).
    rewrite IH; [ reflexivity | discriminate | exact Hparts ].
Qed.

Lemma fold_max_ge (l : list nat) (n : nat) :
  In n l -> (n <= fold_right Nat.max 0 l)%nat.
Proof.
  induction l as [ | x l IH]; intro H; [ contradiction | ].
  simpl. destruct H as [E | Hin].
  - subst x. lia.
  - specialize (IH Hin). lia.
Qed.

Lemma dimensions_of_parts (names parts pre : list string) (shape : nat) :
  List.length parts = List.length names ->
  (List.length pre + List.length names <= shape)%nat ->
  map (fun idn : nat * string =>
         (snd idn,
          if (fst idn <? shape)%nat
          then nth_error (pre ++ parts) (fst idn)
          else None))
      (combine (seq (List.length pre) (List.length names)) names)
  = combine names (map (@Some string) parts).
Proof.
  revert parts pre. induction names as [ | nm names IH];
    intros parts pre Hlen Hshape.
  - reflexivity.
  - destruct parts as [ | p parts]; [ discriminate | ].
    simpl in Hlen, Hshape. injection Hlen as Hlen.
    simpl. f_equal.
    + assert (E : (List.length pre <? shape)%nat = true)
        by (apply Nat.ltb_lt; lia).
      rewrite E. rewrite nth_error_app2 by lia.
      rewrite Nat.sub_diag. reflexivity.
    + specialize (IH parts (pre ++ [p]) Hlen).
      rewrite length_app in IH. simpl in IH.
      rewrite Nat.add_1_r in IH. rewrite <- app_assoc in IH. simpl in IH.
      apply IH. lia.
Qed.

(** X11.  Splitting gives back the dimension values a metric name was
    joined from: when the comparator has dimension names and the metric of
    a row is the join with underscores of as many parts, none of which
    contains an underscore, [_split_metric_to_dimensions] assigns to the
    row each part under its dimension name, whatever the other rows are;
    the rows themselves are kept, in order. *)
Theorem split_recovers_joined_dimensions
    (self : ForecastActualComparator.t) (names parts : list string)
    (df : list result_row) (r : result_row) :
  dimension_names self = Some names -> names <> [] ->
  In r df ->
  metric r = String.concat "_" parts ->
  List.length parts = List.length names ->
  Forall (fun p => contains "_" p = false) parts ->
  map fst (split_metric_to_dimensions self df) = df /\
  In (r, combine names (map (@Some string) parts))
     (split_metric_to_dimensions self df).
Proof.
  intros Hnames Hne Hr Hmetric Hlen Hparts.
  unfold split_metric_to_dimensions. rewrite Hnames.
  destruct names as [ | nm names]; [ contradiction | ].
  set (nms := nm :: names) in *.
  split.
  - rewrite map_map. simpl. apply map_id.
  - apply in_map_iff. exists r. split; [ | exact Hr ].
    f_equal.
    assert (Hsplit : split "_" (metric r) = parts).
    { rewrite Hmetric. apply split_concat; [ | exact Hparts ].
      intro E. subst parts. discriminate Hlen. }
    rewrite Hsplit.
    apply (dimensions_of_parts nms parts [] Hlen).
    change (List.length (@nil string) + List.length nms)%nat
      with (List.length nms).
    rewrite <- Hlen. rewrite <- Hsplit.
    apply fold_max_ge. rewrite map_map. apply in_map_iff.
    exists r. split; [ reflexivity | exact Hr ].
Qed.

(* ===================================================================== *)
(** * Properties of the deviation filter *)
(* ===================================================================== *)

Lemma select_rows_again (test : Row -> result bool) (l kept : list Row) :
  select_rows test l = Ok kept -> select_rows test kept = Ok kept.
Proof.
  revert kept. induction l as [ | r l IH]; intros kept H; simpl in H.
  - injection H as <-. reflexivity.
  - destruct (test r) as [b | e] eqn:Er; [ | discriminate ].
    destruct (select_rows test l) as [k | e]; [ | discriminate ].
    injection H as <-. specialize (IH k eq_refl).
    destruct b; [ | exact IH ]. simpl. rewrite Er, IH. reflexivity.
Qed.

Lemma select_rows_filter (test : Row -> result bool) (p : Row -> bool)
    (l kept : list Row) :
  select_rows test l = Ok kept ->
  select_rows test (filter p l) = Ok (filter p kept).
Proof.
  revert kept. induction l as [ | r l IH]; intros kept H; simpl in H.
  - injection H as <-. reflexivity.
  - destruct (test r) as [b | e] eqn:Er; [ | discriminate ].
    destruct (select_rows test l) as [k | e]; [ | discriminate ].
    injection H as <-. specialize (IH k eq_refl).
    simpl. destruct (p r) eqn:Ep.
    + simpl. rewrite Er, IH. destruct b; simpl; [ rewrite Ep | ];
        reflexivity.
    + rewrite IH. destruct b; simpl; [ rewrite Ep | ]; reflexivity.
Qed.

Lemma select_rows_ext (f g : Row -> result bool) (l : list Row) :
  (forall r, In r l -> f r = g r) -> select_rows f l = select_rows g l.
Proof.
  induction l as [ | r l IH]; intro H; [ reflexivity | ].
  simpl. rewrite (H r (or_introl eq_refl)).
  rewrite IH; [ reflexivity | ].
  intros r' Hr'. apply H. right. exact Hr'.
Qed.

(** The two post-filters on a table that has the column they read. *)
Lemma deviation_process_rows (self : DeviationFilter.t)
    (i : option string)
    (cols : list string) (l : list Row) :
  in_list "deviation_pct" cols = true ->
  DeviationFilter.process self (mkDF i cols l) =
  match select_rows (DeviationFilter.keeps self (in_list "status" cols)) l with
  | Raise e => Raise e
  | Ok kept => Ok (mkDF i cols kept)
  end.
Proof.
  intro Hc. unfold DeviationFilter.process. cbn [rows columns index_name].
  rewrite Hc. unfold empty. cbn [rows columns].
  destruct l as [ | r l]; [ reflexivity | ].
  destruct cols as [ | c cols]; [ discriminate | ]. reflexivity.
Qed.

Lemma anomaly_process_rows (self : AnomalyFilter.t) (i : option string)
    (cols : list string) (l : list Row) :
  in_list "status" cols = true ->
  AnomalyFilter.process self (mkDF i cols l)
  = mkDF i cols (filter is_anomaly l).
Proof.
  intro Hc. unfold AnomalyFilter.process. cbn [rows columns index_name].
  rewrite Hc. unfold empty. cbn [rows columns].
  destruct l as [ | r l]; [ reflexivity | ].
  destruct cols as [ | c cols]; [ discriminate | ]. reflexivity.
Qed.

Lemma deviation_process_no_column (self : DeviationFilter.t)
    (df : DataFrame) :
  in_list "deviation_pct" (columns df) = false ->
  DeviationFilter.process self df = Ok df.
Proof.
  intro Hc. unfold DeviationFilter.process. rewrite Hc.
  rewrite orb_true_r. reflexivity.
Qed.

Lemma anomaly_process_no_column (self : AnomalyFilter.t) (df : DataFrame) :
  in_list "status" (columns df) = false ->
  AnomalyFilter.process self df = df.
Proof.
  intro Hc. unfold AnomalyFilter.process. rewrite Hc.
  rewrite orb_true_r. reflexivity.
Qed.

(** X12.  The deviation filter is idempotent: a table it returns is
    returned unchanged when filtered again. *)
Theorem deviation_process_idempotent (self : DeviationFilter.t)
    (results_df filtered : DataFrame) :
  DeviationFilter.process self results_df = Ok filtered ->
  DeviationFilter.process self filtered = Ok filtered.
Proof.
  destruct results_df as [i cols l].
  destruct (in_list "deviation_pct" cols) eqn:Hc.
  - rewrite (deviation_process_rows self i _ l Hc).
    destruct (select_rows _ l) as [kept | e] eqn:Hs; [ | discriminate ].
    intro H. injection H as <-.
    rewrite (deviation_process_rows self i _ kept Hc).
    rewrite (select_rows_again _ _ Hs). reflexivity.
  - rewrite (deviation_process_no_column self (mkDF i cols l) Hc).
    intro H. injection H as <-.
    apply deviation_process_no_column. exact Hc.
Qed.

(** X13.  The two post-filters commute: when the deviation filter returns
    a table, filtering by status first and by deviation next gives the
    table obtained by filtering by deviation first and by status next.
    (On a table the deviation filter rejects, the status filter may remove
    the offending rows first.) *)
Theorem deviation_and_status_filters_commute (self : DeviationFilter.t)
    (status_filter : AnomalyFilter.t) (results_df filtered : DataFrame) :
  DeviationFilter.process self results_df = Ok filtered ->
  DeviationFilter.process self (AnomalyFilter.process status_filter results_df)
  = Ok (AnomalyFilter.process status_filter filtered).
Proof.
  destruct results_df as [i cols l].
  destruct (in_list "status" cols) eqn:Hst,
           (in_list "deviation_pct" cols) eqn:Hdev.
  - rewrite (deviation_process_rows self i _ l Hdev).
    destruct (select_rows _ l) as [kept | e] eqn:Hs; [ | discriminate ].
    intro H. injection H as <-.
    rewrite !(anomaly_process_rows status_filter i _ _ Hst).
    rewrite (deviation_process_rows self i _ _ Hdev).
    rewrite (select_rows_filter _ is_anomaly _ Hs). reflexivity.
  - rewrite (deviation_process_no_column self (mkDF i cols l) Hdev).
    intro H. injection H as <-.
    apply deviation_process_no_column.
    rewrite (anomaly_process_rows status_filter i _ _ Hst). exact Hdev.
  - rewrite (anomaly_process_no_column status_filter (mkDF i cols l) Hst).
    rewrite (deviation_process_rows self i _ l Hdev).
    destruct (select_rows _ l) as [kept | e] eqn:Hs; [ | discriminate ].
    intro H. injection H as <-.
    rewrite (anomaly_process_no_column status_filter (mkDF i cols kept) Hst).
    reflexivity.
  - rewrite (anomaly_process_no_column status_filter (mkDF i cols l) Hst).
    rewrite (deviation_process_no_column self (mkDF i cols l) Hdev).
    intro H. injection H as <-.
    rewrite (anomaly_process_no_column status_filter (mkDF i cols l) Hst).
    reflexivity.
Qed.

Lemma anomaly_not_in_range (r : Row) :
  is_anomaly r = true ->
  pyval_eqb (cell r "status") (VStr "IN_RANGE") = false.
Proof.
  unfold is_anomaly, isin.
  destruct (cell r "status") as [ | z | f | s]; try discriminate.
  intro H. apply in_list_true in H. simpl in H.
  destruct H as [<- | [<- | []]]; reflexivity.
Qed.

(** X14.  After the status filter the flag [keep_in_range] of the
    deviation filter has no effect: the rows left are BELOW_P10 or
    ABOVE_P90, so both values of the flag give the same outcome. *)
Theorem keep_in_range_void_after_status_filter (minimum : pyfloat)
    (flag flag' : bool) (status_filter : AnomalyFilter.t)
    (results_df : DataFrame) :
  DeviationFilter.process
    (DeviationFilter.mkDeviationFilter minimum flag)
    (AnomalyFilter.process status_filter results_df)
  = DeviationFilter.process
      (DeviationFilter.mkDeviationFilter minimum flag')
      (AnomalyFilter.process status_filter results_df).
Proof.
  destruct results_df as [i cols l].
  destruct (in_list "deviation_pct" cols) eqn:Hdev.
  - destruct (in_list "status" cols) eqn:Hst.
    + rewrite (anomaly_process_rows status_filter i _ _ Hst).
      rewrite !(deviation_process_rows _ i _ _ Hdev). rewrite Hst.
      rewrite (select_rows_ext
                 (DeviationFilter.keeps
                    (DeviationFilter.mkDeviationFilter minimum flag) true)
                 (DeviationFilter.keeps
                    (DeviationFilter.mkDeviationFilter minimum flag') true));
        [ reflexivity | ].
      intros r Hr. apply filter_In in Hr. destruct Hr as [_ Hr].
      unfold DeviationFilter.keeps, DeviationFilter.at_least.
      cbn [DeviationFilter.min_deviation_pct DeviationFilter.keep_in_range].
      rewrite (anomaly_not_in_range r Hr).
      destruct (cell r "deviation_pct"), flag, flag'; reflexivity.
    + rewrite (anomaly_process_no_column status_filter (mkDF i cols l) Hst).
      rewrite !(deviation_process_rows _ i _ _ Hdev). rewrite Hst.
      apply f_equal with (f := fun x => match x with
                                        | Raise e => Raise e
                                        | Ok kept => Ok (mkDF i cols kept)
                                        end).
      apply select_rows_ext. intros r _.
      unfold DeviationFilter.keeps.
      cbn [DeviationFilter.keep_in_range]. rewrite !andb_false_r.
      reflexivity.
  - rewrite !deviation_process_no_column; try reflexivity;
      unfold AnomalyFilter.process;
      destruct (empty (mkDF i cols l)
                || negb (in_list "status" (columns (mkDF i cols l))));
      exact Hdev.
Qed.

(* ===================================================================== *)
(** * The filter of the comparator and the post-filters *)
(* ===================================================================== *)

Lemma select_rows_total (p : Row -> bool) (l : list Row) :
  select_rows (fun r => Ok (p r)) l = Ok (filter p l).
Proof.
  induction l as [ | r l IH]; [ reflexivity | ].
  simpl. rewrite IH. reflexivity.
Qed.

Lemma result_columns_read (results : list result_row) :
  results <> [] ->
  in_list "status" (result_columns results) = true /\
  in_list "deviation_pct" (result_columns results) = true.
Proof.
  destruct results as [ | r rest]; [ contradiction | ]. intros _.
  unfold result_columns.
  destruct (has_date r); [ split; reflexivity | ].
  destruct (existsb has_date rest); split; reflexivity.
Qed.

Lemma is_anomaly_result (k : pyval) (r : result_row) :
  is_anomaly (mkRow k (result_cells r)) = status_is_anomaly (status r).
Proof. unfold is_anomaly. simpl. destruct (status r); reflexivity. Qed.

Lemma keeps_result (minimum : pyfloat) (k : pyval) (r : result_row) :
  DeviationFilter.keeps (DeviationFilter.mkDeviationFilter minimum true)
    true (mkRow k (result_cells r))
  = Ok (status_in_range (status r) || fleb minimum (deviation_pct r)).
Proof.
  unfold DeviationFilter.keeps. simpl. destruct (status r); reflexivity.
Qed.

Lemma filter_result_rows (P : Row -> bool) (p : result_row -> bool)
    (results : list result_row) (s : nat) :
  (forall k r, P (mkRow k (result_cells r)) = p r) ->
  filter P
    (map (fun kr : nat * result_row =>
            mkRow (VInt (Z.of_nat (fst kr))) (result_cells (snd kr)))
         (combine (seq s (List.length results)) results))
  = map (fun kr : nat * result_row =>
           mkRow (VInt (Z.of_nat (fst kr))) (result_cells (snd kr)))
        (filter (fun kr => p (snd kr))
                (combine (seq s (List.length results)) results)).
Proof.
  intro H. revert s. induction results as [ | r results IH]; intro s;
    [ reflexivity | ].
  simpl. rewrite H. destruct (p r); simpl; rewrite IH; reflexivity.
Qed.

Lemma select_result_rows (minimum : pyfloat)
    (l : list (nat * result_row)) :
  select_rows
    (DeviationFilter.keeps
       (DeviationFilter.mkDeviationFilter minimum true) true)
    (map (fun kr : nat * result_row =>
            mkRow (VInt (Z.of_nat (fst kr))) (result_cells (snd kr)))
         l)
  = Ok (map (fun kr : nat * result_row =>
               mkRow (VInt (Z.of_nat (fst kr))) (result_cells (snd kr)))
            (filter (fun kr =>
                       status_in_range (status (snd kr))
                       || fleb minimum (deviation_pct (snd kr)))
                    l)).
Proof.
  induction l as [ | [k r] l IH]; [ reflexivity | ].
  cbn [map select_rows filter snd fst]. rewrite keeps_result, IH.
  destruct (status_in_range (status r) || fleb minimum (deviation_pct r));
    reflexivity.
Qed.

Lemma cells_of_numbered (p : result_row -> bool)
    (results : list result_row) (s : nat) :
  map cell
    (map (fun kr : nat * result_row =>
            mkRow (VInt (Z.of_nat (fst kr))) (result_cells (snd kr)))
         (filter (fun kr => p (snd kr))
                 (combine (seq s (List.length results)) results)))
  = map result_cells (filter p results).
Proof.
  revert s. induction results as [ | r results IH]; intro s;
    [ reflexivity | ].
  simpl. destruct (p r); simpl; rewrite IH; reflexivity.
Qed.

(** X15.  The filter of the comparator selects the rows the post-filters
    select.  On the table built from the result rows, the status filter
    (when only anomalies are asked for) followed by the deviation filter
    with the same minimum and [keep_in_range] (when the minimum is
    positive) returns a table, and its rows have, in order, the cells of
    the rows [_filter_anomalies] keeps. *)
Theorem comparator_filter_agrees_with_post_filters
    (self : ForecastActualComparator.t) (results : list result_row) :
  exists out,
    (let by_status :=
       if return_only_anomalies self
       then AnomalyFilter.process (AnomalyFilter.init true)
              (result_frame results)
       else result_frame results in
     if fltb fzero (min_deviation_threshold self)
     then DeviationFilter.process
            (DeviationFilter.mkDeviationFilter
               (min_deviation_threshold self) true)
            by_status
     else Ok by_status) = Ok out /\
    map cell (rows out) = map result_cells (filter_anomalies self results).
Proof.
  rewrite filter_anomalies_body. cbv zeta.
  destruct results as [ | r0 rest] eqn:E.
  { exists empty_frame.
    destruct (return_only_anomalies self),
      (fltb fzero (min_deviation_threshold self)); split; reflexivity. }
  rewrite <- E.
  assert (Hne : results <> []) by (rewrite E; discriminate).
  clear E r0 rest.
  destruct (result_columns_read Hne) as [Hst Hdev].
  unfold result_frame.
  set (cols := result_columns results) in *.
  set (mk := fun kr : nat * result_row =>
               mkRow (VInt (Z.of_nat (fst kr))) (result_cells (snd kr))).
  set (numbered := combine (seq 0 (List.length results)) results).
  assert (Hstatus :
            AnomalyFilter.process (AnomalyFilter.init true)
              (mkDF None cols (map mk numbered))
            = mkDF None cols
                (map mk (filter (fun kr =>
                                   status_is_anomaly (status (snd kr)))
                                numbered))).
  { rewrite (anomaly_process_rows _ None _ _ Hst). f_equal.
    apply (filter_result_rows is_anomaly
             (fun r => status_is_anomaly (status r)) results 0).
    intros k r. apply is_anomaly_result. }
  assert (Hdeviation : forall l,
            DeviationFilter.process
              (DeviationFilter.mkDeviationFilter
                 (min_deviation_threshold self) true)
              (mkDF None cols (map mk l))
            = Ok (mkDF None cols
                    (map mk
                       (filter
                          (fun kr =>
                             status_in_range (status (snd kr))
                             || fleb (min_deviation_threshold self)
                                     (deviation_pct (snd kr)))
                          l)))).
  { intro l. rewrite (deviation_process_rows _ None _ _ Hdev). rewrite Hst.
    unfold mk. rewrite select_result_rows. reflexivity. }
  assert (Hnested : forall (p q : result_row -> bool),
            map cell
              (map mk (filter (fun kr => q (snd kr))
                         (filter (fun kr => p (snd kr)) numbered)))
            = map result_cells (filter q (filter p results))).
  { intros p q.
    assert (Hand : forall (A : Type) (f g : A -> bool) (l : list A),
               filter g (filter f l) = filter (fun x => f x && g x) l).
    { intros A f g l. induction l as [ | x l IH]; [ reflexivity | ].
      simpl. destruct (f x); simpl; [ destruct (g x) | ]; rewrite IH;
        reflexivity. }
    rewrite !Hand.
    apply (cells_of_numbered (fun r => p r && q r) results 0). }
  destruct (return_only_anomalies self),
    (fltb fzero (min_deviation_threshold self)).
  - rewrite Hstatus, Hdeviation. eexists. split; [ reflexivity | ].
    cbn [rows].
    apply (Hnested (fun r => status_is_anomaly (status r))
             (fun r => status_in_range (status r)
                       || fleb (min_deviation_threshold self)
                               (deviation_pct r))).
  - rewrite Hstatus. eexists. split; [ reflexivity | ].
    cbn [rows].
    apply (cells_of_numbered (fun r => status_is_anomaly (status r))
             results 0).
  - rewrite Hdeviation. eexists. split; [ reflexivity | ].
    cbn [rows].
    apply (cells_of_numbered
             (fun r => status_in_range (status r)
                       || fleb (min_deviation_threshold self)
                               (deviation_pct r))
             results 0).
  - eexists. split; [ reflexivity | ]. cbn [rows].
    pose proof (cells_of_numbered (fun _ => true) results 0) as H.
    assert (Hall : forall (A : Type) (l : list A),
               filter (fun _ => true) l = l).
    { intros A l. induction l as [ | x l IH]; [ reflexivity | ].
      simpl. rewrite IH. reflexivity. }
    rewrite !Hall in H. exact H.
Qed.

(* ===================================================================== *)
(** * Properties of the notification workflow *)
(* ===================================================================== *)

Lemma all_some_map_Some {A : Type} (l : list A) :
  all_some (map (@Some A) l) = Some l.
Proof.
  induction l as [ | x l IH]; [ reflexivity | ].
  simpl. rewrite IH. reflexivity.
Qed.

Lemma all_some_inv {A : Type} (items : list (option A)) (l : list A) :
  all_some items = Some l -> items = map (@Some A) l.
Proof.
  revert l. induction items as [ | [x | ] items IH]; intros l H; simpl in H.
  - injection H as <-. reflexivity.
  - destruct (all_some items) as [l' | ]; [ | discriminate ].
    injection H as <-. simpl. rewrite (IH l' eq_refl). reflexivity.
  - discriminate.
Qed.

(** X16.  A notification workflow is constructed exactly from a table that
    is not empty and a list of notifiers that is not empty: the constructed
    workflow holds both unchanged, and every other argument is refused. *)
Theorem notification_workflow_constructed_iff
    (data : option DataFrame) (given : option (list (option NotificationWorkflow.Notifier)))
    (workflow : NotificationWorkflow.t) :
  NotificationWorkflow.init data given = Ok workflow <->
  exists (df : DataFrame) (ns : list NotificationWorkflow.Notifier),
    data = Some df /\ empty df = false /\
    given = Some (map (@Some _) ns) /\ ns <> [] /\
    workflow = NotificationWorkflow.mkNotification df ns.
Proof.
  unfold NotificationWorkflow.init. split.
  - destruct data as [df | ]; [ | discriminate ].
    destruct (empty df) eqn:He; [ discriminate | ].
    destruct given as [items | ]; [ | discriminate ].
    destruct items as [ | item items]; [ discriminate | ].
    destruct (all_some (item :: items)) as [ns | ] eqn:Hall; [ | discriminate ].
    intro H. injection H as <-.
    exists df, ns.
    split; [ reflexivity | ]. split; [ exact He | ].
    split; [ f_equal; apply all_some_inv; exact Hall | ].
    split; [ | reflexivity ].
    intro E. subst ns. apply all_some_inv in Hall. discriminate Hall.
  - intros (df & ns & -> & He & -> & Hne & ->). rewrite He.
    destruct ns as [ | n ns]; [ contradiction | ].
    pose proof (all_some_map_Some (n :: ns)) as E.
    cbn [map] in E |- *. rewrite E. reflexivity.
Qed.

(** X17.  [run] calls the notifiers in order and stops at the first one
    that fails: either every notifier is called and succeeds and there is
    no error, or the error names the class of the first failing notifier
    and carries its message, the notifiers before it were called and
    succeeded, and none after it was called. *)
Theorem run_stops_at_first_failure (self : NotificationWorkflow.t) :
  (Forall (fun n => NotificationWorkflow.notify n
                      (NotificationWorkflow.anomalies_data self) = None)
          (NotificationWorkflow.notifiers self) /\
   NotificationWorkflow.run self
   = (None, map NotificationWorkflow.class_name
              (NotificationWorkflow.notifiers self)))
  \/
  (exists pre n post msg,
     NotificationWorkflow.notifiers self = pre ++ n :: post /\
     Forall (fun n => NotificationWorkflow.notify n
                        (NotificationWorkflow.anomalies_data self) = None)
            pre /\
     NotificationWorkflow.notify n (NotificationWorkflow.anomalies_data self)
     = Some msg /\
     NotificationWorkflow.run self
     = (Some (NotificationWorkflow.RuntimeError
                ("Failed to send notification via "
                 ++ NotificationWorkflow.class_name n ++ ": " ++ msg)),
        map NotificationWorkflow.class_name pre
        ++ [NotificationWorkflow.class_name n])).
Proof.
  destruct self as [payload ns]. unfold NotificationWorkflow.run.
  cbn [NotificationWorkflow.anomalies_data NotificationWorkflow.notifiers].
  induction ns as [ | n ns IH].
  - left. split; [ constructor | reflexivity ].
  - simpl.
    destruct (NotificationWorkflow.notify n payload) as [msg | ] eqn:En.
    + right. exists [], n, ns, msg.
      repeat split; [ constructor | exact En ].
    + destruct IH
        as [[Hall Hrun] | (pre & n' & post & msg & -> & Hpre & Hn' & Hrun)].
      * left. rewrite Hrun. split; [ | reflexivity ].
        constructor; assumption.
      * right. exists (n :: pre), n', post, msg. rewrite Hrun.
        repeat split; try assumption. constructor; assumption.
Qed.

(* ===================================================================== *)
(** * Further properties of the cumulative selection of the comparator *)
(* ===================================================================== *)

Lemma fold_min_in (y : Z) (l : list Z) :
  fold_right Z.min y l = y \/ In (fold_right Z.min y l) l.
Proof.
  induction l as [ | z l IH]; simpl; [ left; reflexivity | ].
  destruct (Z.min_spec z (fold_right Z.min y l)) as [[_ E] | [_ E]];
    rewrite E.
  - right. left. reflexivity.
  - destruct IH as [IH | IH]; [ left | right; right ]; exact IH.
Qed.

Lemma minZ_in (d : Z) (l : list Z) : l <> [] -> In (minZ d l) l.
Proof.
  destruct l as [ | x l]; [ contradiction | ]. intros _. simpl.
  destruct (fold_min_in x l) as [E | E]; [ left; symmetry | right ];
    exact E.
Qed.

Lemma firstn_In (A : Type) (n : nat) (l : list A) (x : A) :
  In x (firstn n l) -> In x l.
Proof.
  intro H. rewrite <- (firstn_skipn n l). apply in_or_app. left. exact H.
Qed.

(** The threshold value of the selection is the ranking value of a row. *)
Lemma min_threshold_in (vs : list Z) (mask : list bool) :
  vs <> [] ->
  In (match first_true mask with
      | Some threshold_idx => minZ 0 (firstn (S threshold_idx) (sort_desc vs))
      | None => minZ 0 (sort_desc vs)
      end) vs.
Proof.
  intro Hne.
  assert (Hperm : Permutation (sort_desc vs) vs) by apply sort_desc_perm.
  assert (Hs : sort_desc vs <> []).
  { intro E. rewrite E in Hperm. apply Permutation_nil in Hperm.
    contradiction. }
  apply (Permutation_in _ Hperm).
  destruct (first_true mask) as [k | ].
  - apply firstn_In with (n := S k). apply minZ_in.
    destruct (sort_desc vs); [ contradiction | discriminate ].
  - apply minZ_in. exact Hs.
Qed.

(** X18.  The cumulative selection of the comparator is a top set, for
    every threshold: of a table with rows it keeps at least one row, and
    with a row every row whose ranking value is at least as large; so the
    rows of the largest ranking value are always kept. *)
Theorem cumulative_selection_is_top_set (df : list result_row)
    (value_column : result_row -> Z) (threshold_pct : pyfloat) :
  df <> [] ->
  filter_cumulative_threshold df value_column threshold_pct <> [] /\
  (forall r r',
     In r (filter_cumulative_threshold df value_column threshold_pct) ->
     In r' df -> value_column r <= value_column r' ->
     In r' (filter_cumulative_threshold df value_column threshold_pct)) /\
  (forall r, In r df ->
     (forall r', In r' df -> value_column r' <= value_column r) ->
     In r (filter_cumulative_threshold df value_column threshold_pct)).
Proof.
  intro Hne.
  rewrite (filter_cumulative_threshold_body value_column threshold_pct Hne).
  destruct (sumZ (map value_column df) =? 0).
  { split; [ exact Hne | ]. split; intros; assumption. }
  set (mask := map (fun p => fleb threshold_pct p) _).
  pose proof (@min_threshold_in (map value_column df) mask) as Hm.
  set (m := match first_true mask with
            | Some threshold_idx => _
            | None => _
            end) in *.
  assert (Hvs : map value_column df <> []).
  { destruct df; [ contradiction | discriminate ]. }
  specialize (Hm Hvs). apply in_map_iff in Hm.
  destruct Hm as (r0 & Hr0 & Hin0).
  assert (Hup : forall r r',
             In r (filter (fun r => m <=? value_column r) df) ->
             In r' df -> value_column r <= value_column r' ->
             In r' (filter (fun r => m <=? value_column r) df)).
  { intros r r' Hr Hr' Hle. apply filter_In in Hr. destruct Hr as [_ Hr].
    apply Z.leb_le in Hr. apply filter_In. split; [ exact Hr' | ].
    apply Z.leb_le. lia. }
  assert (Hkept0 : In r0 (filter (fun r => m <=? value_column r) df)).
  { apply filter_In. split; [ exact Hin0 | ]. apply Z.leb_le. lia. }
  split; [ | split ].
  - intro E. rewrite E in Hkept0. contradiction.
  - exact Hup.
  - intros r Hr Hmax. apply (Hup r0 r Hkept0 Hr). apply Hmax. exact Hin0.
Qed.

(** ** The order of the ranking values and the mask *)

















(* ===================================================================== *)
(** * Properties of the pre-filter *)
(* ===================================================================== *)

Lemma insert_series_perm (x : string * pyfloat) (l : list (string * pyfloat)) :
  Permutation (insert_series x l) (x :: l).
Proof.
  induction l as [ | y l IH]; simpl; [ reflexivity | ].
  destruct (goes_before (snd x) (snd y)); [ reflexivity | ].
  rewrite IH. apply perm_swap.
Qed.

Lemma sort_values_desc_perm (l : list (string * pyfloat)) :
  Permutation (sort_values_desc l) l.
Proof.
  induction l as [ | x l IH]; simpl; [ reflexivity | ].
  rewrite insert_series_perm. apply perm_skip. exact IH.
Qed.

Lemma kept_of_mask (names : list string) (mask : list bool) (m : string) :
  In m (map (fun nm : string * bool => fst nm)
          (filter (fun nm : string * bool => snd nm) (combine names mask))) ->
  In m names.
Proof.
  intro H. apply in_map_iff in H. destruct H as ([n b] & <- & H).
  apply filter_In in H. destruct H as [H _].
  apply in_combine_l in H. exact H.
Qed.

(** The metrics kept of a series that is not empty: at least one, all of
    them metrics of the series. *)
Lemma metrics_under_threshold_some (self : CumulativeThresholdFilter.t)
    (value_series : list (string * pyfloat)) (total_value : pyfloat)
    (metrics : list string) :
  value_series <> [] ->
  CumulativeThresholdFilter.metrics_under_threshold self value_series
    total_value = Some metrics ->
  metrics <> [] /\
  forall m, In m metrics -> In m (map fst value_series).
Proof.
  intro Hne. unfold CumulativeThresholdFilter.metrics_under_threshold.
  destruct (feqb total_value fzero); [ discriminate | ]. cbv zeta.
  set (kept := map (fun nm : string * bool => fst nm) _).
  assert (Hkept : forall m, In m kept -> In m (map fst value_series)).
  { intros m Hm. apply kept_of_mask in Hm. exact Hm. }
  destruct kept as [ | k kept'] eqn:Ek.
  - destruct value_series as [ | first rest]; [ contradiction | ].
    intro H. injection H as <-. split; [ discriminate | ].
    intros m [<- | []]. left. reflexivity.
  - intro H. injection H as <-. split; [ discriminate | exact Hkept ].
Qed.

(** The metrics kept by the pre-filter: at least one, all of them among
    the metrics given. *)
Lemma metrics_to_keep_some (self : CumulativeThresholdFilter.t)
    (forecast_values : list (string * pyfloat)) (metrics : list string) :
  CumulativeThresholdFilter.metrics_to_keep self forecast_values
  = Some metrics ->
  metrics <> [] /\
  forall m, In m metrics -> In m (map fst forecast_values).
Proof.
  unfold CumulativeThresholdFilter.metrics_to_keep. cbv zeta.
  pose proof (sort_values_desc_perm forecast_values) as Hperm.
  set (value_series := sort_values_desc forecast_values) in *.
  intro H.
  assert (Hne : value_series <> []).
  { intro E. rewrite E in H. discriminate H. }
  destruct (metrics_under_threshold_some self _ Hne H) as [Hm Hin].
  split; [ exact Hm | ].
  intros m Hmm. apply (Permutation_in _ (Permutation_map fst Hperm)).
  apply Hin. exact Hmm.
Qed.

Section PreFilterProperties.

Variable py_float : string -> option pyfloat.
Variable str_number : pyval -> string.

Local Abbreviation pre_filter :=
  (CumulativeThresholdFilter.filter py_float str_number).

Lemma forecast_values_names (self : CumulativeThresholdFilter.t)
    (forecast_df : DataFrame) :
  map fst (CumulativeThresholdFilter.forecast_values py_float str_number
             self forecast_df)
  = filter (fun col =>
              negb (in_list col (CumulativeThresholdFilter.exclude_columns self)))
           (columns forecast_df).
Proof.
  unfold CumulativeThresholdFilter.forecast_values.
  rewrite map_map. simpl. apply map_id.
Qed.

(** X22.  The pre-filter removes metric columns of the forecast table and
    nothing else: the rows and the index of the forecast table are kept,
    no column is added, every excluded column of the table is kept, and a
    table that has a metric column still has one after the filter. *)
Theorem pre_filter_keeps_rows_and_a_metric
    (self : CumulativeThresholdFilter.t) (forecast_df actual_df : DataFrame) :
  rows (fst (pre_filter self forecast_df actual_df)) = rows forecast_df /\
  index_name (fst (pre_filter self forecast_df actual_df))
  = index_name forecast_df /\
  (forall c, In c (columns (fst (pre_filter self forecast_df actual_df))) ->
             In c (columns forecast_df)) /\
  (forall c, In c (columns forecast_df) ->
             In c (CumulativeThresholdFilter.exclude_columns self) ->
             In c (columns (fst (pre_filter self forecast_df actual_df)))) /\
  ((exists c, In c (columns forecast_df) /\
              ~ In c (CumulativeThresholdFilter.exclude_columns self)) ->
   exists c, In c (columns (fst (pre_filter self forecast_df actual_df))) /\
             ~ In c (CumulativeThresholdFilter.exclude_columns self)).
Proof.
  unfold CumulativeThresholdFilter.filter.
  destruct (empty forecast_df || empty actual_df).
  { repeat split; auto. }
  pose proof (forecast_values_names self forecast_df) as Hnames.
  destruct (CumulativeThresholdFilter.forecast_values py_float str_number
              self forecast_df) as [ | v values] eqn:Ev.
  { repeat split; auto. }
  destruct (CumulativeThresholdFilter.metrics_to_keep self (v :: values))
    as [metrics | ] eqn:Em.
  2: { repeat split; auto. }
  apply metrics_to_keep_some in Em. destruct Em as [Hne Hsub].
  rewrite Hnames in Hsub.
  cbn [fst rows index_name columns].
  split; [ reflexivity | ]. split; [ reflexivity | ].
  split; [ | split ].
  - intros c Hc. apply filter_In in Hc. destruct Hc as [_ Hc].
    apply in_list_true. exact Hc.
  - intros c Hc Hex. apply filter_In. split.
    + apply in_or_app. left. exact Hex.
    + apply in_list_true. exact Hc.
  - intros _. destruct metrics as [ | m metrics]; [ contradiction | ].
    exists m. specialize (Hsub m (or_introl eq_refl)).
    apply filter_In in Hsub. destruct Hsub as [Hcol Hex].
    split.
    + apply filter_In. split.
      * apply in_or_app. right. left. reflexivity.
      * apply in_list_true. exact Hcol.
    + apply in_list_false. apply negb_true_iff. exact Hex.
Qed.

End PreFilterProperties.

(** ** The metrics kept by the pre-filter *)

(** The running sums of values that are not negative are floats that do
    not decrease. *)
Lemma series_cumsum_from_grows (l : list pyfloat) (acc : Q) :
  (forall x, In x l -> exists q, x = Fin q /\ (0 <= q)%Q) ->
  (0 <= acc)%Q -> binary64 acc = acc ->
  exists cs,
    series_cumsum_from (Fin acc) l = map Fin cs /\
    (forall k c, nth_error cs k = Some c -> (acc <= c)%Q) /\
    (forall k c c', nth_error cs k = Some c ->
                    nth_error cs (S k) = Some c' -> (c <= c')%Q).
Proof.
  revert acc. induction l as [ | x l IH]; intros acc Hl Hacc Hfl.
  - exists []. split; [ reflexivity | ].
    split; [ intros [ | k] c H; discriminate H | ].
    intros [ | k] c c' H; discriminate H.
  - destruct (Hl x (or_introl eq_refl)) as (q & -> & Hq).
    cbn [series_cumsum_from isna fadd].
    set (c0 := binary64 (acc + q)).
    assert (H0 : (acc <= c0)%Q).
    { unfold c0. rewrite <- Hfl at 1. apply binary64_mono. lra. }
    destruct (IH c0) as (cs & Hcs & Hlow & Hup).
    + intros y Hy. apply Hl. right. exact Hy.
    + lra.
    + apply binary64_idem.
    + exists (c0 :: cs). split; [ simpl; rewrite Hcs; reflexivity | ].
      split.
      * intros [ | k] c H.
        -- injection H as <-. exact H0.
        -- simpl in H. specialize (Hlow k c H). lra.
      * intros [ | k] c c' H H'.
        -- injection H as <-. simpl in H'. exact (Hlow 0%nat c' H').
        -- simpl in H, H'. exact (Hup k c c' H H').
Qed.

Lemma length_series_cumsum_from (acc : pyfloat) (l : list pyfloat) :
  List.length (series_cumsum_from acc l) = List.length l.
Proof.
  revert acc. induction l as [ | x l IH]; intro acc; [ reflexivity | ].
  simpl. destruct (isna x); simpl; rewrite IH; reflexivity.
Qed.

Lemma fleb_antitone (a b : Q) (y : pyfloat) :
  (a <= b)%Q -> fleb (Fin b) y = true -> fleb (Fin a) y = true.
Proof.
  intros Hab. destruct y as [t | | | ]; simpl; try discriminate;
    try reflexivity.
  intro H. apply Qle_bool_iff in H. apply Qle_bool_iff. lra.
Qed.

(** A mask that is true before it is false. *)
Lemma antitone_shape (mask : list bool) :
  (forall k, nth_error mask (S k) = Some true ->
             nth_error mask k = Some true) ->
  exists n m, mask = repeat true n ++ repeat false m.
Proof.
  induction mask as [ | b mask IH]; intro H.
  - exists 0%nat, 0%nat. reflexivity.
  - destruct IH as (n & m & E).
    { intros k Hk. apply (H (S k)). exact Hk. }
    destruct b.
    + exists (S n), m. rewrite E. reflexivity.
    + destruct n as [ | n].
      * exists 0%nat, (S m). rewrite E. reflexivity.
      * specialize (H 0%nat). rewrite E in H. simpl in H.
        specialize (H eq_refl). discriminate H.
Qed.

Lemma kept_of_shape (names : list string) (n m : nat) :
  List.length names = (n + m)%nat ->
  map (fun nm : string * bool => fst nm)
      (filter (fun nm : string * bool => snd nm)
              (combine names (repeat true n ++ repeat false m)))
  = firstn n names.
Proof.
  revert names. induction n as [ | n IH]; intros names Hlen.
  - simpl. clear Hlen. revert names.
    induction m as [ | m IHm]; intros names.
    + rewrite combine_nil. reflexivity.
    + destruct names as [ | x names]; [ reflexivity | ]. simpl. apply IHm.
  - destruct names as [ | x names]; [ discriminate | ].
    simpl. f_equal. apply IH. simpl in Hlen. lia.
Qed.

Lemma nth_error_shape (n m k : nat) :
  nth_error (repeat true n ++ repeat false m) k
  = if (k <? n)%nat then Some true
    else if (k <? n + m)%nat then Some false else None.
Proof.
  destruct (k <? n)%nat eqn:E.
  - apply Nat.ltb_lt in E. rewrite nth_error_app1 by (rewrite repeat_length; lia).
    apply nth_error_repeat. exact E.
  - apply Nat.ltb_ge in E.
    rewrite nth_error_app2 by (rewrite repeat_length; lia).
    rewrite repeat_length.
    destruct (k <? n + m)%nat eqn:E'.
    + apply Nat.ltb_lt in E'. apply nth_error_repeat. lia.
    + apply Nat.ltb_ge in E'. apply nth_error_None. rewrite repeat_length. lia.
Qed.

(** X23.  What the pre-filter keeps of a series, whatever the order in
    which the sort left the metrics of equal value: for values that are
    finite and not negative and a total that is finite and positive, the
    cumulative shares, computed in floating point as the code does, do not
    decrease, and the metrics kept are the first n of the series, where
    either the shares of the first n ranks are at most the threshold and
    those of all further ranks exceed it, or every share exceeds the
    threshold and n is 1: the top metric alone. *)
Theorem pre_filter_keeps_longest_prefix_under_threshold
    (self : CumulativeThresholdFilter.t)
    (value_series : list (string * pyfloat)) (total_value : Q)
    (kept : list string) :
  value_series <> [] ->
  (forall nv, In nv value_series ->
              exists q, snd nv = Fin q /\ (0 <= q)%Q) ->
  (0 < total_value)%Q ->
  CumulativeThresholdFilter.metrics_under_threshold self value_series
    (Fin total_value) = Some kept ->
  let cumulative_pct :=
    map (fun c => np_div c (Fin total_value))
        (series_cumsum (map snd value_series)) in
  let under (p : pyfloat) :=
    fleb p (CumulativeThresholdFilter.threshold_pct self) in
  List.length cumulative_pct = List.length value_series /\
  exists n,
    (1 <= n <= List.length value_series)%nat /\
    kept = map fst (firstn n value_series) /\
    (((forall k p, (k < n)%nat -> nth_error cumulative_pct k = Some p ->
                   under p = true) /\
      (forall k p, (n <= k)%nat -> nth_error cumulative_pct k = Some p ->
                   under p = false)) \/
     (n = 1%nat /\
      forall k p, nth_error cumulative_pct k = Some p -> under p = false)).
Proof.
  intros Hne Hvals HTpos. unfold CumulativeThresholdFilter.metrics_under_threshold.
  set (vals := map snd value_series).
  set (th := CumulativeThresholdFilter.threshold_pct self).
  assert (Hfin : forall x, In x vals -> exists q, x = Fin q /\ (0 <= q)%Q).
  { intros x Hx. unfold vals in Hx. apply in_map_iff in Hx.
    destruct Hx as (nv & <- & Hnv). apply Hvals. exact Hnv. }
  assert (Ez : feqb (Fin total_value) fzero = false).
  { simpl. apply Qeq_bool_neq_false. intro E. rewrite E in HTpos.
    apply (Qlt_irrefl 0). exact HTpos. }
  rewrite Ez. cbv zeta.
  assert (Hdiv : forall c, np_div (Fin c) (Fin total_value)
                           = Fin (binary64 (c / total_value))).
  { intro c. unfold np_div, fdiv. rewrite Ez. reflexivity. }
  destruct (series_cumsum_from_grows vals Hfin (Qle_refl 0) eq_refl)
    as (cs & Hcs & Hlow & Hup).
  change (series_cumsum vals = map Fin cs) in Hcs. rewrite Hcs.
  set (pct := map (fun c => np_div c (Fin total_value)) (map Fin cs)).
  set (mask := map (fun p => fleb p th) pct).
  assert (Hlencs : List.length cs = List.length vals).
  { rewrite <- (length_map Fin cs), <- Hcs. apply length_series_cumsum_from. }
  assert (Hlenp : List.length pct = List.length value_series).
  { unfold pct. rewrite !length_map. rewrite Hlencs. unfold vals.
    apply length_map. }
  assert (Hlen : List.length mask = List.length value_series).
  { unfold mask. rewrite length_map. exact Hlenp. }
  assert (Hpct : forall k, nth_error pct k
                 = option_map (fun c => Fin (binary64 (c / total_value)))
                              (nth_error cs k)).
  { intro k. unfold pct. rewrite map_map, nth_error_map.
    destruct (nth_error cs k); [ simpl; rewrite Hdiv | ]; reflexivity. }
  assert (Hmask : forall k, nth_error mask k
                  = option_map (fun p => fleb p th) (nth_error pct k)).
  { intro k. unfold mask. apply nth_error_map. }
  assert (Hanti : forall k, nth_error mask (S k) = Some true ->
                            nth_error mask k = Some true).
  { intros k Hk. rewrite Hmask, Hpct in Hk. rewrite Hmask, Hpct.
    destruct (nth_error cs (S k)) as [c' | ] eqn:Ec'; [ | discriminate Hk ].
    destruct (nth_error cs k) as [c | ] eqn:Ec.
    2:{ apply nth_error_None in Ec.
        assert (S k < List.length cs)%nat
          by (apply nth_error_Some; rewrite Ec'; discriminate).
        lia. }
    simpl in Hk |- *. injection Hk as Hk. f_equal.
    apply (fleb_antitone (b := binary64 (c' / total_value))); [ | exact Hk ].
    apply binary64_mono.
    apply Qmult_le_compat_r; [ exact (Hup k c c' Ec Ec') | ].
    apply Qlt_le_weak. apply Qinv_lt_0_compat. exact HTpos. }
  destruct (antitone_shape mask Hanti) as (n & m & Hshape).
  assert (Hnm : List.length value_series = (n + m)%nat).
  { rewrite <- Hlen, Hshape, length_app, !repeat_length. reflexivity. }
  assert (Hunder : forall k p, nth_error pct k = Some p ->
                     fleb p th = if (k <? n)%nat then true else false).
  { intros k p Hp. pose proof (Hmask k) as H. rewrite Hp in H. simpl in H.
    rewrite Hshape, nth_error_shape in H.
    destruct (k <? n)%nat.
    - injection H as H. symmetry. exact H.
    - destruct (k <? n + m)%nat; [ | discriminate H ].
      injection H as H. symmetry. exact H. }
  fold mask. rewrite Hshape.
  rewrite kept_of_shape by (rewrite length_map; exact Hnm).
  intro Hkept. split; [ exact Hlenp | ].
  destruct value_series as [ | first rest] eqn:Er; [ contradiction | ].
  rewrite <- Er in *.
  destruct n as [ | n].
  - (* no share is under the threshold: the top metric alone *)
    assert (Hk : kept = [fst first]).
    { rewrite Er in Hkept. simpl in Hkept. injection Hkept as <-.
      reflexivity. }
    exists 1%nat. split; [ rewrite Er; simpl; lia | ].
    split; [ rewrite Hk, Er; reflexivity | ].
    right. split; [ reflexivity | ].
    intros k p Hp. rewrite (Hunder k p Hp). reflexivity.
  - assert (Hk : kept = firstn (S n) (map fst value_series)).
    { rewrite Er in Hkept |- *. simpl in Hkept |- *.
      injection Hkept as <-. reflexivity. }
    exists (S n). split; [ lia | ].
    split; [ rewrite Hk; apply firstn_map | ].
    left. split; intros k p Hlt Hp; rewrite (Hunder k p Hp).
    + assert (E : (k <? S n)%nat = true) by (apply Nat.ltb_lt; lia).
      rewrite E. reflexivity.
    + assert (E : (k <? S n)%nat = false) by (apply Nat.ltb_ge; lia).
      rewrite E. reflexivity.
Qed.

(** ** The rows of the raw actual table kept by the pre-filter *)

Lemma same_cell_refl (v : pyval) : same_cell v v = true.
Proof.
  destruct v as [ | z | [q | | | ] | s]; simpl; try reflexivity.
  - apply Z.eqb_refl.
  - apply Qeq_bool_iff. reflexivity.
  - apply String.eqb_refl.
Qed.

Lemma same_row_refl (cols : list string) (r : Row) :
  same_row cols r r = true.
Proof.
  unfold same_row. apply forallb_forall. intros c _. apply same_cell_refl.
Qed.

Lemma drop_duplicates_from_incl (cols : list string) (seen rest : list Row)
    (x : Row) :
  In x (drop_duplicates_from cols seen rest) -> In x rest.
Proof.
  revert seen. induction rest as [ | r rest IH]; intros seen H;
    [ contradiction | ].
  simpl in H. destruct (existsb (same_row cols r) seen).
  - right. apply (IH seen). exact H.
  - destruct H as [<- | H]; [ left; reflexivity | ].
    right. apply (IH (seen ++ [r])). exact H.
Qed.

Lemma drop_duplicates_from_covers (cols : list string)
    (seen rest : list Row) (x : Row) :
  In x rest ->
  exists y,
    (In y seen \/ In y (drop_duplicates_from cols seen rest)) /\
    same_row cols x y = true.
Proof.
  revert seen. induction rest as [ | r rest IH]; intros seen H;
    [ contradiction | ].
  simpl. destruct (existsb (same_row cols r) seen) eqn:E.
  - destruct H as [<- | H].
    + apply existsb_exists in E. destruct E as (y & Hy & Hsame).
      exists y. split; [ left; exact Hy | exact Hsame ].
    + apply (IH seen H).
  - destruct H as [<- | H].
    + exists r. split; [ right; left; reflexivity | apply same_row_refl ].
    + destruct (IH (seen ++ [r]) H) as (y & [Hy | Hy] & Hsame).
      * apply in_app_or in Hy. destruct Hy as [Hy | [<- | []]].
        -- exists y. split; [ left; exact Hy | exact Hsame ].
        -- exists r. split; [ right; left; reflexivity | exact Hsame ].
      * exists y. split; [ right; right; exact Hy | exact Hsame ].
Qed.

Lemma in_combine_seq (A : Type) (l : list A) (s : nat) (x : A) :
  In x l -> exists k, In (k, x) (combine (seq s (List.length l)) l).
Proof.
  revert s. induction l as [ | y l IH]; intros s H; [ contradiction | ].
  simpl. destruct H as [<- | H].
  - exists s. left. reflexivity.
  - destruct (IH (S s) H) as (k & Hk). exists k. right. exact Hk.
Qed.

Lemma in_relabel (l : list Row) (x : Row) :
  In x (relabel l) -> exists r, In r l /\ cell x = cell r.
Proof.
  unfold relabel. intro H. apply in_map_iff in H.
  destruct H as ([k r] & <- & H). apply in_combine_r in H.
  exists r. split; [ exact H | reflexivity ].
Qed.

Lemma relabel_in (l : list Row) (r : Row) :
  In r l -> exists x, In x (relabel l) /\ cell x = cell r.
Proof.
  intro H. destruct (in_combine_seq l 0 r H) as (k & Hk).
  exists (mkRow (VInt (Z.of_nat k)) (cell r)). split; [ | reflexivity ].
  unfold relabel. apply in_map_iff. exists (k, r).
  split; [ reflexivity | exact Hk ].
Qed.

Lemma same_row_cells (cols : list string) (x r y : Row) :
  cell x = cell r -> same_row cols x y = same_row cols r y.
Proof. intro H. unfold same_row. rewrite H. reflexivity. Qed.

(** X24.  The rows of the actual table kept by the pre-filter are the rows
    of the kept metrics.  [_filter_actual_by_metrics], on a table with
    rows, labelled 0 .. n-1 as a reader returns it, keeps the columns; a
    row it returns has the cells of a row of the table that equals, on
    every transformer column the table has, the part at the same position
    of a kept metric with as many underscore-separated parts as there are
    transformer columns; and every such row of the table is returned, or a
    row with the same cells is. *)
Theorem filtered_actual_rows_match_kept_metrics
    (self : CumulativeThresholdFilter.t) (tc : str_or_list)
    (actual_df : DataFrame) (metrics : list string) :
  empty actual_df = false ->
  index actual_df = range_index (List.length (rows actual_df)) ->
  columns (CumulativeThresholdFilter.filter_actual_by_metrics
             self tc actual_df metrics) = columns actual_df /\
  (forall r',
     In r' (rows (CumulativeThresholdFilter.filter_actual_by_metrics
                    self tc actual_df metrics)) ->
     exists r metric,
       In r (rows actual_df) /\ In metric metrics /\ cell r' = cell r /\
       List.length (split "_" metric)
       = List.length (match tc with One s => [s] | Many l => l end) /\
       forall col part,
         In (col, part)
            (combine (match tc with One s => [s] | Many l => l end)
                     (split "_" metric)) ->
         In col (columns actual_df) ->
         pyval_eqb (cell r col) (VStr part) = true) /\
  (forall r metric,
     In r (rows actual_df) -> In metric metrics ->
     List.length (split "_" metric)
     = List.length (match tc with One s => [s] | Many l => l end) ->
     (forall col part,
        In (col, part)
           (combine (match tc with One s => [s] | Many l => l end)
                    (split "_" metric)) ->
        In col (columns actual_df) ->
        pyval_eqb (cell r col) (VStr part) = true) ->
     exists r',
       In r' (rows (CumulativeThresholdFilter.filter_actual_by_metrics
                      self tc actual_df metrics)) /\
       same_row (columns actual_df) r r' = true).
Proof.
  intros Hne _.
  unfold CumulativeThresholdFilter.filter_actual_by_metrics. rewrite Hne.
  set (tcs := match tc with One s => [s] | Many l => l end).
  set (keep := fun metric r =>
         forallb
           (fun cp : string * string =>
              if in_list (fst cp) (columns actual_df)
              then pyval_eqb (cell r (fst cp)) (VStr (snd cp))
              else true)
           (combine tcs (split "_" metric))).
  set (frames := flat_map _ metrics).
  assert (Hkeep : forall metric r,
            keep metric r = true <->
            forall col part,
              In (col, part) (combine tcs (split "_" metric)) ->
              In col (columns actual_df) ->
              pyval_eqb (cell r col) (VStr part) = true).
  { intros metric r. unfold keep. rewrite forallb_forall. split.
    - intros H col part Hin Hcol. specialize (H (col, part) Hin).
      simpl in H. apply in_list_true in Hcol. rewrite Hcol in H. exact H.
    - intros H [col part] Hin. simpl.
      destruct (in_list col (columns actual_df)) eqn:Hcol;
        [ | reflexivity ].
      apply H; [ exact Hin | apply in_list_true; exact Hcol ]. }
  assert (Hframes : forall r,
            In r (List.concat frames) <->
            exists metric,
              In metric metrics /\
              List.length (split "_" metric) = List.length tcs /\
              In r (rows actual_df) /\ keep metric r = true).
  { intro r. rewrite in_concat. split.
    - intros (frame & Hframe & Hr). unfold frames in Hframe.
      apply in_flat_map in Hframe. destruct Hframe as (metric & Hm & Hf).
      destruct (List.length (split "_" metric) =? List.length tcs)%nat
        eqn:El; [ | contradiction ].
      destruct Hf as [<- | []]. apply filter_In in Hr.
      exists metric. apply Nat.eqb_eq in El. tauto.
    - intros (metric & Hm & El & Hr & Hk).
      exists (filter (keep metric) (rows actual_df)). split.
      + unfold frames. apply in_flat_map. exists metric.
        split; [ exact Hm | ]. apply Nat.eqb_eq in El. rewrite El.
        left. reflexivity.
      + apply filter_In. split; assumption. }
  split; [ destruct frames; reflexivity | ]. split.
  - intros r' Hr'. destruct frames as [ | frame frames'] eqn:Ef;
      [ contradiction | ].
    rewrite <- Ef in *. cbn [rows] in Hr'.
    apply drop_duplicates_from_incl in Hr'. apply in_relabel in Hr'.
    destruct Hr' as (r & Hr & Hcell). apply Hframes in Hr.
    destruct Hr as (metric & Hm & El & Hr & Hk).
    exists r, metric. pose proof (proj1 (Hkeep metric r) Hk) as Hk'.
    tauto.
  - intros r metric Hr Hm El Hk'.
    pose proof (proj2 (Hkeep metric r) Hk') as Hk.
    assert (Hin : In r (List.concat frames)).
    { apply Hframes. exists metric. tauto. }
    destruct frames as [ | frame frames'] eqn:Ef; [ contradiction | ].
    rewrite <- Ef in *. cbn [rows].
    destruct (relabel_in _ _ Hin) as (x & Hx & Hcell).
    destruct (drop_duplicates_from_covers (columns actual_df) [] _ _ Hx)
      as (y & [[] | Hy] & Hsame).
    exists y. split; [ exact Hy | ].
    rewrite <- (@same_row_cells (columns actual_df) x r y Hcell). exact Hsame.
Qed.

(* ===================================================================== *)
(** * The key file of a constructed writer *)
(* ===================================================================== *)

(** X25.  A constructed [BigQueryDataWriter] has a dataset and a table,
    and its key file is checked: either no file, or the empty string, was
    given and is kept as such, or the writer holds the absolute path of
    the file given, which is not blank, and this path is an existing,
    readable file whose name ends in [.json]. *)
Theorem constructed_writer_key_file
    (abspath : string -> string) (isfile readable : string -> bool)
    (file project dataset table : option string)
    (create_disposition write_disposition : string)
    (self : BigQueryDataWriter.t) :
  BigQueryDataWriter.init abspath isfile readable file project dataset table
    create_disposition write_disposition = Ok self ->
  dataset = Some (BigQueryDataWriter.dataset self) /\
  table = Some (BigQueryDataWriter.table self) /\
  BigQueryDataWriter.project self = project /\
  (((file = None \/ file = Some EmptyString) /\
    BigQueryDataWriter.service_account_file self = file)
   \/
   exists given,
     file = Some given /\ is_blank given = false /\
     BigQueryDataWriter.service_account_file self = Some (abspath given) /\
     isfile (abspath given) = true /\
     readable (abspath given) = true /\
     endswith (abspath given) ".json" = true).
Proof.
  unfold BigQueryDataWriter.init.
  destruct dataset as [d | ]; [ | discriminate ].
  destruct table as [tb | ]; [ | discriminate ].
  destruct (in_list create_disposition _); [ | discriminate ].
  destruct (in_list write_disposition _); [ | discriminate ].
  cbn [negb]. cbv iota.
  destruct file as [[ | c file] | ].
  - intro H. injection H as <-. cbn. repeat split. left. split; auto.
  - destruct (is_blank (String c file)) eqn:Eb; [ discriminate | ].
    destruct (isfile (abspath (String c file))) eqn:Ef; [ | discriminate ].
    destruct (readable (abspath (String c file))) eqn:Er; [ | discriminate ].
    destruct (endswith (abspath (String c file)) ".json") eqn:Ee;
      [ | discriminate ].
    cbn [negb]. cbv iota. intro H. injection H as <-. cbn.
    repeat split. right. exists (String c file). repeat split; assumption.
  - intro H. injection H as <-. cbn. repeat split. left. split; auto.
Qed.

(* ===================================================================== *)
(** * What a successful run of the detection workflow went through *)
(* ===================================================================== *)

Lemma fst_raise {A : Type} (e : exn) (a : A) : fst (@raise A e) <> Ok a.
Proof. discriminate. Qed.

Lemma execute_detection_inv (self : AnomalyDetectionWorkflow.t)
    (df : DataFrame) :
  fst (execute_detection self) = Ok df ->
  exists forecast_df actual_df filtered anomaly_df,
    fst (forecast_reader self) = Ok (Some forecast_df) /\
    empty forecast_df = false /\
    fst (actual_reader self) = Ok (Some actual_df) /\
    empty actual_df = false /\
    fst (apply_pre_filters (pre_filters self) forecast_df actual_df)
    = Ok filtered /\
    fst (anomaly_detector self (fst filtered) (snd filtered))
    = Ok (Some anomaly_df) /\
    empty anomaly_df = false /\
    fst (apply_post_filters (post_filters self) anomaly_df) = Ok df.
Proof.
  unfold execute_detection. intro H.
  apply fst_bind_inv in H. destruct H as ([f | ] & Hf & H);
    [ | exfalso; exact (fst_raise H) ].
  destruct (empty f) eqn:Ef; [ exfalso; exact (fst_raise H) | ].
  apply fst_bind_inv in H. destruct H as ([a | ] & Ha & H);
    [ | exfalso; exact (fst_raise H) ].
  destruct (empty a) eqn:Ea; [ exfalso; exact (fst_raise H) | ].
  apply fst_bind_inv in H. destruct H as (fa & Hfa & H).
  apply fst_bind_inv in H. destruct H as ([an | ] & Han & H);
    [ | exfalso; exact (fst_raise H) ].
  destruct (empty an) eqn:Ean; [ exfalso; exact (fst_raise H) | ].
  exists f, a, fa, an. repeat split; assumption.
Qed.

(** X26.  A table returned by [run] went through every stage: both
    readers returned tables that are not empty, the detector ran on the
    output of the pre-filters and returned a table that is not empty, the
    table returned is what the post-filters made of it, and it is the
    table the writer accepted.  In particular, without post-filters the
    table returned and written is not empty. *)
Theorem run_result_went_through_every_stage
    (self : AnomalyDetectionWorkflow.t) (df : DataFrame) :
  fst (run self) = Ok df ->
  (exists forecast_df actual_df filtered anomaly_df,
     fst (forecast_reader self) = Ok (Some forecast_df) /\
     empty forecast_df = false /\
     fst (actual_reader self) = Ok (Some actual_df) /\
     empty actual_df = false /\
     fst (apply_pre_filters (pre_filters self) forecast_df actual_df)
     = Ok filtered /\
     fst (anomaly_detector self (fst filtered) (snd filtered))
     = Ok (Some anomaly_df) /\
     empty anomaly_df = false /\
     fst (apply_post_filters (post_filters self) anomaly_df) = Ok df) /\
  fst (data_writer self df) = Ok tt /\
  (post_filters self = [] -> empty df = false).
Proof.
  unfold run. intro H.
  apply fst_bind_inv in H. destruct H as (df' & Hdet & H).
  apply fst_bind_inv in H. destruct H as ([] & Hw & H).
  simpl in H. injection H as ->.
  pose proof (execute_detection_inv self Hdet) as Hinv.
  split; [ exact Hinv | ]. split; [ exact Hw | ].
  intro Hpost.
  destruct Hinv as (f & a & fa & an & _ & _ & _ & _ & _ & _ & Han & Hdf).
  rewrite Hpost in Hdf. simpl in Hdf. injection Hdf as <-. exact Han.
Qed.

(* ===================================================================== *)
(** * The further properties on examples *)
(* ===================================================================== *)


Lemma deviation_zero_unless_anomaly_witness :
  fst (compare_metric float_of_decimal no_str "m" (VStr scenario_cell)
         (VInt 950) VNone) = Ok in_range_row /\
  status in_range_row = IN_RANGE /\
  deviation_pct in_range_row = Fin 0.
Proof.
  split; [ reflexivity | ]. split; [ reflexivity | ].
  apply (@deviation_zero_unless_anomaly float_of_decimal no_str "m"
           (VStr scenario_cell) (VInt 950) VNone in_range_row);
    [ reflexivity | left; reflexivity ].
Defined.


Lemma non_numeric_actual_is_full_drop_witness :
  exists r,
    fst (compare_metric float_of_decimal no_str "m" (VStr scenario_cell)
           (VStr "n/a") VNone) = Ok r /\
    actual r = 0 /\ status r = BELOW_P10 /\ deviation_pct r = Fin 100.
Proof.
  apply (@non_numeric_actual_is_full_drop float_of_decimal no_str "m"
           (VStr scenario_cell) (VStr "n/a") VNone 1000 900 1100);
    [ reflexivity | right; exists "n/a"%string; split; reflexivity
    | reflexivity ].
Defined.

Lemma all_columns_sorted_union_witness :
  prepare_data example_comparator two_day_forecast second_day_actual
    = Ok (two_day_forecast_std, second_day_actual_std, ["a"%string]) /\
  NoDup ["a"%string] /\
  (forall c, In c ["a"%string] ->
             In c (columns two_day_forecast_std) /\
             In c (columns second_day_actual_std)) /\
  index_name (pivot_table (transformer example_comparator) second_day_actual)
    = Some "date"%string /\
  index_column (pivot_table (transformer example_comparator)
                  second_day_actual) = "date"%string /\
  columns second_day_actual_std = ["date"; "a"]%string.
Proof.
  split; [ reflexivity | ].
  destruct (@all_columns_sorted_union example_comparator two_day_forecast
              second_day_actual two_day_forecast_std second_day_actual_std
              ["a"%string] eq_refl)
    as (Hnodup & _ & _ & Hcols & _ & Hname & _).
  split; [ exact Hnodup | ]. split; [ exact Hcols | ].
  split; [ reflexivity | ].
  split; [ apply Hname; reflexivity | reflexivity ].
Defined.

Lemma metric_without_forecast_is_no_forecast_witness :
  let r := hd (mkRow VNone (fun _ => VNone))
              (rows (standardize_forecast_columns two_day_forecast
                       ["a"; "b"]%string)) in
  cell r "b" = VStr "0|0|0|0|0|0|0|0|0|0" /\
  fst (compare_metric float_of_decimal no_str "b" (cell r "b") (VInt 600)
         VNone)
  = Ok (mkResult None "b" 600 0 0 0 NO_FORECAST (Fin 0)).
Proof.
  apply (@metric_without_forecast_is_no_forecast float_of_decimal no_str
           two_day_forecast ["a"; "b"]%string _ "b"%string (VInt 600) VNone
           600).
  - reflexivity.
  - left. reflexivity.
  - right. left. reflexivity.
  - intros [H | [H | []]]; discriminate H.
  - reflexivity.
Defined.

Lemma metric_without_actual_is_full_drop_witness :
  let r := hd (mkRow VNone (fun _ => VNone))
              (rows (standardize_actual_columns second_day_actual_pivot
                       ["a"; "b"]%string)) in
  cell r "b" = VFloat fzero /\
  fst (compare_metric float_of_decimal no_str "b" (VStr scenario_cell)
         (cell r "b") VNone)
  = Ok (mkResult None "b" 0 1000 900 1100 BELOW_P10 (Fin 100)).
Proof.
  apply (@metric_without_actual_is_full_drop float_of_decimal no_str
           second_day_actual_pivot ["a"; "b"]%string _ "b"%string
           (VStr scenario_cell) VNone 1000 900 1100).
  - left. reflexivity.
  - right. left. reflexivity.
  - vm_compute. intros [H | [H | []]]; discriminate H.
  - reflexivity.
  - reflexivity.
Defined.

Lemma positive_minimum_drops_no_forecast_witness :
  fltb fzero (min_deviation_threshold strict_comparator) = true /\
  In no_forecast_row [in_range_row; no_forecast_row] /\
  (status no_forecast_row = NO_FORECAST ->
   ~ In no_forecast_row
       (filter_anomalies strict_comparator [in_range_row; no_forecast_row])) /\
  (status no_forecast_row = IN_RANGE ->
   return_only_anomalies strict_comparator = false ->
   In no_forecast_row
      (filter_anomalies strict_comparator [in_range_row; no_forecast_row])).
Proof.
  split; [ reflexivity | ]. split; [ right; left; reflexivity | ].
  apply (@positive_minimum_drops_no_forecast float_of_decimal no_str
           strict_comparator [in_range_row; no_forecast_row]).
  - reflexivity.
  - intros r [<- | [<- | []]].
    + exists "m"%string, (VStr scenario_cell), (VInt 950), VNone.
      reflexivity.
    + exists "n"%string, (VStr "0|0|0|0|0|0|0|0|0|0"), (VInt 7), VNone.
      reflexivity.
  - right. left. reflexivity.
Defined.

Lemma split_recovers_joined_dimensions_witness :
  let r := mkResult None "desktop_organic" 950 1000 900 1100 IN_RANGE
             (Fin 0) in
  map fst (split_metric_to_dimensions dimension_comparator [in_range_row; r])
  = [in_range_row; r] /\
  In (r, [("platform", Some "desktop"); ("channel", Some "organic")]%string)
     (split_metric_to_dimensions dimension_comparator [in_range_row; r]).
Proof.
  apply (@split_recovers_joined_dimensions dimension_comparator
           ["platform"; "channel"]%string ["desktop"; "organic"]%string).
  - reflexivity.
  - discriminate.
  - right. left. reflexivity.
  - reflexivity.
  - reflexivity.
  - repeat constructor.
Defined.

Lemma deviation_process_idempotent_witness :
  DeviationFilter.process five_percent_filter deviation_results
    = Ok deviation_results_filtered /\
  List.length (rows deviation_results_filtered) = 2%nat /\
  DeviationFilter.process five_percent_filter deviation_results_filtered
    = Ok deviation_results_filtered.
Proof.
  split; [ reflexivity | ]. split; [ reflexivity | ].
  apply (@deviation_process_idempotent five_percent_filter
           deviation_results deviation_results_filtered).
  reflexivity.
Defined.

Lemma deviation_and_status_filters_commute_witness :
  DeviationFilter.process five_percent_filter deviation_results
    = Ok deviation_results_filtered /\
  DeviationFilter.process five_percent_filter
    (AnomalyFilter.process (AnomalyFilter.init true) deviation_results)
  = Ok (AnomalyFilter.process (AnomalyFilter.init true)
          deviation_results_filtered).
Proof.
  split; [ reflexivity | ].
  apply (@deviation_and_status_filters_commute five_percent_filter
           (AnomalyFilter.init true) deviation_results
           deviation_results_filtered).
  reflexivity.
Defined.

Lemma cumulative_selection_is_top_set_witness :
  filter_cumulative_threshold volume_rows forecast (Fin (95 # 100)) <> []%list
  /\
  (forall r r',
     In r (filter_cumulative_threshold volume_rows forecast
             (Fin (95 # 100))) ->
     In r' volume_rows -> forecast r <= forecast r' ->
     In r' (filter_cumulative_threshold volume_rows forecast
              (Fin (95 # 100)))) /\
  (forall r, In r volume_rows ->
     (forall r', In r' volume_rows -> forecast r' <= forecast r) ->
     In r (filter_cumulative_threshold volume_rows forecast
             (Fin (95 # 100)))).
Proof.
  apply (@cumulative_selection_is_top_set volume_rows forecast
           (Fin (95 # 100))).
  discriminate.
Defined.




Lemma filtered_actual_rows_match_kept_metrics_witness :
  empty volume_actual = false /\
  index volume_actual = range_index (List.length (rows volume_actual)) /\
  columns (CumulativeThresholdFilter.filter_actual_by_metrics
             example_pre_filter (One "platform"%string) volume_actual
             ["a"%string])
  = columns volume_actual /\
  List.length
    (rows (CumulativeThresholdFilter.filter_actual_by_metrics
             example_pre_filter (One "platform"%string) volume_actual
             ["a"%string])) = 1%nat.
Proof.
  split; [ reflexivity | ]. split; [ reflexivity | ].
  destruct (@filtered_actual_rows_match_kept_metrics example_pre_filter
              (One "platform"%string) volume_actual ["a"%string]
              eq_refl eq_refl) as (Hcols & _ & _).
  split; [ exact Hcols | reflexivity ].
Defined.

Lemma constructed_writer_key_file_witness :
  BigQueryDataWriter.init (fun path => path) (fun _ => true) (fun _ => true)
    (Some "/keys/account.json"%string) None (Some "analytics"%string)
    (Some "anomalies"%string) "CREATE_IF_NEEDED" "WRITE_APPEND"
  = Ok example_writer /\
  BigQueryDataWriter.service_account_file example_writer
  = Some "/keys/account.json"%string /\
  endswith "/keys/account.json" ".json" = true.
Proof.
  split; [ reflexivity | ]. split; [ reflexivity | ].
  destruct (@constructed_writer_key_file (fun path => path) (fun _ => true)
              (fun _ => true) (Some "/keys/account.json"%string) None
              (Some "analytics"%string) (Some "anomalies"%string)
              "CREATE_IF_NEEDED" "WRITE_APPEND" example_writer eq_refl)
    as (_ & _ & _ & [[[H | H] _] | (given & Hg & _ & _ & _ & _ & He)]).
  - discriminate H.
  - discriminate H.
  - injection Hg as <-. exact He.
Defined.

Lemma pre_filter_keeps_longest_prefix_under_threshold_witness :
  tied_series <> [] /\
  (0 < 13)%Q /\
  CumulativeThresholdFilter.metrics_under_threshold half_pre_filter
    tied_series (Fin 13) = Some ["d"%string] /\
  exists n,
    (1 <= n <= 4)%nat /\
    ["d"%string] = map fst (firstn n tied_series).
Proof.
  assert (Hne : tied_series <> []) by discriminate.
  assert (Hpos : (0 < 13)%Q) by reflexivity.
  assert (Hkept : CumulativeThresholdFilter.metrics_under_threshold
                    half_pre_filter tied_series (Fin 13)
                  = Some ["d"%string]) by (vm_compute; reflexivity).
  split; [ exact Hne | ]. split; [ exact Hpos | ].
  split; [ exact Hkept | ].
  destruct (@pre_filter_keeps_longest_prefix_under_threshold
              half_pre_filter tied_series 13 ["d"%string] Hne)
    as (_ & n & Hn & Hk & _).
  - intros nv [<- | [<- | [<- | [<- | []]]]]; eexists;
      (split; [ reflexivity | discriminate ]).
  - exact Hpos.
  - exact Hkept.
  - exists n. split; [ exact Hn | exact Hk ].
Defined.

Lemma run_result_went_through_every_stage_witness :
  fst (run example_workflow)
  = Ok (AnomalyFilter.process (AnomalyFilter.init true) four_status_results)
  /\
  fst (data_writer example_workflow
         (AnomalyFilter.process (AnomalyFilter.init true)
            four_status_results)) = Ok tt.
Proof.
  split; [ reflexivity | ].
  destruct (@run_result_went_through_every_stage example_workflow
              (AnomalyFilter.process (AnomalyFilter.init true)
                 four_status_results) eq_refl)
    as (_ & Hw & _).
  exact Hw.
Defined.
